(** * ofb-scraper: the record extractor, the store and the report queries

    A shallow embedding of [scrape_two_step.py] (the module the chart test
    imports) and of the places where its older sibling
    [scrape_two_step_clickevent-working.py] differs.

    Conventions.
    - A Python [str] is a [string]; every [ascii] is read as the code point
      of the same number (U+0000 to U+00FF).  The character classes
      ([str.isdigit], [str.isspace], the regular expression classes) are the
      Unicode ones restricted to that range.
    - A Python [dict] with string keys is a [gmap string pyval]; the values
      are [None], integers and texts, which is what the extractor builds and
      what the store binds.
    - A raised exception is the [Raise] branch of [outcome].
    - Python integers and SQLite integers are mathematical integers; the 64
      bit range of the engine is outside the model, and so are the coercion
      that column affinity applies to the pass-through columns when they are
      stored and the interpreter's limit on the length of a numeral that
      [int] converts.
    - The floats of the date arithmetic hold whole seconds and milliseconds
      far below 2^53, so they are exact and appear as integers.
    - The time zone of the process is the function [utcoffset], which gives
      the offset of local time from UTC, in seconds, at an instant. *)

From Stdlib Require Import ZArith Ascii String List Lia Bool.
From Stdlib Require Import DecimalString.
From Stdlib Require Import Sorted.
From stdpp Require Import base option list gmap strings.

Local Open Scope string_scope.
Local Open Scope Z_scope.
Local Open Scope list_scope.

(** ** Python values and exceptions *)

Inductive pyval :=
| PNone
| PInt (n : Z)
| PStr (s : string).

#[export] Instance pyval_eq_dec : EqDecision pyval.
Proof. solve_decision. Defined.

Inductive exn :=
| ValueError
| TypeError
| IntegrityError.

Inductive outcome (A : Type) :=
| Ok (a : A)
| Raise (e : exn).
Arguments Ok {A} a.
Arguments Raise {A} e.

Definition rbind {A B} (r : outcome A) (k : A -> outcome B) : outcome B :=
  match r with
  | Ok a => k a
  | Raise e => Raise e
  end.

Notation "x <- r ;;; k" := (rbind r (fun x => k))
  (at level 100, r at next level, right associativity,
   format "'[v' x  <-  r  ;;; '/' k ']'").

(** [bool(v)] *)
Definition truthy (v : pyval) : bool :=
  match v with
  | PNone => false
  | PInt n => negb (n =? 0)
  | PStr s => negb (String.eqb s "")
  end.

(** ** Characters and strings *)

Definition code (c : ascii) : N := N_of_ascii c.

(** Decimal digits (category Nd): the ten ASCII digits. *)
Definition is_decimal (c : ascii) : bool :=
  ((48 <=? code c) && (code c <=? 57))%N.

(** [str.isdigit] on one character: the decimal digits and the superscript
    digits U+00B2, U+00B3, U+00B9. *)
Definition char_isdigit (c : ascii) : bool :=
  is_decimal c || (code c =? 178)%N || (code c =? 179)%N || (code c =? 185)%N.

(** White space as [str.isspace], [str.strip] and the class [\s] see it. *)
Definition char_isspace (c : ascii) : bool :=
  (((9 <=? code c) && (code c <=? 13)) || ((28 <=? code c) && (code c <=? 32))
   || (code c =? 133) || (code c =? 160))%N.

Definition digit_value (c : ascii) : Z := Z.of_N (code c) - 48.

Fixpoint string_forallb (f : ascii -> bool) (s : string) : bool :=
  match s with
  | EmptyString => true
  | String c r => f c && string_forallb f r
  end.

(** [s.isdigit()] *)
Definition isdigit (s : string) : bool :=
  negb (String.eqb s "") && string_forallb char_isdigit s.

Fixpoint lstrip (s : string) : string :=
  match s with
  | EmptyString => EmptyString
  | String c r => if char_isspace c then lstrip r else s
  end.

Fixpoint rstrip (s : string) : string :=
  match s with
  | EmptyString => EmptyString
  | String c r =>
      match rstrip r with
      | EmptyString => if char_isspace c then EmptyString else String c EmptyString
      | r' => String c r'
      end
  end.

(** [s.strip()] *)
Definition strip (s : string) : string := rstrip (lstrip s).

(** [s.startswith(p)] and the rest of [s] after [p] *)
Fixpoint strip_prefix (p s : string) : option string :=
  match p, s with
  | EmptyString, _ => Some s
  | String a p', String b s' => if Ascii.eqb a b then strip_prefix p' s' else None
  | String _ _, EmptyString => None
  end.

(** [sub in s] *)
Fixpoint contains (sub s : string) : bool :=
  match strip_prefix sub s with
  | Some _ => true
  | None =>
      match s with
      | EmptyString => false
      | String _ r => contains sub r
      end
  end.

(** [s.split(sep)] for a separator of at least one character: the pieces
    between the occurrences of [sep], found from the left without overlap.
    [fuel] bounds the number of characters looked at. *)
Fixpoint str_split_go (fuel : nat) (sep : string) (cur : string) (s : string) : list string :=
  match fuel with
  | O => [cur]
  | S fuel' =>
      match s with
      | EmptyString => [cur]
      | String c r =>
          match strip_prefix sep s with
          | Some rest => cur :: str_split_go fuel' sep EmptyString rest
          | None => str_split_go fuel' sep (cur +:+ String c EmptyString) r
          end
      end
  end.

Definition str_split (sep s : string) : list string :=
  str_split_go (S (String.length s)) sep EmptyString s.

(** [s.replace(old, new)] for a non-empty [old], every occurrence from the
    left without overlap. *)
Fixpoint str_replace_go (fuel : nat) (old new : string) (s : string) : string :=
  match fuel with
  | O => s
  | S fuel' =>
      match s with
      | EmptyString => EmptyString
      | String c r =>
          match strip_prefix old s with
          | Some rest => new +:+ str_replace_go fuel' old new rest
          | None => String c (str_replace_go fuel' old new r)
          end
      end
  end.

Definition str_replace (old new s : string) : string :=
  str_replace_go (S (String.length s)) old new s.

(** The decimal numeral of an integer, [str(n)]. *)
Definition str_of_Z (n : Z) : string := NilZero.string_of_int (Z.to_int n).

(** [str(v)] *)
Definition py_str (v : pyval) : string :=
  match v with
  | PNone => "None"
  | PInt n => str_of_Z n
  | PStr s => s
  end.

(** [int(s)] for a string: white space around the numeral is dropped, one
    sign may lead, and the numeral is decimal digits with single underscores
    between them.  Anything else raises [ValueError]; the superscript digits
    are not decimal digits. *)
Fixpoint int_digits (s : string) (acc : Z) (after_digit : bool) : option Z :=
  match s with
  | EmptyString => if after_digit then Some acc else None
  | String c r =>
      if is_decimal c then int_digits r (10 * acc + digit_value c) true
      else if Ascii.eqb c "_" && after_digit then int_digits r acc false
      else None
  end.

Definition int_of_str (s : string) : outcome Z :=
  let body :=
    match strip s with
    | String "+" r => int_digits r 0 false
    | String "-" r => Z.opp <$> int_digits r 0 false
    | t => int_digits t 0 false
    end in
  match body with
  | Some n => Ok n
  | None => Raise ValueError
  end.

(** [int(v)] *)
Definition py_int (v : pyval) : outcome Z :=
  match v with
  | PNone => Raise TypeError
  | PInt n => Ok n
  | PStr s => int_of_str s
  end.

(** ** Calendar arithmetic of [datetime] *)

Record datetime := {
  year : Z; month : Z; day : Z;
  hour : Z; minute : Z; second : Z
}.

Definition MINYEAR : Z := 1.
Definition MAXYEAR : Z := 9999.

Definition is_leap (y : Z) : bool :=
  (y mod 4 =? 0) && (negb (y mod 100 =? 0) || (y mod 400 =? 0)).

Definition days_in_month (y m : Z) : Z :=
  if m =? 2 then (if is_leap y then 29 else 28)
  else if (m =? 4) || (m =? 6) || (m =? 9) || (m =? 11) then 30
  else 31.

Definition days_before_year (y : Z) : Z :=
  let y := y - 1 in y * 365 + y / 4 - y / 100 + y / 400.

Definition days_before_month_table (m : Z) : Z :=
  match m with
  | 1 => 0 | 2 => 31 | 3 => 59 | 4 => 90 | 5 => 120 | 6 => 151
  | 7 => 181 | 8 => 212 | 9 => 243 | 10 => 273 | 11 => 304 | 12 => 334
  | _ => 0
  end.

Definition days_before_month (y m : Z) : Z :=
  days_before_month_table m + (if (2 <? m) && is_leap y then 1 else 0).

(** Proleptic Gregorian ordinal, 0001-01-01 being day 1. *)
Definition ymd2ord (y m d : Z) : Z :=
  days_before_year y + days_before_month y m + d.

Definition ord2ymd (n : Z) : Z * Z * Z :=
  let n := n - 1 in
  let n400 := n / 146097 in
  let n := n mod 146097 in
  let n100 := n / 36524 in
  let n := n mod 36524 in
  let n4 := n / 1461 in
  let n := n mod 1461 in
  let n1 := n / 365 in
  let n := n mod 365 in
  let y := n400 * 400 + 1 + n100 * 100 + n4 * 4 + n1 in
  if (n1 =? 4) || (n100 =? 4) then (y - 1, 12, 31)
  else
    let leapyear := (n1 =? 3) && (negb (n4 =? 24) || (n100 =? 3)) in
    let m := Z.shiftr (n + 50) 5 in
    let preceding :=
      days_before_month_table m + (if (2 <? m) && leapyear then 1 else 0) in
    if n <? preceding then
      let m' := m - 1 in
      let preceding' :=
        preceding - (days_in_month 1 m' + (if (m' =? 2) && leapyear then 1 else 0)) in
      (y, m', n - preceding' + 1)
    else (y, m, n - preceding + 1).

Definition EPOCH_ORDINAL : Z := 719163.
Definition MAX_ORDINAL : Z := 3652059.

(** Seconds from 1970-01-01T00:00:00 to the given wall clock reading, both
    read in the same zone. *)
Definition utc_to_seconds (dt : datetime) : Z :=
  (((ymd2ord (year dt) (month dt) (day dt) - EPOCH_ORDINAL) * 24 + hour dt) * 60
   + minute dt) * 60 + second dt.

(** The wall clock reading that is [l] seconds after 1970-01-01T00:00:00;
    none when the year leaves [MINYEAR .. MAXYEAR]. *)
Definition of_seconds (l : Z) : option datetime :=
  let ord := l / 86400 + EPOCH_ORDINAL in
  let r := l mod 86400 in
  if (1 <=? ord) && (ord <=? MAX_ORDINAL) then
    let '(y, m, d) := ord2ymd ord in
    Some {| year := y; month := m; day := d;
            hour := r / 3600; minute := (r mod 3600) / 60; second := r mod 60 |}
  else None.

Definition digit_char (d : Z) : ascii := ascii_of_N (Z.to_N (48 + d)).

Definition pad2 (n : Z) : string :=
  String (digit_char (n / 10 mod 10)) (String (digit_char (n mod 10)) EmptyString).

Definition pad4 (n : Z) : string :=
  String (digit_char (n / 1000 mod 10)) (String (digit_char (n / 100 mod 10)) (pad2 n)).

(** [dt.strftime('%Y-%m-%d %H:%M:%S')]; the year is written with four
    digits, which is what the C library does from the year 1000 on. *)
Definition strftime_iso (dt : datetime) : string :=
  pad4 (year dt) +:+ "-" +:+ pad2 (month dt) +:+ "-" +:+ pad2 (day dt) +:+ " "
  +:+ pad2 (hour dt) +:+ ":" +:+ pad2 (minute dt) +:+ ":" +:+ pad2 (second dt).

Section LocalTime.

(** The offset of local time from UTC, in seconds, at the instant [u]. *)
Variable utcoffset : Z -> Z.

(** [time.localtime(u)] as a [datetime]. *)
Definition localtime (u : Z) : outcome datetime :=
  match of_seconds (u + utcoffset u) with
  | Some dt => Ok dt
  | None => Raise ValueError
  end.

Definition local (u : Z) : outcome Z :=
  dt <- localtime u ;;; Ok (utc_to_seconds dt).

Definition max_fold_seconds : Z := 24 * 3600.

(** [dt.timestamp()] of a naive [datetime] (fold 0), in whole seconds: the
    instant whose local wall clock reading is [dt]. *)
Definition timestamp (dt : datetime) : outcome Z :=
  let t := utc_to_seconds dt in
  lt <- local t ;;;
  let a := lt - t in
  let u1 := t - a in
  t1 <- local u1 ;;;
  let finish (b : Z) : outcome Z :=
    let u2 := t - b in
    t2 <- local u2 ;;;
    if t2 =? t then Ok u2
    else if t1 =? t then Ok u1
    else Ok (Z.max u1 u2) in
  if t1 =? t then
    let u2 := u1 - max_fold_seconds in
    lt2 <- local u2 ;;;
    let b := lt2 - u2 in
    if a =? b then Ok u1 else finish b
  else finish (t1 - u1).

(** [datetime.fromtimestamp(timet)] for whole seconds: the local wall clock
    reading, after the probe one day earlier that sets the fold attribute. *)
Definition fromtimestamp (timet : Z) : outcome datetime :=
  dt <- localtime timet ;;;
  let result_seconds := utc_to_seconds dt in
  probe_seconds <- local (timet - max_fold_seconds) ;;;
  let transition := result_seconds - probe_seconds - max_fold_seconds in
  if transition <? 0 then
    _ <- local (timet + transition) ;;; Ok dt
  else Ok dt.

(** [datetime.fromtimestamp(ms / 1000)]: the quotient is a float, and the
    microsecond normalisation rounds it down to the second; the fraction
    plays no part in the date string. *)
Definition fromtimestamp_ms (ms : Z) : outcome datetime :=
  fromtimestamp (ms / 1000).

End LocalTime.

(** ** [datetime.strptime(s, '%d.%m.%Y, %H:%M')]

    The format is compiled to the regular expression
    [(3[0-1]|[1-2]\d|0[1-9]|[1-9]| [1-9])\.(1[0-2]|0[1-9]|[1-9])\.(\d\d\d\d),\s+(2[0-3]|[0-1]\d|\d):([0-5]\d|\d)]
    and matched at the start of the text.  A backtracking matcher is a list
    of successes: every way to match, in the order the matcher tries them,
    with the text left over. *)

Definition rx (A : Type) : Type := string -> list (A * string).

Definition rx_ret {A} (a : A) : rx A := fun s => [(a, s)].

Definition rx_bind {A B} (p : rx A) (k : A -> rx B) : rx B :=
  fun s => flat_map (fun '(a, r) => k a r) (p s).

Definition rx_alt {A} (p q : rx A) : rx A := fun s => p s ++ q s.

(** One decimal digit whose value lies in [lo .. hi]. *)
Definition rx_digit (lo hi : Z) : rx Z :=
  fun s =>
    match s with
    | String c r =>
        if is_decimal c && (lo <=? digit_value c) && (digit_value c <=? hi)
        then [(digit_value c, r)] else []
    | EmptyString => []
    end.

(** One given character. *)
Definition rx_lit (c : ascii) : rx unit :=
  fun s =>
    match s with
    | String c' r => if Ascii.eqb c c' then [(tt, r)] else []
    | EmptyString => []
    end.

(** [\s+], greedy: the longest run first. *)
Fixpoint rx_spaces (s : string) : list (unit * string) :=
  match s with
  | String c r => if char_isspace c then rx_spaces r ++ [(tt, r)] else []
  | EmptyString => []
  end.

Notation "x <~ p ;;; k" := (rx_bind p (fun x => k))
  (at level 100, p at next level, right associativity,
   format "'[v' x  <~  p  ;;; '/' k ']'").

Definition rx_two (lo1 hi1 lo2 hi2 : Z) : rx Z :=
  a <~ rx_digit lo1 hi1 ;;; b <~ rx_digit lo2 hi2 ;;; rx_ret (10 * a + b).

Definition re_d : rx Z :=
  rx_alt (rx_two 3 3 0 1)
    (rx_alt (rx_two 1 2 0 9)
       (rx_alt (rx_two 0 0 1 9)
          (rx_alt (rx_digit 1 9)
             (_ <~ rx_lit " " ;;; rx_digit 1 9)))).

Definition re_m : rx Z :=
  rx_alt (rx_two 1 1 0 2) (rx_alt (rx_two 0 0 1 9) (rx_digit 1 9)).

Definition re_Y : rx Z :=
  a <~ rx_digit 0 9 ;;; b <~ rx_digit 0 9 ;;;
  c <~ rx_digit 0 9 ;;; d <~ rx_digit 0 9 ;;;
  rx_ret (1000 * a + 100 * b + 10 * c + d).

Definition re_H : rx Z :=
  rx_alt (rx_two 2 2 0 3) (rx_alt (rx_two 0 1 0 9) (rx_digit 0 9)).

Definition re_M : rx Z :=
  rx_alt (rx_two 0 5 0 9) (rx_digit 0 9).

Definition re_format : rx datetime :=
  d <~ re_d ;;; _ <~ rx_lit "." ;;;
  m <~ re_m ;;; _ <~ rx_lit "." ;;;
  y <~ re_Y ;;; _ <~ rx_lit "," ;;; _ <~ rx_spaces ;;;
  H <~ re_H ;;; _ <~ rx_lit ":" ;;;
  M <~ re_M ;;;
  rx_ret {| year := y; month := m; day := d; hour := H; minute := M; second := 0 |}.

Definition strptime (s : string) : outcome datetime :=
  match re_format s with
  | [] => Raise ValueError
  | (dt, rest) :: _ =>
      if negb (String.eqb rest "") then Raise ValueError
      else if (MINYEAR <=? year dt) && (day dt <=? days_in_month (year dt) (month dt))
      then Ok dt
      else Raise ValueError
  end.

(** ** The store: the tables [players] and [games]

    [DirectPage] is [scrape_two_step.py]; [ClickEvent] is the older sibling,
    whose [games] table has no [age_group] column (the field stays [PNone]
    there) and whose report queries have no date window. *)

Inductive variant := DirectPage | ClickEvent.

Record player_row := {
  p_player_id : Z;
  p_player_name : string;
  p_team : string;
  p_season_year : Z;
  p_last_updated : string
}.

Record game_row := {
  g_id : Z;
  g_player_id : Z;
  g_game_date : option string;
  g_competition : pyval;
  g_age_group : pyval;
  g_round : pyval;
  g_home_team : pyval;
  g_away_team : pyval;
  g_result : pyval;
  g_minutes_played : Z;
  g_goals : Z;
  g_location : pyval;
  g_match_link : pyval;
  g_game_timestamp : pyval;
  g_last_updated : string
}.

(** [games_seq] is the row of [sqlite_sequence] that AUTOINCREMENT keeps. *)
Record database := {
  players : list player_row;
  games : list game_row;
  games_seq : Z
}.

(** [init_database] on a fresh file. *)
Definition init_database : database :=
  {| players := []; games := []; games_seq := 0 |}.

(** INSERT OR REPLACE INTO players: the row with the same primary key goes,
    the new one is appended. *)
Definition save_player_to_db (now : string) (player_id : Z) (player_name team : string)
    (year : Z) (d : database) : database :=
  {| players :=
       List.filter (fun r => negb (p_player_id r =? player_id)) (players d)
       ++ [ {| p_player_id := player_id; p_player_name := player_name;
               p_team := team; p_season_year := year; p_last_updated := now |} ];
     games := games d;
     games_seq := games_seq d |}.

Abbreviation dict := (gmap string pyval).

(** [game.get(key, dflt)] *)
Definition get (game : dict) (key : string) (dflt : pyval) : pyval :=
  default dflt (game !! key).

(** [a = b] in SQL, as a condition that holds: NULL equals nothing. *)
Definition sql_eq (a b : pyval) : bool :=
  match a, b with
  | PNone, _ | _, PNone => false
  | _, _ => bool_decide (a = b)
  end.

(** WHERE player_id = ? AND game_timestamp = ? *)
Definition key_matches (player_id : Z) (timestamp : pyval) (g : game_row) : bool :=
  (g_player_id g =? player_id) && sql_eq (g_game_timestamp g) timestamp.

Definition max_rowid (rows : list game_row) : Z :=
  foldr (fun g m => Z.max (g_id g) m) 0 rows.

(** [int(x) if str(x).isdigit() else 0] *)
Definition to_int_or_zero (x : pyval) : outcome Z :=
  if isdigit (py_str x) then py_int x else Ok 0.

(** The SET clause of the UPDATE: every column but the key, the date string
    and the row id. *)
Definition set_columns (v : variant) (now : string) (game : dict)
    (minutes_int goals_int : Z) (g : game_row) : game_row :=
  {| g_id := g_id g;
     g_player_id := g_player_id g;
     g_game_date := g_game_date g;
     g_competition := get game "bewerb" (PStr "");
     g_age_group :=
       match v with
       | DirectPage => get game "ageGroup" (PStr "")
       | ClickEvent => g_age_group g
       end;
     g_round := get game "runde" (PInt 0);
     g_home_team := get game "heimMannschaft" (PStr "");
     g_away_team := get game "gastMannschaft" (PStr "");
     g_result := get game "ergebnis" (PStr "");
     g_minutes_played := minutes_int;
     g_goals := goals_int;
     g_location := get game "spielortBezeichnung" (PStr "");
     g_match_link := get game "actionLink" (PStr "");
     g_game_timestamp := g_game_timestamp g;
     g_last_updated := now |}.

(** UPDATE games SET ... WHERE player_id = ? AND game_timestamp = ? *)
Definition sql_update_game (v : variant) (now : string) (player_id : Z) (timestamp : pyval)
    (game : dict) (minutes_int goals_int : Z) (rows : list game_row) : list game_row :=
  map (fun g =>
         if key_matches player_id timestamp g
         then set_columns v now game minutes_int goals_int g
         else g) rows.

(** The VALUES of the INSERT. *)
Definition values_row (v : variant) (now : string) (rowid player_id : Z)
    (game_date : option string) (timestamp : pyval) (game : dict)
    (minutes_int goals_int : Z) : game_row :=
  {| g_id := rowid;
     g_player_id := player_id;
     g_game_date := game_date;
     g_competition := get game "bewerb" (PStr "");
     g_age_group :=
       match v with
       | DirectPage => get game "ageGroup" (PStr "")
       | ClickEvent => PNone
       end;
     g_round := get game "runde" (PInt 0);
     g_home_team := get game "heimMannschaft" (PStr "");
     g_away_team := get game "gastMannschaft" (PStr "");
     g_result := get game "ergebnis" (PStr "");
     g_minutes_played := minutes_int;
     g_goals := goals_int;
     g_location := get game "spielortBezeichnung" (PStr "");
     g_match_link := get game "actionLink" (PStr "");
     g_game_timestamp := timestamp;
     g_last_updated := now |}.

(** INSERT INTO games (...) VALUES (...), under the constraints of the
    schema: [game_timestamp] NOT NULL and UNIQUE(player_id, game_timestamp). *)
Definition sql_insert_game (v : variant) (now : string) (player_id : Z)
    (game_date : option string) (timestamp : pyval) (game : dict)
    (minutes_int goals_int : Z) (d : database) : outcome database :=
  match timestamp with
  | PNone => Raise IntegrityError
  | _ =>
      if existsb (key_matches player_id timestamp) (games d) then Raise IntegrityError
      else
        let rowid := Z.max (games_seq d) (max_rowid (games d)) + 1 in
        Ok {| players := players d;
              games :=
                games d ++
                [ values_row v now rowid player_id game_date timestamp game
                    minutes_int goals_int ];
              games_seq := rowid |}
  end.

Section Store.

Variable v : variant.
Variable utcoffset : Z -> Z.

(** The ISO string of the kick-off, or NULL for a falsy time stamp. *)
Definition game_date_of (timestamp : pyval) : outcome (option string) :=
  if truthy timestamp then
    match timestamp with
    | PInt ms => dt <- fromtimestamp_ms utcoffset ms ;;; Ok (Some (strftime_iso dt))
    | _ => Raise TypeError
    end
  else Ok None.

(** One turn of the loop of [save_games_to_db]; [now] is CURRENT_TIMESTAMP.
    The state is the open transaction with the two counters. *)
Definition save_game (now : string) (player_id : Z) (game : dict)
    (st : database * nat * nat) : outcome (database * nat * nat) :=
  let '(d, new_games, updated_games) := st in
  let timestamp := get game "anstoss" (PInt 0) in
  game_date <- game_date_of timestamp ;;;
  let existing := List.find (key_matches player_id timestamp) (games d) in
  let minutes := get game "einsatzMinuten" (PStr "0") in
  let goals := get game "tore" (PStr "0") in
  minutes_int <- to_int_or_zero minutes ;;;
  goals_int <- to_int_or_zero goals ;;;
  match existing with
  | Some _ =>
      Ok ({| players := players d;
             games := sql_update_game v now player_id timestamp game
                        minutes_int goals_int (games d);
             games_seq := games_seq d |},
          new_games, S updated_games)
  | None =>
      d' <- sql_insert_game v now player_id game_date timestamp game
              minutes_int goals_int d ;;;
      Ok (d', S new_games, updated_games)
  end.

(** [clock i] is the reading of CURRENT_TIMESTAMP in the i-th turn. *)
Fixpoint save_games_loop (clock : nat -> string) (player_id : Z) (games_data : list dict)
    (st : database * nat * nat) : outcome (database * nat * nat) :=
  match games_data with
  | [] => Ok st
  | game :: rest =>
      st' <- save_game (clock 0%nat) player_id game st ;;;
      save_games_loop (fun i => clock (S i)) player_id rest st'
  end.

(** [save_games_to_db]: the stored data afterwards and what the call
    returns.  The transaction is committed at the end of the loop; a call
    that raises commits nothing. *)
Definition save_games_to_db (clock : nat -> string) (player_id : Z) (games_data : list dict)
    (d : database) : database * outcome (nat * nat) :=
  match save_games_loop clock player_id games_data (d, 0%nat, 0%nat) with
  | Ok (d', new_games, updated_games) => (d', Ok (new_games, updated_games))
  | Raise e => (d, Raise e)
  end.

End Store.

(** ** The report queries *)

(** FROM players p LEFT JOIN games g ON p.player_id = g.player_id: a player
    without a game keeps one row, with every column of [g] NULL. *)
Definition left_join (ps : list player_row) (gs : list game_row)
    : list (player_row * option game_row) :=
  flat_map
    (fun p =>
       match List.filter (fun g => g_player_id g =? p_player_id p) gs with
       | [] => [(p, None)]
       | ms => map (fun g => (p, Some g)) ms
       end) ps.

Definition window_lo : string := "2025-08-29".
Definition window_hi : string := "2026-06-08".

(** [x BETWEEN lo AND hi] as a condition that holds; the comparison of TEXT
    is by code point, and NULL is between nothing. *)
Definition sql_between (x : option string) (lo hi : string) : bool :=
  match x with
  | Some s => String.leb lo s && String.leb s hi
  | None => false
  end.

(** WHERE g.game_date BETWEEN '2025-08-29' AND '2026-06-08' *)
Definition in_window (r : player_row * option game_row) : bool :=
  sql_between (r.2 ≫= g_game_date) window_lo window_hi.

(** GROUP BY: one group per key, in the order the keys first appear. *)
Definition group_by {A K : Type} `{EqDecision K} (key : A -> K) (rows : list A)
    : list (K * list A) :=
  map (fun k => (k, List.filter (fun r => bool_decide (key r = k)) rows))
      (remove_dups (map key rows)).

(** SUM: NULL when no value is summed. *)
Definition sql_sum (vals : list (option Z)) : option Z :=
  match omap id vals with
  | [] => None
  | vs => Some (foldr Z.add 0 vs)
  end.

(** The order of SQLite on INTEGER or NULL: NULL comes first. *)
Definition sql_le (a b : option Z) : bool :=
  match a, b with
  | None, _ => true
  | Some _, None => false
  | Some x, Some y => x <=? y
  end.

Fixpoint insert_by (le : option Z -> option Z -> bool) (r : string * option Z)
    (l : list (string * option Z)) : list (string * option Z) :=
  match l with
  | [] => [r]
  | h :: t => if le r.2 h.2 then r :: h :: t else h :: insert_by le r t
  end.

(** ORDER BY total ASC and DESC; rows with equal totals keep their order. *)
Definition order_by_asc (l : list (string * option Z)) : list (string * option Z) :=
  foldr (insert_by sql_le) [] l.

Definition order_by_desc (l : list (string * option Z)) : list (string * option Z) :=
  foldr (insert_by (fun a b => sql_le b a)) [] l.

(** SELECT p.player_name, SUM(g.col) FROM players p LEFT JOIN games g ...
    [WHERE ...] GROUP BY p.player_id, p.player_name *)
Definition select_totals (v : variant) (col : game_row -> Z) (d : database)
    : list (string * option Z) :=
  let joined := left_join (players d) (games d) in
  let kept :=
    match v with
    | DirectPage => List.filter in_window joined
    | ClickEvent => joined
    end in
  map (fun '(k, rows) => (k.2, sql_sum (map (fun r => col <$> r.2) rows)))
      (group_by (fun r => (p_player_id r.1, p_player_name r.1)) kept).

(** HAVING SUM(g.goals) > 0 *)
Definition having_positive (row : string * option Z) : bool :=
  match row.2 with
  | Some t => 0 <? t
  | None => false
  end.

Definition minutes_query (v : variant) (d : database) : list (string * option Z) :=
  order_by_desc (select_totals v g_minutes_played d).

Definition goals_query (v : variant) (d : database) : list (string * option Z) :=
  match v with
  | DirectPage =>
      order_by_desc (List.filter having_positive (select_totals v g_goals d))
  | ClickEvent => order_by_asc (select_totals v g_goals d)
  end.

(** [row[1] if row[1] else 0] *)
Definition total_or_zero (total : option Z) : Z :=
  match total with
  | Some t => if negb (t =? 0) then t else 0
  | None => 0
  end.

(** What a chart function hands to [plt.barh]: the names and the totals; no
    chart at all ([None]) when the query has no row. *)
Definition chart_input (results : list (string * option Z)) : option (list string * list Z) :=
  match results with
  | [] => None
  | _ => Some (map fst results, map (fun row => total_or_zero row.2) results)
  end.

Definition generate_minutes_chart (v : variant) (d : database) : option (list string * list Z) :=
  chart_input (minutes_query v d).

Definition generate_goals_chart (v : variant) (d : database) : option (list string * list Z) :=
  chart_input (goals_query v d).

(** ** The record extractor

    The page is what [soup.find_all('div', class_=re.compile(r'^c\d+'))]
    returns: the matching [div] elements in document order.  Of each one the
    scan reads the class list, the stripped text of the first
    [span.m_g_text_1] inside it, and the first [a] inside it with its [title]
    and [href] attributes. *)

Record a_tag := {
  a_title : option string;
  a_href : option string
}.

Record div_tag := {
  div_class : list string;
  div_text_span : option string;
  div_link : option a_tag
}.

(** [cls.startswith('c') and len(cls) == 2 and cls[1].isdigit()] *)
Definition is_col_class (cls : string) : bool :=
  match cls with
  | String "c" (String d EmptyString) => char_isdigit d
  | _ => false
  end.

Definition col_class_of (d : div_tag) : option string :=
  List.find is_col_class (div_class d).

(** [int(text) if text.isdigit() else 0] *)
Definition int_or_zero (text : string) : outcome Z :=
  if isdigit text then int_of_str text else Ok 0.

(** [bool(current_game)]: the dictionary has a key. *)
Definition nonempty (game : dict) : bool := bool_decide (game ≠ ∅).

(** ['datum' in current_game] *)
Definition has_key (key : string) (game : dict) : bool :=
  bool_decide (is_Some (game !! key)).

(** One turn of the scan over [all_divs]; the state is [games_data] with
    [current_game]. *)
Definition scan_div (d : div_tag) (st : list dict * dict) : outcome (list dict * dict) :=
  let '(games_data, current_game) := st in
  match col_class_of d with
  | None => Ok st
  | Some col_class =>
      let text := default "" (div_text_span d) in
      if String.eqb col_class "c0" then
        let games_data :=
          if nonempty current_game then games_data ++ [current_game] else games_data in
        Ok (games_data, {[ "datum" := PStr text ]})
      else if String.eqb col_class "c1" then
        Ok (games_data, <["bewerb" := PStr text]> current_game)
      else if String.eqb col_class "c2" then
        n <- int_or_zero text ;;;
        Ok (games_data, <["runde" := PInt n]> current_game)
      else if String.eqb col_class "c3" then
        match div_link d with
        | Some link =>
            let title := default "" (a_title link) in
            let current_game :=
              if contains " - " title then
                let teams := str_split " - " title in
                <["gastMannschaft" := PStr (strip (nth 1 teams ""))]>
                  (<["heimMannschaft" := PStr (strip (nth 0 teams ""))]> current_game)
              else current_game in
            Ok (games_data, <["actionLink" := PStr (default "" (a_href link))]> current_game)
        | None =>
            Ok (games_data,
                <["gastMannschaft" := PStr ""]>
                  (<["heimMannschaft" := PStr text]> current_game))
        end
      else if String.eqb col_class "c4" then
        Ok (games_data, <["ergebnis" := PStr text]> current_game)
      else if String.eqb col_class "c5" then
        n <- int_or_zero text ;;;
        Ok (games_data, <["einsatzMinuten" := PInt n]> current_game)
      else if String.eqb col_class "c6" then
        n <- int_or_zero text ;;;
        Ok (games_data, <["tore" := PInt n]> current_game)
      else Ok st
  end.

(** The scan: the state it ends in, and the exception that stopped it, if
    one did. *)
Fixpoint scan_divs (all_divs : list div_tag) (st : list dict * dict)
    : list dict * dict * option exn :=
  match all_divs with
  | [] => (st, None)
  | d :: rest =>
      match scan_div d st with
      | Ok st' => scan_divs rest st'
      | Raise e => (st, Some e)
      end
  end.

(** The scan followed by "Don't forget to add the last game". *)
Definition collect_games (all_divs : list div_tag) : list dict * option exn :=
  match scan_divs all_divs ([], ∅) with
  | (games_data, current_game, None) =>
      (if nonempty current_game && has_key "datum" current_game
       then games_data ++ [current_game] else games_data, None)
  | (games_data, _, Some e) => (games_data, Some e)
  end.

(** The text of a [str] value; the scan stores nothing else under ['datum']
    and ['bewerb']. *)
Definition text_of (x : pyval) : string :=
  match x with
  | PStr s => s
  | _ => ""
  end.

Fixpoint take_decimals (s : string) : string :=
  match s with
  | String c r => if is_decimal c then String c (take_decimals r) else EmptyString
  | EmptyString => EmptyString
  end.

(** [re.search(r'U\d+', bewerb.upper())]: the first U or u that a decimal
    digit follows, with the whole run of digits; the empty tag without one. *)
Fixpoint age_group_of (bewerb : string) : string :=
  match bewerb with
  | EmptyString => EmptyString
  | String c r =>
      if (Ascii.eqb c "U" || Ascii.eqb c "u") && negb (String.eqb (take_decimals r) "")
      then String "U" (take_decimals r)
      else age_group_of r
  end.

Section Extractor.

Variable utcoffset : Z -> Z.

(** The time stamp of a raw date text, [int(date_obj.timestamp() * 1000)];
    0 when the text has no full stop or parsing raises. *)
Definition anstoss_of (datum_str : string) : Z :=
  if negb (String.eqb datum_str "") && contains "." datum_str then
    let date_part := strip (str_replace " Uhr" "" datum_str) in
    match (date_obj <- strptime date_part ;;; timestamp utcoffset date_obj) with
    | Ok seconds => seconds * 1000
    | Raise _ => 0
    end
  else 0.

(** The second loop: the age group and the time stamp of one record. *)
Definition post_process (game : dict) : dict :=
  let datum_str := text_of (get game "datum" (PStr "")) in
  let bewerb := text_of (get game "bewerb" (PStr "")) in
  <["anstoss" := PInt (anstoss_of datum_str)]>
    (<["ageGroup" := PStr (age_group_of bewerb)]> game).

(** [scrape_from_page] from the parsed page on: the records it returns.  An
    exception in the scan is caught, and the records appended so far are
    returned as they are. *)
Definition scrape_from_page (all_divs : list div_tag) : list dict :=
  match collect_games all_divs with
  | (games_data, None) => map post_process games_data
  | (games_data, Some _) => games_data
  end.

End Extractor.

(** ** The wording of the claims, where it differs from the code *)

(** Splitting on the first occurrence of a separator: the text before it and
    the text after it. *)
Fixpoint split_first (sep s : string) : option (string * string) :=
  match strip_prefix sep s with
  | Some rest => Some (EmptyString, rest)
  | None =>
      match s with
      | EmptyString => None
      | String c r =>
          match split_first sep r with
          | Some (before, after) => Some (String c before, after)
          | None => None
          end
      end
  end.

(** ** Vocabulary of the properties *)

(** The business key of a stored row. *)
Definition row_key (g : game_row) : Z * pyval := (g_player_id g, g_game_timestamp g).

(** UNIQUE(player_id, game_timestamp) holds in the table. *)
Definition games_unique (rows : list game_row) : Prop := NoDup (map row_key rows).

(** The rows of the other players. *)
Definition other_player (p : Z) (g : game_row) : bool := negb (g_player_id g =? p).

(** The key of a record, as [save_games_to_db] reads it. *)
Definition timestamp_of (game : dict) : pyval := get game "anstoss" (PInt 0).

(** The conversions that [save_games_to_db] applies to one record succeed;
    the table plays no part in them. *)
Definition converts (utcoffset : Z -> Z) (game : dict) : Prop :=
  (exists game_date, game_date_of utcoffset (timestamp_of game) = Ok game_date) /\
  (exists mi, to_int_or_zero (get game "einsatzMinuten" (PStr "0")) = Ok mi) /\
  (exists gi, to_int_or_zero (get game "tore" (PStr "0")) = Ok gi).

(** A record that [save_games_to_db] can store: the conversions succeed and
    the time stamp is not NULL. *)
Definition storable (utcoffset : Z -> Z) (game : dict) : Prop :=
  converts utcoffset game /\ timestamp_of game <> PNone.

(** The columns of a stored row show the values of a record: the columns
    the statements write from the record, the two counts after conversion. *)
Definition reflects (v : variant) (game : dict) (row : game_row) : Prop :=
  g_competition row = get game "bewerb" (PStr "") /\
  (v = DirectPage -> g_age_group row = get game "ageGroup" (PStr "")) /\
  g_round row = get game "runde" (PInt 0) /\
  g_home_team row = get game "heimMannschaft" (PStr "") /\
  g_away_team row = get game "gastMannschaft" (PStr "") /\
  g_result row = get game "ergebnis" (PStr "") /\
  to_int_or_zero (get game "einsatzMinuten" (PStr "0")) = Ok (g_minutes_played row) /\
  to_int_or_zero (get game "tore" (PStr "0")) = Ok (g_goals row) /\
  g_location row = get game "spielortBezeichnung" (PStr "") /\
  g_match_link row = get game "actionLink" (PStr "").

(** A row of unknown time: its time stamp is 0 (or another falsy value). *)
Definition unknown_time (g : game_row) : bool := negb (truthy (g_game_timestamp g)).

(** Every row of unknown time has a NULL date. *)
Definition unknown_time_dates_null (rows : list game_row) : Prop :=
  Forall (fun g => unknown_time g = true -> g_game_date g = None) rows.

(** The stored data without the rows of unknown time. *)
Definition without_unknown_time (d : database) : database :=
  {| players := players d;
     games := List.filter (fun g => negb (unknown_time g)) (games d);
     games_seq := games_seq d |}.

(** The games of a player that fall in the date window. *)
Definition windowed_games (d : database) (player_id : Z) : list game_row :=
  List.filter
    (fun g => (g_player_id g =? player_id)
              && sql_between (g_game_date g) window_lo window_hi)
    (games d).

(** The total of a column over the games of a player in the window; 0 for a
    player without such a game. *)
Definition window_total (col : game_row -> Z) (d : database) (player_id : Z) : Z :=
  foldr Z.add 0 (map col (windowed_games d player_id)).

(** PRIMARY KEY(player_id) holds in the [players] table. *)
Definition players_unique (ps : list player_row) : Prop := NoDup (map p_player_id ps).

(** The rows that pass the WHERE clause: every game of the window, paired
    with its player. *)
Definition window_rows (d : database) (p : player_row) : list (player_row * option game_row) :=
  map (fun g => (p, Some g)) (windowed_games d (p_player_id p)).

Definition player_key (p : player_row) : Z * string := (p_player_id p, p_player_name p).

Definition row_player_key (r : player_row * option game_row) : Z * string :=
  (p_player_id r.1, p_player_name r.1).

(** The rows of the scorers: name and total of every player whose goals in
    the window sum to more than zero. *)
Definition scorers (d : database) : list (string * option Z) :=
  map (fun p => (p_player_name p, Some (window_total g_goals d (p_player_id p))))
      (List.filter (fun p => 0 <? window_total g_goals d (p_player_id p)) (players d)).

(** The block of a player in the LEFT JOIN. *)
Definition join_rows (d : database) (p : player_row) : list (player_row * option game_row) :=
  match List.filter (fun g => g_player_id g =? p_player_id p) (games d) with
  | [] => [(p, None)]
  | ms => map (fun g => (p, Some g)) ms
  end.

(** The number that a text of decimal digits writes. *)
Fixpoint decimal_value_from (acc : Z) (s : string) : Z :=
  match s with
  | EmptyString => acc
  | String c r => decimal_value_from (10 * acc + digit_value c) r
  end.

Definition decimal_value (s : string) : Z := decimal_value_from 0 s.

(** One character, the superscript two U+00B2. *)
Definition superscript_two : string := String "178" EmptyString.

(** A fragment of one column class with its text and no link. *)
Definition div_of (col_class text : string) : div_tag :=
  {| div_class := [col_class]; div_text_span := Some text; div_link := None |}.

Definition page_minutes_superscript : list div_tag :=
  [div_of "c0" "15.11.2025, 11:30 Uhr"; div_of "c5" superscript_two].

Definition page_competition_first : list div_tag :=
  [div_of "c1" "Liga"; div_of "c0" "15.11.2025, 11:30 Uhr"].

(** The away team as the code takes it from what follows the first
    separator: up to the second separator, when there is one. *)
Definition away_part (after : string) : string :=
  match split_first " - " after with
  | Some (middle, _) => middle
  | None => after
  end.

(** The claim about the teams fragment, in its own words: the title is split
    on its first separator; without a title of that form the visible text is
    the home team and the away team is empty. *)
Definition c3_as_claimed (d : div_tag) : Prop :=
  forall games_data current_game,
  exists g,
    scan_div d (games_data, current_game) = Ok (games_data, g) /\
    let fallback :=
      g !! "heimMannschaft" = Some (PStr (default "" (div_text_span d))) /\
      g !! "gastMannschaft" = Some (PStr "") in
    match div_link d with
    | Some link =>
        match split_first " - " (default "" (a_title link)) with
        | Some (home, away) =>
            g !! "heimMannschaft" = Some (PStr home) /\
            g !! "gastMannschaft" = Some (PStr away) /\
            g !! "actionLink" = Some (PStr (default "" (a_href link)))
        | None => fallback
        end
    | None => fallback
    end.

(** What the code does with a teams fragment. *)
Definition c3_as_amended (d : div_tag) (games_data : list dict) (current_game : dict) : Prop :=
  exists g,
    scan_div d (games_data, current_game) = Ok (games_data, g) /\
    match div_link d with
    | Some link =>
        g !! "actionLink" = Some (PStr (default "" (a_href link))) /\
        forall before after,
          split_first " - " (default "" (a_title link)) = Some (before, after) ->
          g !! "heimMannschaft" = Some (PStr (strip before)) /\
          g !! "gastMannschaft" = Some (PStr (strip (away_part after)))
    | None =>
        g !! "heimMannschaft" = Some (PStr (default "" (div_text_span d))) /\
        g !! "gastMannschaft" = Some (PStr "")
    end.

Definition fragment_three_part_title : div_tag :=
  {| div_class := ["c3"];
     div_text_span := Some "SV A - FC B";
     div_link := Some {| a_title := Some "SV A - FC B - Juniors";
                         a_href := Some "/spiel/1" |} |}.

Definition fragment_title_without_separator : div_tag :=
  {| div_class := ["c3"];
     div_text_span := Some "SV A";
     div_link := Some {| a_title := Some "Spielbericht"; a_href := Some "/spiel/2" |} |}.

(** The text of a kick-off as the page writes it. *)
Definition date_text (d m y H M : Z) : string :=
  pad2 d +:+ ("." +:+ (pad2 m +:+ ("." +:+ (pad4 y +:+ (", " +:+ (pad2 H +:+ (":" +:+ pad2 M))))))).

Definition datum_text (d m y H M : Z) : string := date_text d m y H M +:+ " Uhr".

(** What [strptime] makes of such a text. *)
Definition kick_off (d m y H M : Z) : datetime :=
  {| year := y; month := m; day := d; hour := H; minute := M; second := 0 |}.

(** [ymd2ord] undoes [ord2ymd] at the ordinal [n]. *)
Definition roundtrip_ok (n : Z) : bool :=
  let '(y, m, d) := ord2ymd n in ymd2ord y m d =? n.

Definition check_step (st : Z * bool) : Z * bool :=
  (st.1 + 1, st.2 && roundtrip_ok st.1).

(** A second count that [of_seconds] accepts. *)
Definition in_range (l : Z) : bool :=
  (1 <=? l / 86400 + EPOCH_ORDINAL) && (l / 86400 + EPOCH_ORDINAL <=? MAX_ORDINAL).

(** A record that carries a date field. *)
Definition dated (game : dict) : Prop := is_Some (game !! "datum").

(** While the scan runs, every appended record but the first carries a date,
    and so does the buffered record once a record has been appended. *)
Definition scan_dated (st : list dict * dict) : Prop :=
  Forall dated (tail st.1) /\ (st.1 <> [] -> dated st.2).

(** ** Sample data *)

(** Central European Time without daylight saving: one hour east of UTC. *)
Definition cet (u : Z) : Z := 3600.

(** One game of seven fragments. *)
Definition sample_page : list div_tag :=
  [ div_of "c0" "15.11.2025, 11:30 Uhr";
    div_of "c1" "U13 Meisterschaft";
    div_of "c2" "7";
    {| div_class := ["c3"]; div_text_span := Some "SV A - FC B";
       div_link := Some {| a_title := Some "SV A - FC B"; a_href := Some "/spiel/1" |} |};
    div_of "c4" "2:1";
    div_of "c5" "45";
    div_of "c6" "1" ].

Definition sample_games : list dict := scrape_from_page cet sample_page.

Definition sample_clock (i : nat) : string := "2025-11-16 08:00:00".
Definition later_clock (i : nat) : string := "2025-11-23 08:00:00".

(** The roster entry of the first player, saved into a fresh store. *)
Definition one_saved_player : database :=
  save_player_to_db "2025-11-16 08:00:00" 1416519 "Kayra Akca" "U13" 2026 init_database.

(** Two players saved; the first has the sample game, the second has none. *)
Definition two_saved_players : database :=
  (save_games_to_db DirectPage cet sample_clock 1416519 sample_games
     (save_player_to_db "2025-11-16 08:00:00" 1501804 "Musab Aslan" "U13" 2026
        one_saved_player)).1.

(** The same game with another count of goals. *)
Definition sample_game_corrected : dict :=
  <["tore" := PInt 2]> (default ∅ (head sample_games)).

(** A date text that does not parse, with its counts. *)
Definition unknown_time_page : list div_tag :=
  [ div_of "c0" "garbage"; div_of "c5" "90"; div_of "c6" "3" ].

(** ** The callers: one player, then the roster

    The browser is outside the model.  A visit to a profile hands over the
    matching [div] elements of the rendered page, or nothing when the
    browser raised; the console is left out. *)

Abbreviation stats := (gmap string (list dict)).

(** [scrape_from_page] as its caller sees it: [None] when the browser
    raised. *)
Definition scrape_page (utcoffset : Z -> Z) (page : option (list div_tag))
    : option (list dict) :=
  scrape_from_page utcoffset <$> page.

(** [scrape_player_stats]: no data for [None] and for the empty list. *)
Definition scrape_player_stats (utcoffset : Z -> Z) (page : option (list div_tag))
    : option stats :=
  match scrape_page utcoffset page with
  | Some (game :: rest) => Some {[ "spieleAlle" := game :: rest ]}
  | _ => None
  end.

(** [date_obj.strftime('%d.%m.%Y, %H:%M Uhr')] *)
Definition strftime_de (dt : datetime) : string :=
  pad2 (day dt) +:+ ("." +:+ (pad2 (month dt) +:+ ("." +:+ (pad4 (year dt) +:+ (", " +:+
  (pad2 (hour dt) +:+ (":" +:+ (pad2 (minute dt) +:+ " Uhr")))))))).

(** The date text that [print_player_stats] computes for one record. *)
Definition datum_of (utcoffset : Z -> Z) (game : dict) : outcome string :=
  let timestamp := get game "anstoss" (PInt 0) in
  if truthy timestamp then
    match timestamp with
    | PInt ms => date_obj <- fromtimestamp_ms utcoffset ms ;;; Ok (strftime_de date_obj)
    | _ => Raise TypeError
    end
  else Ok "".

(** The loop of [print_player_stats] over the records. *)
Fixpoint print_games (utcoffset : Z -> Z) (games : list dict) : outcome unit :=
  match games with
  | [] => Ok tt
  | game :: rest => _ <- datum_of utcoffset game ;;; print_games utcoffset rest
  end.

(** [print_player_stats]: what it returns. *)
Definition print_player_stats (utcoffset : Z -> Z) (page : option (list div_tag))
    : outcome (option stats) :=
  match scrape_player_stats utcoffset page with
  | None => Ok None
  | Some data =>
      match data !! "spieleAlle" with
      | None => Ok None
      | Some games => _ <- print_games utcoffset games ;;; Ok (Some data)
      end
  end.

(** [save_player_stats_to_db]; [now] is CURRENT_TIMESTAMP when the player row
    is written, [clock] the readings while the games are. *)
Definition save_player_stats_to_db (v : variant) (utcoffset : Z -> Z)
    (now : string) (clock : nat -> string)
    (player_id : Z) (player_name team : string) (year : Z)
    (data : option stats) (d : database) : database * outcome (nat * nat) :=
  match data with
  | None => (d, Ok (0%nat, 0%nat))
  | Some m =>
      match m !! "spieleAlle" with
      | None => (d, Ok (0%nat, 0%nat))
      | Some games =>
          save_games_to_db v utcoffset clock player_id games
            (save_player_to_db now player_id player_name team year d)
      end
  end.

Record roster_entry := {
  r_name : string;
  r_id : Z;
  r_team : string;
  r_year : Z
}.

(** The roster of [__main__]. *)
Definition roster : list roster_entry :=
  map (fun '(name, id) => {| r_name := name; r_id := id; r_team := "U13"; r_year := 2026 |})
    [ ("Kayra Akca", 1416519); ("Musab Aslan", 1501804); ("Ledian Avdyli", 1397521);
      ("James Bogner", 1526240); ("Alen Bradaric", 1541676); ("Burak Candan", 1492869);
      ("Osman-Demir", 1452690); ("Oskar Doerflinger", 1397635);
      ("Emmanuel-Edosomwan", 1290321); ("Burak-Erdal", 1517009);
      ("Oguzhan-Erkoc", 1208103); ("Fabricio Facalet", 1323567); ("Liam Fleck", 1454580);
      ("Ashab Gemici", 1217525); ("Berat Cetin Hatunoglu", 1360273);
      ("Ismet Inan", 1366003); ("Adrian Jarzmik", 1542533); ("Halil-Keskin", 1302985);
      ("Mert Koese", 1350034); ("Valerio Molony", 1447767); ("Dominik Muellner", 1240755);
      ("Asaf Ordulu", 1416861); ("Anthony Rodriguez", 1370839);
      ("Daniel Strugari", 1453500); ("Talha Temiz", 1449355); ("Cihangir Tosun", 1286934);
      ("Emir Oegmen", 1245535) ].

(** What the world supplies in one turn of the loop of [__main__]: the page
    of the player and the readings of the clock. *)
Record visit := {
  page_of : option (list div_tag);
  now_of : string;
  clock_of : nat -> string
}.

(** [if data:] *)
Definition has_data (data : option stats) : bool :=
  match data with
  | Some m => bool_decide (m ≠ ∅)
  | None => false
  end.

(** One turn of the loop of [__main__]. *)
Definition process_player (utcoffset : Z -> Z) (player : roster_entry) (x : visit)
    (d : database) : database * outcome unit :=
  match print_player_stats utcoffset (page_of x) with
  | Raise e => (d, Raise e)
  | Ok data =>
      if has_data data then
        match save_player_stats_to_db DirectPage utcoffset (now_of x) (clock_of x)
                (r_id player) (r_name player) (r_team player) (r_year player) data d with
        | (d', Ok _) => (d', Ok tt)
        | (d', Raise e) => (d', Raise e)
        end
      else (d, Ok tt)
  end.

(** The loop of [__main__]: an exception ends the run. *)
Fixpoint process_players (utcoffset : Z -> Z) (turns : list (roster_entry * visit))
    (d : database) : database * outcome unit :=
  match turns with
  | [] => (d, Ok tt)
  | (player, x) :: rest =>
      match process_player utcoffset player x d with
      | (d', Ok _) => process_players utcoffset rest d'
      | (d', Raise e) => (d', Raise e)
      end
  end.

(** ** More vocabulary *)

(** The row ids of the [games] table are distinct. *)
Definition rowids_unique (rows : list game_row) : Prop := NoDup (map g_id rows).

(** [game_timestamp] NOT NULL holds in the table. *)
Definition timestamps_not_null (rows : list game_row) : Prop :=
  Forall (fun g => g_game_timestamp g <> PNone) rows.

(** Every game belongs to a saved player: the FOREIGN KEY of the schema,
    which the engine does not enforce unless asked to. *)
Definition games_reference_players (d : database) : Prop :=
  Forall (fun g => g_player_id g ∈ map p_player_id (players d)) (games d).

(** The constraints of the schema. *)
Definition schema_holds (d : database) : Prop :=
  players_unique (players d) /\ games_unique (games d) /\ rowids_unique (games d) /\
  timestamps_not_null (games d) /\ games_reference_players d.

(** What the statements of [save_games_to_db] never change in a row. *)
Definition row_identity (g : game_row) : Z * Z * pyval * option string :=
  (g_id g, g_player_id g, g_game_timestamp g, g_game_date g).

(** The column classes that the scan reads. *)
Definition data_classes : list string := ["c0"; "c1"; "c2"; "c3"; "c4"; "c5"; "c6"].

(** A fragment of one of the seven columns. *)
Definition is_data_div (d : div_tag) : bool :=
  match col_class_of d with
  | Some col_class => bool_decide (col_class ∈ data_classes)
  | None => false
  end.

(** A fragment that starts a record. *)
Definition is_date_div (d : div_tag) : bool :=
  bool_decide (col_class_of d = Some "c0").

(** One game as the page shows it: a run of seven fragments, the teams in
    the title of the link. *)
Record game_run := {
  run_date : string;
  run_competition : string;
  run_round : string;
  run_title : string;
  run_href : string;
  run_result : string;
  run_minutes : string;
  run_goals : string
}.

Definition fragments_of (r : game_run) : list div_tag :=
  [ div_of "c0" (run_date r);
    div_of "c1" (run_competition r);
    div_of "c2" (run_round r);
    {| div_class := ["c3"]; div_text_span := Some (run_title r);
       div_link := Some {| a_title := Some (run_title r); a_href := Some (run_href r) |} |};
    div_of "c4" (run_result r);
    div_of "c5" (run_minutes r);
    div_of "c6" (run_goals r) ].

(** The text of a count converts: it is not a text of digits with a digit
    among them that is not decimal. *)
Definition count_converts (text : string) : bool :=
  implb (isdigit text) (string_forallb is_decimal text).

(** The number a count text stands for: its decimal value, and 0 for a text
    that is not all digits. *)
Definition count_value (text : string) : Z :=
  if isdigit text then decimal_value text else 0.

Definition run_converts (r : game_run) : bool :=
  count_converts (run_round r) && count_converts (run_minutes r)
  && count_converts (run_goals r).

(** The teams of a title: what stands before its first separator, and what
    stands between that one and the next. *)
Definition teams_of (title : string) : list (string * pyval) :=
  match split_first " - " title with
  | Some (before, after) =>
      [ ("heimMannschaft", PStr (strip before));
        ("gastMannschaft", PStr (strip (away_part after))) ]
  | None => []
  end.

(** The fields of the record of a run, column by column. *)
Definition fields_of_run (r : game_run) : list (string * pyval) :=
  [ ("datum", PStr (run_date r));
    ("bewerb", PStr (run_competition r));
    ("runde", PInt (count_value (run_round r))) ]
  ++ teams_of (run_title r) ++
  [ ("actionLink", PStr (run_href r));
    ("ergebnis", PStr (run_result r));
    ("einsatzMinuten", PInt (count_value (run_minutes r)));
    ("tore", PInt (count_value (run_goals r))) ].

(** The record of a run as [scrape_from_page] should return it. *)
Definition record_of_run (utcoffset : Z -> Z) (r : game_run) : dict :=
  list_to_map
    (fields_of_run r ++
     [ ("ageGroup", PStr (age_group_of (run_competition r)));
       ("anstoss", PInt (anstoss_of utcoffset (run_date r))) ]).

(** "Don't forget to add the last game", as the date fragment does it. *)
Definition flush (st : list dict * dict) : list dict :=
  if nonempty st.2 then st.1 ++ [st.2] else st.1.

(** A record as the scan leaves it: the second loop has not run. *)
Definition unprocessed (game : dict) : Prop :=
  game !! "anstoss" = None /\ game !! "ageGroup" = None.

(** The month and the day of day [n] of a year, the first day being day 0:
    the last steps of [ord2ymd]. *)
Definition month_day (leapyear : bool) (n : Z) : Z * Z :=
  let m := Z.shiftr (n + 50) 5 in
  let preceding :=
    days_before_month_table m + (if (2 <? m) && leapyear then 1 else 0) in
  if n <? preceding then
    let m' := m - 1 in
    let preceding' :=
      preceding - (days_in_month 1 m' + (if (m' =? 2) && leapyear then 1 else 0)) in
    (m', n - preceding' + 1)
  else (m, n - preceding + 1).

(** A year that is a leap year, and one that is not. *)
Definition year_like (leapyear : bool) : Z := if leapyear then 4 else 1.

(** [month_day] finds the month and the day again, at a day that is not the
    last of a leap year. *)
Definition month_day_ok (leapyear : bool) (m d : Z) : bool :=
  let n := days_before_month (year_like leapyear) m + d - 1 in
  implb ((d <=? days_in_month (year_like leapyear) m) && (n <=? 364))
        (bool_decide (month_day leapyear n = (m, d))).

Definition months_ok (leapyear : bool) : bool :=
  forallb
    (fun m => forallb (month_day_ok leapyear m) (map (fun i => 1 + Z.of_nat i) (seq 0 31)))
    (map (fun i => 1 + Z.of_nat i) (seq 0 12)).

(** A wall clock reading of a calendar day, to the minute. *)
Definition valid_kick_off (d m y H M : Z) : Prop :=
  1 <= m <= 12 /\ 2 <= y <= 9998 /\ 1 <= d <= days_in_month y m /\
  0 <= H <= 23 /\ 0 <= M <= 59.

(** The rows of the players with a game in the date window: the name and
    the total of a column over those games. *)
Definition window_rows_of (col : game_row -> Z) (d : database) : list (string * option Z) :=
  map (fun p => (p_player_name p, Some (window_total col d (p_player_id p))))
      (List.filter (fun p => negb (bool_decide (windowed_games d (p_player_id p) = [])))
                   (players d)).

(** All the games of a player. *)
Definition games_of (d : database) (player_id : Z) : list game_row :=
  List.filter (fun g => g_player_id g =? player_id) (games d).

(** The total of a column over all the games of a player; NULL for a player
    without a game. *)
Definition overall_total (col : game_row -> Z) (d : database) (player_id : Z) : option Z :=
  match games_of d player_id with
  | [] => None
  | gs => Some (foldr Z.add 0 (map col gs))
  end.

(** One row for every player: the name and the total over all games. *)
Definition overall_rows_of (col : game_row -> Z) (d : database) : list (string * option Z) :=
  map (fun p => (p_player_name p, overall_total col d (p_player_id p))) (players d).

(** Rows in the order of ORDER BY total DESC, and of ORDER BY total ASC. *)
Definition descending (rows : list (string * option Z)) : Prop :=
  StronglySorted (fun a b => sql_le b.2 a.2 = true) rows.

Definition ascending (rows : list (string * option Z)) : Prop :=
  StronglySorted (fun a b => sql_le a.2 b.2 = true) rows.

(** No stored count is negative. *)
Definition counts_not_negative (rows : list game_row) : Prop :=
  Forall (fun g => 0 <= g_minutes_played g /\ 0 <= g_goals g) rows.

(** Calendar days in their order: year first, then month, then day. *)
Definition date_compare (a b : Z * Z * Z) : comparison :=
  match a.1.1 ?= b.1.1 with
  | Eq => match a.1.2 ?= b.1.2 with
          | Eq => a.2 ?= b.2
          | c => c
          end
  | c => c
  end.

Definition date_le (a b : Z * Z * Z) : bool :=
  match date_compare a b with
  | Gt => false
  | _ => true
  end.

(** The records that a visit finds. *)
Definition visit_records (utcoffset : Z -> Z) (x : visit) : list dict :=
  default [] (scrape_page utcoffset (page_of x)).

(** What a turn of the loop leaves in the store: a row for every record of
    the page, and the player if there is a record. *)
Definition turn_stored (utcoffset : Z -> Z) (d : database) (t : roster_entry * visit) : Prop :=
  Forall (fun game =>
            existsb (key_matches (r_id t.1) (timestamp_of game)) (games d) = true)
         (visit_records utcoffset t.2) /\
  (visit_records utcoffset t.2 <> [] -> r_id t.1 ∈ map p_player_id (players d)).

(** Two turns for the same player that find the same page. *)
Definition same_turn (t1 t2 : roster_entry * visit) : Prop :=
  t1.1 = t2.1 /\ page_of t1.2 = page_of t2.2.

(** ** More sample data *)

(** The sample game as a run, and a second one a week later whose title
    has no separator and whose counts are not numbers. *)
Definition sample_run : game_run :=
  {| run_date := "15.11.2025, 11:30 Uhr"; run_competition := "U13 Meisterschaft";
     run_round := "7"; run_title := "SV A - FC B"; run_href := "/spiel/1";
     run_result := "2:1"; run_minutes := "45"; run_goals := "1" |}.

Definition second_run : game_run :=
  {| run_date := "22.11.2025, 09:00 Uhr"; run_competition := "Freundschaftsspiel";
     run_round := ""; run_title := "Spielbericht"; run_href := "/spiel/2";
     run_result := "0:0"; run_minutes := "45'"; run_goals := "-" |}.

(** The sample game, then a second date fragment and a minutes fragment
    that stops the scan. *)
Definition truncated_page : list div_tag := sample_page ++ page_minutes_superscript.

(** A record without a time stamp. *)
Definition undated_record : dict := {[ "einsatzMinuten" := PInt 30 ]}.

(** The first player of the roster. *)
Definition first_player : roster_entry :=
  List.hd {| r_name := ""; r_id := 0; r_team := ""; r_year := 0 |} roster.

(** A visit that finds the sample page. *)
Definition sample_visit : visit :=
  {| page_of := Some sample_page; now_of := "2025-11-16 08:00:00";
     clock_of := sample_clock |}.

(** A later visit that finds the same page. *)
Definition later_visit : visit :=
  {| page_of := Some sample_page; now_of := "2025-11-23 08:00:00";
     clock_of := later_clock |}.

(** The competition name of the specification; the first character is
    U+00D6. *)
Definition oefb_prefix : string := String "214" "FB ".

(** * Properties of the store *)

Arguments save_game : simpl never.
Arguments sql_insert_game : simpl never.
Arguments sql_update_game : simpl never.

Lemma find_existsb {A} (f : A -> bool) (l : list A) :
  List.find f l = None <-> existsb f l = false.
Proof.
  induction l as [|a l IH]; simpl; [tauto|].
  destruct (f a); simpl; [split; discriminate | exact IH].
Qed.

Lemma sql_eq_eq a b : sql_eq a b = true -> a = b.
Proof.
  destruct a, b; simpl; try discriminate; intros H; by apply bool_decide_eq_true in H.
Qed.

Lemma sql_eq_refl a : a <> PNone -> sql_eq a a = true.
Proof. destruct a; simpl; [congruence | |]; intros _; by apply bool_decide_eq_true. Qed.

Lemma key_matches_row_key p ts g : key_matches p ts g = true -> row_key g = (p, ts).
Proof.
  unfold key_matches, row_key. intros [H1 H2]%andb_true_iff.
  apply Z.eqb_eq in H1. apply sql_eq_eq in H2. congruence.
Qed.

Lemma row_key_key_matches p ts g :
  ts <> PNone -> row_key g = (p, ts) -> key_matches p ts g = true.
Proof.
  unfold key_matches, row_key. intros Hts [= -> ->].
  rewrite Z.eqb_refl. simpl. by apply sql_eq_refl.
Qed.

Section StoreFacts.

Variable v : variant.
Variable utcoffset : Z -> Z.

Lemma update_row_key now p ts game mi gi rows :
  map row_key (sql_update_game v now p ts game mi gi rows) = map row_key rows.
Proof.
  unfold sql_update_game. rewrite map_map. apply map_ext.
  intros g. by destruct (key_matches p ts g).
Qed.

Lemma update_length now p ts game mi gi rows :
  length (sql_update_game v now p ts game mi gi rows) = length rows.
Proof. unfold sql_update_game. by rewrite length_map. Qed.

Lemma update_existsb now p ts game mi gi rows p' ts' :
  existsb (key_matches p' ts') (sql_update_game v now p ts game mi gi rows)
  = existsb (key_matches p' ts') rows.
Proof.
  unfold sql_update_game. induction rows as [|g rows IH]; simpl; [done|].
  rewrite IH. f_equal. by destruct (key_matches p ts g).
Qed.

(** What one turn of the loop does when it does not raise. *)
Lemma save_game_Ok now p game d n u st' :
  save_game v utcoffset now p game (d, n, u) = Ok st' ->
  exists game_date mi gi,
    game_date_of utcoffset (timestamp_of game) = Ok game_date /\
    to_int_or_zero (get game "einsatzMinuten" (PStr "0")) = Ok mi /\
    to_int_or_zero (get game "tore" (PStr "0")) = Ok gi /\
    ((existsb (key_matches p (timestamp_of game)) (games d) = true /\
      st' = ({| players := players d;
                games := sql_update_game v now p (timestamp_of game) game mi gi (games d);
                games_seq := games_seq d |}, n, S u)) \/
     (existsb (key_matches p (timestamp_of game)) (games d) = false /\
      timestamp_of game <> PNone /\
      sql_insert_game v now p game_date (timestamp_of game) game mi gi d
        = Ok st'.1.1 /\
      st'.1.2 = S n /\ st'.2 = u)).
Proof.
  unfold save_game, timestamp_of.
  destruct (game_date_of utcoffset _) as [game_date|e] eqn:Hd; simpl; [|discriminate].
  destruct (to_int_or_zero (get game "einsatzMinuten" _)) as [mi|e] eqn:Hm; simpl; [|discriminate].
  destruct (to_int_or_zero (get game "tore" _)) as [gi|e] eqn:Hg; simpl; [|discriminate].
  destruct (List.find _ (games d)) as [g|] eqn:Hf.
  - intros [= <-]. exists game_date, mi, gi. repeat split; try done. left. split; [|done].
    destruct (existsb _ (games d)) eqn:He; [done|].
    apply find_existsb in He. congruence.
  - apply find_existsb in Hf.
    destruct (sql_insert_game _ _ _ _ _ _ _ _ _) as [d'|e] eqn:Hi; simpl; [|discriminate].
    intros [= <-]. exists game_date, mi, gi. repeat split; try done. right.
    repeat split; try done.
    unfold sql_insert_game in Hi. by destruct (get game "anstoss" (PInt 0)).
Qed.

Lemma insert_Ok now p game_date ts game mi gi d d' :
  sql_insert_game v now p game_date ts game mi gi d = Ok d' ->
  players d' = players d /\
  exists row,
    games d' = games d ++ [row] /\ row_key row = (p, ts) /\
    g_game_date row = game_date /\ g_minutes_played row = mi /\ g_goals row = gi.
Proof.
  unfold sql_insert_game. intros H.
  assert (existsb (key_matches p ts) (games d) = false /\
          ts <> PNone) as [He Hts].
  { destruct ts; try discriminate; by destruct (existsb _ (games d)). }
  rewrite He in H.
  destruct ts; try discriminate; injection H as <-; simpl; (split; [done|]);
    eexists; (split; [reflexivity|]); done.
Qed.

End StoreFacts.

Section StoreFrame.
Variable v : variant.
Variable utcoffset : Z -> Z.

Lemma set_columns_key now game mi gi g :
  row_key (set_columns v now game mi gi g) = row_key g.
Proof. reflexivity. Qed.

Lemma update_frame now p ts game mi gi rows :
  List.filter (other_player p) (sql_update_game v now p ts game mi gi rows)
  = List.filter (other_player p) rows.
Proof.
  unfold sql_update_game. induction rows as [|g rows IH]; simpl; [done|].
  rewrite IH. destruct (key_matches p ts g) eqn:Hk; [|done].
  apply andb_true_iff in Hk as [Hk _].
  assert (other_player p g = false) as Hg by (unfold other_player; by rewrite Hk).
  assert (other_player p (set_columns v now game mi gi g) = false) as Hs
    by (unfold other_player; simpl; by rewrite Hk).
  by rewrite Hg, Hs.
Qed.

Lemma save_game_frame now p game d n u d' n' u' :
  save_game v utcoffset now p game (d, n, u) = Ok (d', n', u') ->
  players d' = players d /\
  List.filter (other_player p) (games d') = List.filter (other_player p) (games d).
Proof.
  intros H. apply save_game_Ok in H as (gd & mi & gi & _ & _ & _ & [[_ [= -> _ _]]|H]).
  - simpl. split; [done|]. apply update_frame.
  - destruct H as (_ & _ & Hi & _). simpl in Hi.
    apply insert_Ok in Hi as (Hp & row & -> & Hk & _). split; [done|].
    rewrite List.filter_app. simpl. unfold other_player at 2.
    injection Hk as -> _. rewrite Z.eqb_refl. simpl. by rewrite app_nil_r.
Qed.

Lemma save_games_loop_frame clock p games_data d n u d' n' u' :
  save_games_loop v utcoffset clock p games_data (d, n, u) = Ok (d', n', u') ->
  players d' = players d /\
  List.filter (other_player p) (games d') = List.filter (other_player p) (games d).
Proof.
  revert clock d n u. induction games_data as [|game rest IH]; intros clock d n u; simpl.
  - by intros [= -> _ _].
  - destruct (save_game _ _ _ _ _ _) as [[[d1 n1] u1]|e] eqn:H1; simpl; [|discriminate].
    intros H2. apply save_game_frame in H1 as [Hp Hg]. apply IH in H2 as [Hp' Hg'].
    split; congruence.
Qed.

(** C9. For every player id [p] and every record sequence,
    [save_games_to_db p records] leaves the [players] table and every [games]
    row of another player as they were, whether the call returns or raises. *)
Theorem save_games_to_db_frame clock p games_data d :
  let d' := (save_games_to_db v utcoffset clock p games_data d).1 in
  players d' = players d /\
  List.filter (other_player p) (games d') = List.filter (other_player p) (games d).
Proof.
  unfold save_games_to_db.
  destruct (save_games_loop _ _ _ _ _ _) as [[[d1 n1] u1]|e] eqn:H; simpl; [|done].
  by apply save_games_loop_frame in H.
Qed.
End StoreFrame.

Section StoreIdempotence.
Variable v : variant.
Variable utcoffset : Z -> Z.

Lemma existsb_row_key p ts (rows rows' : list game_row) :
  map row_key rows = map row_key rows' ->
  existsb (key_matches p ts) rows = existsb (key_matches p ts) rows'.
Proof.
  revert rows'. induction rows as [|g rows IH]; intros [|g' rows']; simpl; try done.
  intros [= Hk1 Hk2 Hr]. rewrite (IH _ Hr). f_equal.
  unfold key_matches. by rewrite Hk1, Hk2.
Qed.

Lemma save_game_keys now p game d n u d' n' u' :
  save_game v utcoffset now p game (d, n, u) = Ok (d', n', u') ->
  existsb (key_matches p (timestamp_of game)) (games d') = true /\
  (forall p' ts', existsb (key_matches p' ts') (games d) = true ->
                  existsb (key_matches p' ts') (games d') = true).
Proof.
  intros H. apply save_game_Ok in H as (gd & mi & gi & _ & _ & _ & [[He [= -> _ _]]|H]).
  - simpl. split.
    + by rewrite update_existsb.
    + intros p' ts'. by rewrite update_existsb.
  - destruct H as (_ & Hts & Hi & _). simpl in Hi.
    apply insert_Ok in Hi as (_ & row & -> & Hk & _). split.
    + rewrite existsb_app. simpl. rewrite (row_key_key_matches _ _ _ Hts Hk).
      by rewrite orb_true_r.
    + intros p' ts' Hp. rewrite existsb_app, Hp. done.
Qed.

Lemma save_games_loop_keys clock p games_data d n u d' n' u' :
  save_games_loop v utcoffset clock p games_data (d, n, u) = Ok (d', n', u') ->
  Forall (fun game => existsb (key_matches p (timestamp_of game)) (games d') = true)
         games_data /\
  (forall p' ts', existsb (key_matches p' ts') (games d) = true ->
                  existsb (key_matches p' ts') (games d') = true).
Proof.
  revert clock d n u. induction games_data as [|game rest IH]; intros clock d n u; simpl.
  - intros [= -> _ _]. by split.
  - destruct (save_game _ _ _ _ _ _) as [[[d1 n1] u1]|e] eqn:H1; simpl; [|discriminate].
    intros H2. apply save_game_keys in H1 as [Hk Hm]. apply IH in H2 as [Hf Hm'].
    split; [|by auto]. constructor; [by auto | done].
Qed.

Lemma save_game_converts now p game d n u st' :
  save_game v utcoffset now p game (d, n, u) = Ok st' -> converts utcoffset game.
Proof.
  intros H. apply save_game_Ok in H as (gd & mi & gi & H1 & H2 & H3 & _).
  unfold converts. repeat split; eexists; eassumption.
Qed.

Lemma save_games_loop_converts clock p games_data st st' :
  save_games_loop v utcoffset clock p games_data st = Ok st' ->
  Forall (converts utcoffset) games_data.
Proof.
  revert clock st. induction games_data as [|game rest IH]; intros clock st; simpl; [done|].
  destruct (save_game _ _ _ _ _ _) as [st1|e] eqn:H1; simpl; [|discriminate].
  intros H2. destruct st as [[d n] u]. constructor; [by eapply save_game_converts | by eapply IH].
Qed.

Lemma save_game_update now p game d n u :
  converts utcoffset game ->
  existsb (key_matches p (timestamp_of game)) (games d) = true ->
  exists d', save_game v utcoffset now p game (d, n, u) = Ok (d', n, S u) /\
             players d' = players d /\
             map row_key (games d') = map row_key (games d).
Proof.
  intros ([gd Hd] & [mi Hm] & [gi Hg]) He.
  unfold save_game. fold (timestamp_of game). rewrite Hd, Hm, Hg. simpl.
  destruct (List.find _ (games d)) eqn:Hf.
  - eexists. split; [reflexivity|]. simpl. split; [done|]. apply update_row_key.
  - apply find_existsb in Hf. congruence.
Qed.

Lemma save_games_loop_again clock p games_data d n u :
  Forall (converts utcoffset) games_data ->
  Forall (fun game => existsb (key_matches p (timestamp_of game)) (games d) = true)
         games_data ->
  exists d', save_games_loop v utcoffset clock p games_data (d, n, u)
             = Ok (d', n, (length games_data + u)%nat) /\
             players d' = players d /\
             map row_key (games d') = map row_key (games d).
Proof.
  revert clock d u. induction games_data as [|game rest IH]; intros clock d u Hc Hk; simpl.
  - by exists d.
  - inversion_clear Hc as [|? ? Hc1 Hc2]. inversion_clear Hk as [|? ? Hk1 Hk2].
    destruct (save_game_update (clock 0%nat) p game d n u Hc1 Hk1) as (d1 & -> & Hp1 & Hr1).
    simpl.
    destruct (IH (fun i => clock (S i)) d1 (S u) Hc2) as (d' & -> & Hp & Hr).
    { eapply Forall_impl; [exact Hk2|]. intros g Hg. simpl in Hg.
      by rewrite (existsb_row_key _ _ _ _ Hr1). }
    exists d'. split; [f_equal; f_equal; lia|]. split; congruence.
Qed.

(** The second of two calls with the same records, after the first has
    returned: no row is inserted, every record is an update. *)
Lemma save_games_to_db_again clock1 clock2 p games_data d d1 new1 updated1 :
  save_games_to_db v utcoffset clock1 p games_data d = (d1, Ok (new1, updated1)) ->
  exists d2,
    save_games_to_db v utcoffset clock2 p games_data d1
      = (d2, Ok (0%nat, length games_data)) /\
    length (games d2) = length (games d1).
Proof.
  unfold save_games_to_db.
  destruct (save_games_loop _ _ clock1 _ _ _) as [[[d1' n1] u1]|e] eqn:H1; [|discriminate].
  intros [= -> -> ->].
  pose proof (save_games_loop_converts _ _ _ _ _ H1) as Hc.
  apply save_games_loop_keys in H1 as [Hk _].
  destruct (save_games_loop_again clock2 p games_data d1 0%nat 0%nat Hc Hk)
    as (d2 & -> & _ & Hr).
  exists d2. rewrite Nat.add_0_r. split; [done|].
  by rewrite <- (length_map row_key (games d2)), Hr, length_map.
Qed.

End StoreIdempotence.

Section StoreMerge.
Variable v : variant.
Variable utcoffset : Z -> Z.

Lemma filter_existsb_false {A} (f : A -> bool) (l : list A) :
  existsb f l = false -> List.filter f l = [].
Proof.
  induction l as [|a l IH]; simpl; [done|].
  destruct (f a); simpl; [discriminate | exact IH].
Qed.

Lemma unique_filter p ts rows :
  games_unique rows ->
  existsb (key_matches p ts) rows = true ->
  exists g, List.filter (key_matches p ts) rows = [g].
Proof.
  unfold games_unique. induction rows as [|g rows IH]; simpl; [discriminate|].
  intros Hnd He. apply NoDup_cons in Hnd as [Hg Hnd].
  destruct (key_matches p ts g) eqn:Hk.
  - exists g. f_equal. apply filter_existsb_false.
    destruct (existsb (key_matches p ts) rows) eqn:He'; [|done].
    apply existsb_exists in He' as (g' & Hin & Hk').
    exfalso. apply Hg. apply key_matches_row_key in Hk, Hk'. rewrite Hk, <- Hk'.
    apply list_elem_of_In in Hin. by apply list_elem_of_fmap_2.
  - simpl in He. by apply IH.
Qed.

Lemma filter_update now p ts game mi gi rows :
  List.filter (key_matches p ts) (sql_update_game v now p ts game mi gi rows)
  = map (set_columns v now game mi gi) (List.filter (key_matches p ts) rows).
Proof.
  unfold sql_update_game. induction rows as [|g rows IH]; simpl; [done|].
  destruct (key_matches p ts g) eqn:Hk.
  - change (key_matches p ts (set_columns v now game mi gi g)) with (key_matches p ts g).
    rewrite Hk. simpl. by rewrite IH.
  - by rewrite Hk.
Qed.

Lemma set_columns_reflects now game mi gi g :
  to_int_or_zero (get game "einsatzMinuten" (PStr "0")) = Ok mi ->
  to_int_or_zero (get game "tore" (PStr "0")) = Ok gi ->
  reflects v game (set_columns v now game mi gi g).
Proof. intros Hm Hg. unfold reflects. simpl. repeat split; try done. by intros ->. Qed.

Lemma values_row_reflects now rowid p gd ts game mi gi :
  to_int_or_zero (get game "einsatzMinuten" (PStr "0")) = Ok mi ->
  to_int_or_zero (get game "tore" (PStr "0")) = Ok gi ->
  reflects v game (values_row v now rowid p gd ts game mi gi).
Proof. intros Hm Hg. unfold reflects. simpl. repeat split; try done. by intros ->. Qed.

Lemma insert_row now p game_date ts game mi gi d d' :
  sql_insert_game v now p game_date ts game mi gi d = Ok d' ->
  exists rowid,
    games d' = games d ++ [values_row v now rowid p game_date ts game mi gi].
Proof.
  unfold sql_insert_game. intros H.
  destruct ts; try discriminate; destruct (existsb _ (games d)); try discriminate;
    injection H as <-; simpl; by eexists.
Qed.

(** The UNIQUE constraint is kept by every turn of the loop. *)
Lemma save_game_unique now p game d n u d' n' u' :
  games_unique (games d) ->
  save_game v utcoffset now p game (d, n, u) = Ok (d', n', u') ->
  games_unique (games d').
Proof.
  unfold games_unique. intros Hu H.
  apply save_game_Ok in H as (gd & mi & gi & _ & _ & _ & [[_ [= -> _ _]]|H]).
  - simpl. by rewrite update_row_key.
  - destruct H as (He & Hts & Hi & _). simpl in Hi.
    apply insert_Ok in Hi as (_ & row & -> & Hk & _).
    rewrite map_app. simpl. apply NoDup_app. split; [done|]. split; [|apply NoDup_singleton].
    intros k Hin ->%list_elem_of_singleton.
    apply list_elem_of_fmap in Hin as (g & Hg & Hin).
    assert (existsb (key_matches p (timestamp_of game)) (games d) = true) as Ht; [|congruence].
    apply existsb_exists. exists g. split; [by apply list_elem_of_In|].
    apply row_key_key_matches; congruence.
Qed.

Lemma save_games_loop_unique clock p games_data d n u d' n' u' :
  games_unique (games d) ->
  save_games_loop v utcoffset clock p games_data (d, n, u) = Ok (d', n', u') ->
  games_unique (games d').
Proof.
  revert clock d n u. induction games_data as [|game rest IH]; intros clock d n u Hu; simpl.
  - by intros [= <- _ _].
  - destruct (save_game _ _ _ _ _ _) as [[[d1 n1] u1]|e] eqn:H1; simpl; [|discriminate].
    apply IH. by eapply save_game_unique.
Qed.

(** After a turn of the loop one row has the key of the record, and it shows
    the record's values. *)
Lemma save_game_one_row now p game d n u d' n' u' :
  games_unique (games d) ->
  save_game v utcoffset now p game (d, n, u) = Ok (d', n', u') ->
  exists row,
    List.filter (key_matches p (timestamp_of game)) (games d') = [row] /\
    reflects v game row /\ g_last_updated row = now.
Proof.
  intros Hu H.
  apply save_game_Ok in H as (gd & mi & gi & _ & Hm & Hg & [[He [= -> _ _]]|H]).
  - simpl. rewrite filter_update.
    destruct (unique_filter _ _ _ Hu He) as [g ->]. simpl.
    eexists. split; [reflexivity|]. split; [by apply set_columns_reflects | done].
  - destruct H as (He & Hts & Hi & _). simpl in Hi.
    apply insert_row in Hi as (rowid & ->).
    rewrite List.filter_app, (filter_existsb_false _ _ He). simpl.
    rewrite row_key_key_matches; [|done|done].
    eexists. split; [reflexivity|]. split; [by apply values_row_reflects | done].
Qed.

(** C2. Two records that share the business key (player id, match time
    stamp), persisted in sequence into a table that satisfies its UNIQUE
    constraint: when the call returns, exactly one stored row has that key, and
    the columns written from a record show the second record's values (the
    date string belongs to the key and is written on INSERT only). *)
Theorem save_games_to_db_merge clock p game1 game2 d d' counts :
  games_unique (games d) ->
  timestamp_of game1 = timestamp_of game2 ->
  save_games_to_db v utcoffset clock p [game1; game2] d = (d', Ok counts) ->
  exists row,
    List.filter (key_matches p (timestamp_of game1)) (games d') = [row] /\
    reflects v game2 row /\
    g_last_updated row = clock 1%nat.
Proof.
  intros Hu Hts. unfold save_games_to_db. simpl.
  destruct (save_game _ _ _ _ game1 _) as [[[d1 n1] u1]|e] eqn:H1; simpl; [|discriminate].
  destruct (save_game _ _ _ _ game2 _) as [[[d2 n2] u2]|e] eqn:H2; simpl; [|discriminate].
  intros [= <- _]. rewrite Hts.
  eapply save_game_one_row; [|exact H2]. by eapply save_game_unique.
Qed.

End StoreMerge.

Section MergeTwoCalls.
Variable v : variant.
Variable utcoffset : Z -> Z.

(** The table keeps its UNIQUE constraint over a call. *)
Lemma save_games_to_db_unique clock p games_data d :
  games_unique (games d) ->
  games_unique (games (save_games_to_db v utcoffset clock p games_data d).1).
Proof.
  intros Hu. unfold save_games_to_db.
  destruct (save_games_loop _ _ _ _ _ _) as [[[d' n] u]|e] eqn:H; [|done].
  by eapply save_games_loop_unique.
Qed.

(** The merge over two calls: the second record, saved by a later call,
    replaces the values of the first. *)
Lemma save_games_to_db_merge_two_calls clock1 clock2 p game1 game2 d d1 d2 counts1 counts2 :
  games_unique (games d) ->
  timestamp_of game1 = timestamp_of game2 ->
  save_games_to_db v utcoffset clock1 p [game1] d = (d1, Ok counts1) ->
  save_games_to_db v utcoffset clock2 p [game2] d1 = (d2, Ok counts2) ->
  counts2 = (0%nat, 1%nat) /\
  exists row,
    List.filter (key_matches p (timestamp_of game1)) (games d2) = [row] /\
    reflects v game2 row /\
    g_last_updated row = clock2 0%nat.
Proof.
  intros Hu Hts H1 H2.
  pose proof (save_games_to_db_unique clock1 p [game1] d Hu) as Hu1.
  rewrite H1 in Hu1. simpl in Hu1.
  unfold save_games_to_db in H1, H2. simpl in H1, H2.
  destruct (save_game _ _ _ _ game1 _) as [[[d1' n1] u1]|e] eqn:Hs1; simpl in H1; [|discriminate].
  destruct (save_game _ _ _ _ game2 _) as [[[d2' n2] u2]|e] eqn:Hs2; simpl in H2; [|discriminate].
  injection H1 as <- _. injection H2 as <- <-.
  pose proof (save_game_keys _ _ _ _ _ _ _ _ _ _ _ Hs1) as [Hk _]. rewrite Hts in Hk.
  split.
  - apply save_game_Ok in Hs2 as (gd & mi & gi & _ & _ & _ & [[_ [= _ <- <-]]|(He & _)]);
      [done|congruence].
  - rewrite Hts. by eapply save_game_one_row.
Qed.

End MergeTwoCalls.

Section StoreUnknownTime.
Variable v : variant.
Variable utcoffset : Z -> Z.

Lemma game_date_of_falsy ts gd :
  game_date_of utcoffset ts = Ok gd -> truthy ts = false -> gd = None.
Proof. unfold game_date_of. intros H Ht. rewrite Ht in H. congruence. Qed.

Lemma save_game_unknown_time now p game d n u d' n' u' :
  unknown_time_dates_null (games d) ->
  save_game v utcoffset now p game (d, n, u) = Ok (d', n', u') ->
  unknown_time_dates_null (games d').
Proof.
  unfold unknown_time_dates_null. intros Hu H.
  apply save_game_Ok in H as (gd & mi & gi & Hd & _ & _ & [[_ [= -> _ _]]|H]).
  - simpl. unfold sql_update_game. apply Forall_fmap.
    eapply Forall_impl; [exact Hu|]. intros g Hg. simpl.
    by destruct (key_matches _ _ g).
  - destruct H as (_ & _ & Hi & _). simpl in Hi.
    apply insert_row in Hi as (rowid & ->).
    apply Forall_app. split; [done|]. constructor; [|done].
    unfold unknown_time. simpl. intros Ht. apply negb_true_iff in Ht.
    by eapply game_date_of_falsy.
Qed.

Lemma save_games_loop_unknown_time clock p games_data d n u d' n' u' :
  unknown_time_dates_null (games d) ->
  save_games_loop v utcoffset clock p games_data (d, n, u) = Ok (d', n', u') ->
  unknown_time_dates_null (games d').
Proof.
  revert clock d n u. induction games_data as [|game rest IH]; intros clock d n u Hu; simpl.
  - by intros [= <- _ _].
  - destruct (save_game _ _ _ _ _ _) as [[[d1 n1] u1]|e] eqn:H1; simpl; [|discriminate].
    apply IH. by eapply save_game_unknown_time.
Qed.

(** A record without a usable time stamp, not yet stored: the INSERT writes a
    NULL date. *)
Lemma save_game_inserts_null_date now p game d n u d' n' u' :
  truthy (timestamp_of game) = false ->
  existsb (key_matches p (timestamp_of game)) (games d) = false ->
  save_game v utcoffset now p game (d, n, u) = Ok (d', n', u') ->
  exists row, games d' = games d ++ [row] /\ g_game_date row = None /\
              g_game_timestamp row = timestamp_of game /\ n' = S n.
Proof.
  intros Ht He H.
  apply save_game_Ok in H as (gd & mi & gi & Hd & _ & _ & [[He' _]|H]); [congruence|].
  destruct H as (_ & _ & Hi & Hn & _). simpl in Hi, Hn.
  apply insert_row in Hi as (rowid & ->).
  eexists. split; [reflexivity|]. simpl. split; [by eapply game_date_of_falsy | done].
Qed.

End StoreUnknownTime.

Section StoreTotal.
Variable v : variant.
Variable utcoffset : Z -> Z.

Lemma key_matches_not_null p ts rows :
  existsb (key_matches p ts) rows = true -> ts <> PNone.
Proof.
  intros (g & _ & Hk)%existsb_exists ->.
  apply andb_true_iff in Hk as [_ Hk]. by destruct (g_game_timestamp g).
Qed.

Lemma save_game_storable now p game d n u st' :
  save_game v utcoffset now p game (d, n, u) = Ok st' -> storable utcoffset game.
Proof.
  intros H. split; [by eapply save_game_converts|].
  apply save_game_Ok in H as (gd & mi & gi & _ & _ & _ & [[He _]|(_ & Hts & _)]);
    [by eapply key_matches_not_null | done].
Qed.

Lemma save_game_total now p game d n u :
  storable utcoffset game ->
  exists st', save_game v utcoffset now p game (d, n, u) = Ok st'.
Proof.
  intros [Hc Hts].
  destruct (existsb (key_matches p (timestamp_of game)) (games d)) eqn:He.
  - destruct (save_game_update v utcoffset now p game d n u Hc He) as (d' & H & _). eauto.
  - destruct Hc as ([gd Hd] & [mi Hm] & [gi Hg]).
    unfold save_game. fold (timestamp_of game). rewrite Hd, Hm, Hg. cbn [rbind].
    apply find_existsb in He. rewrite He.
    unfold sql_insert_game. apply find_existsb in He. rewrite He.
    destruct (timestamp_of game); [done| |]; cbn [rbind]; eauto.
Qed.

Lemma save_games_loop_storable clock p games_data st st' :
  save_games_loop v utcoffset clock p games_data st = Ok st' ->
  Forall (storable utcoffset) games_data.
Proof.
  revert clock st. induction games_data as [|game rest IH]; intros clock st; simpl; [done|].
  destruct (save_game _ _ _ _ _ _) as [st1|e] eqn:H1; simpl; [|discriminate].
  intros H2. destruct st as [[d n] u].
  constructor; [by eapply save_game_storable | by eapply IH].
Qed.

(** The loop returns exactly when every record can be stored. *)
Lemma save_games_loop_total clock p games_data st :
  Forall (storable utcoffset) games_data ->
  exists st', save_games_loop v utcoffset clock p games_data st = Ok st'.
Proof.
  revert clock st. induction games_data as [|game rest IH]; intros clock st Hs; simpl.
  - by exists st.
  - inversion_clear Hs as [|? ? H1 H2]. destruct st as [[d n] u].
    destruct (save_game_total (clock 0%nat) p game d n u H1) as [st1 ->]. simpl.
    by apply IH.
Qed.

Lemma save_games_to_db_returns clock p games_data d :
  Forall (storable utcoffset) games_data ->
  exists d' counts, save_games_to_db v utcoffset clock p games_data d = (d', Ok counts).
Proof.
  intros Hs. unfold save_games_to_db.
  destruct (save_games_loop_total clock p games_data (d, 0%nat, 0%nat) Hs)
    as [[[d' n] u] ->]. eauto.
Qed.

Lemma save_games_to_db_raises clock p games_data d e :
  (save_games_to_db v utcoffset clock p games_data d).2 = Raise e ->
  ~ Forall (storable utcoffset) games_data /\
  (save_games_to_db v utcoffset clock p games_data d).1 = d.
Proof.
  unfold save_games_to_db.
  destruct (save_games_loop _ _ _ _ _ _) as [[[d' n] u]|e'] eqn:H; [discriminate|].
  intros _. split; [|done]. intros Hs.
  destruct (save_games_loop_total clock p games_data (d, 0%nat, 0%nat) Hs) as [st' H'].
  congruence.
Qed.

(** C1. For every player id and every sequence of game records, running
    [save_games_to_db] twice in succession with the same player id and the same
    sequence: when the first run returns, the second returns zero inserted
    rows (and one update per record); when the first run raises, so does the
    second, and neither stores anything; in both cases the [games] table holds
    as many rows after the second run as after the first. *)
Theorem save_games_to_db_twice clock1 clock2 p games_data d :
  let first := save_games_to_db v utcoffset clock1 p games_data d in
  let second := save_games_to_db v utcoffset clock2 p games_data first.1 in
  match first.2 with
  | Ok _ => second.2 = Ok (0%nat, length games_data)
  | Raise _ => exists e, second.2 = Raise e
  end /\
  length (games second.1) = length (games first.1).
Proof.
  cbv zeta.
  destruct (save_games_to_db v utcoffset clock1 p games_data d) as [d1 [[n1 u1]|e1]] eqn:H1.
  - destruct (save_games_to_db_again v utcoffset clock1 clock2 p games_data d d1 n1 u1 H1)
      as (d2 & H2 & Hlen).
    cbn [fst snd]. rewrite H2. by split.
  - pose proof (save_games_to_db_raises clock1 p games_data d e1) as Hr.
    rewrite H1 in Hr. destruct (Hr eq_refl) as [Hns _]. cbn [fst snd].
    destruct (save_games_to_db v utcoffset clock2 p games_data d1) as [d2 [c2|e2]] eqn:H2.
    + exfalso. apply Hns. unfold save_games_to_db in H2.
      destruct (save_games_loop _ _ clock2 _ _ _) as [[[d' n] u]|e'] eqn:H; [|discriminate].
      by eapply save_games_loop_storable.
    + pose proof (save_games_to_db_raises clock2 p games_data d1 e2) as Hr2.
      rewrite H2 in Hr2. destruct (Hr2 eq_refl) as [_ Hd]. cbn [fst snd] in *.
      subst d2. split; [by eexists|done].
Qed.

End StoreTotal.

(** * Properties of the report queries *)

Lemma filter_filter_andb {A} (f g : A -> bool) (l : list A) :
  List.filter g (List.filter f l) = List.filter (fun x => f x && g x) l.
Proof.
  induction l as [|a l IH]; simpl; [done|].
  destruct (f a); simpl; [destruct (g a); by rewrite IH | exact IH].
Qed.

Lemma filter_map_comm {A B} (f : B -> bool) (h : A -> B) (l : list A) :
  List.filter f (map h l) = map h (List.filter (fun x => f (h x)) l).
Proof.
  induction l as [|a l IH]; simpl; [done|].
  destruct (f (h a)); simpl; by rewrite IH.
Qed.

Lemma filter_flat_map {A B} (f : B -> bool) (h : A -> list B) (l : list A) :
  List.filter f (flat_map h l) = flat_map (fun a => List.filter f (h a)) l.
Proof.
  induction l as [|a l IH]; simpl; [done|]. by rewrite List.filter_app, IH.
Qed.

Lemma kept_rows d :
  List.filter in_window (left_join (players d) (games d))
  = flat_map (window_rows d) (players d).
Proof.
  unfold left_join. rewrite filter_flat_map. apply flat_map_ext. intros p.
  unfold window_rows, windowed_games.
  rewrite <- (filter_filter_andb (fun g => g_player_id g =? p_player_id p)).
  destruct (List.filter _ (games d)) as [|g ms]; [done|].
  by rewrite filter_map_comm.
Qed.

Lemma players_unique_keys ps : players_unique ps -> NoDup (map player_key ps).
Proof.
  unfold players_unique. induction ps as [|p ps IH]; simpl; [constructor|].
  intros [Hp Hnd]%NoDup_cons. constructor; [|by apply IH].
  intros (p' & Hk & Hin)%list_elem_of_fmap. apply Hp.
  apply list_elem_of_fmap. exists p'. split; [|done]. by injection Hk.
Qed.

Lemma remove_dups_replicate_app {K} `{EqDecision K} (n : nat) (k : K) (l : list K) :
  k ∉ l ->
  remove_dups (replicate n k ++ l)
  = match n with O => remove_dups l | S _ => k :: remove_dups l end.
Proof.
  intros Hk. induction n as [|n IH]; [done|].
  simpl. destruct (decide_rel _ _ _) as [Hin|Hin].
  - destruct n as [|n]; [by simpl in Hin|exact IH].
  - destruct n as [|n]; [done|]. exfalso. apply Hin. simpl. left.
Qed.

Section Blocks.
Context {R : Type} (block : player_row -> list R) (key : R -> Z * string).
Hypothesis block_key : forall p r, r ∈ block p -> key r = player_key p.

Lemma block_keys ps :
  map key (flat_map block ps)
  = flat_map (fun p => replicate (length (block p)) (player_key p)) ps.
Proof.
  induction ps as [|p ps IH]; simpl; [done|].
  rewrite map_app, IH. f_equal.
  assert (forall l, (forall r, r ∈ l -> key r = player_key p) ->
                    map key l = replicate (length l) (player_key p)) as Hl.
  { induction l as [|r l IHl]; simpl; [done|]. intros Hr.
    rewrite Hr by left. f_equal. apply IHl. intros r' Hr'. apply Hr. by right. }
  apply Hl, block_key.
Qed.

Lemma remove_dups_blocks ps :
  NoDup (map player_key ps) ->
  remove_dups (flat_map (fun p => replicate (length (block p)) (player_key p)) ps)
  = map player_key (List.filter (fun p => negb (bool_decide (block p = []))) ps).
Proof.
  induction ps as [|p ps IH]; simpl; [done|].
  intros [Hp Hnd]%NoDup_cons.
  rewrite remove_dups_replicate_app.
  - rewrite (IH Hnd). destruct (block p); simpl; done.
  - intros Hin. apply Hp. apply list_elem_of_In, in_flat_map in Hin as (p' & Hin & Hr).
    apply list_elem_of_In, elem_of_replicate in Hr as [-> _].
    apply list_elem_of_fmap. exists p'. split; [done|]. by apply list_elem_of_In.
Qed.

Lemma group_of_player ps p :
  NoDup (map player_key ps) -> p ∈ ps ->
  List.filter (fun r => bool_decide (key r = player_key p)) (flat_map block ps)
  = block p.
Proof.
  induction ps as [|q ps IH]; simpl; [by intros _ ?%not_elem_of_nil|].
  intros [Hq Hnd]%NoDup_cons Hin. rewrite List.filter_app.
  assert (forall q', player_key q' <> player_key p ->
            List.filter (fun r => bool_decide (key r = player_key p)) (block q') = []) as Hne.
  { intros q' Hk. apply filter_existsb_false.
    destruct (existsb _ (block q')) eqn:He; [|done].
    apply existsb_exists in He as (r & Hr & Hd). apply bool_decide_eq_true in Hd.
    apply list_elem_of_In, block_key in Hr. congruence. }
  assert (forall l, (forall r, r ∈ l -> key r = player_key p) ->
            List.filter (fun r => bool_decide (key r = player_key p)) l = l) as Heq.
  { induction l as [|r l IHl]; simpl; [done|]. intros Hr.
    rewrite bool_decide_eq_true_2 by (apply Hr; left).
    f_equal. apply IHl. intros r' Hr'. apply Hr. by right. }
  assert (forall qs, (forall q', q' ∈ qs -> player_key q' <> player_key p) ->
            List.filter (fun r => bool_decide (key r = player_key p)) (flat_map block qs) = [])
    as Hnil.
  { induction qs as [|q' qs IHq]; simpl; [done|]. intros Hq'.
    rewrite List.filter_app, Hne by (apply Hq'; left).
    apply IHq. intros q'' ?. apply Hq'. by right. }
  apply elem_of_cons in Hin as [->|Hin].
  - rewrite Heq by apply block_key. rewrite Hnil; [by rewrite app_nil_r|].
    intros q' Hq' Hk. apply Hq. rewrite <- Hk. by apply list_elem_of_fmap_2.
  - rewrite Hne; [by apply IH|].
    intros Hk. apply Hq. rewrite Hk. by apply list_elem_of_fmap_2.
Qed.

Lemma group_by_blocks ps :
  NoDup (map player_key ps) ->
  group_by key (flat_map block ps)
  = map (fun p => (player_key p, block p))
        (List.filter (fun p => negb (bool_decide (block p = []))) ps).
Proof.
  intros Hnd. unfold group_by.
  rewrite block_keys, remove_dups_blocks by done. rewrite map_map.
  apply map_ext_in. intros p Hin. f_equal.
  apply group_of_player; [done|]. apply filter_In in Hin as [Hin _].
  by apply list_elem_of_In.
Qed.

End Blocks.

Lemma sql_sum_Some {A} (col : A -> Z) (l : list A) :
  sql_sum (map (fun a => Some (col a)) l)
  = match l with [] => None | _ => Some (foldr Z.add 0 (map col l)) end.
Proof.
  unfold sql_sum.
  assert (omap id (map (fun a => Some (col a)) l) = map col l) as ->.
  { induction l as [|a l IH]; simpl; [done|]. f_equal. exact IH. }
  by destruct l.
Qed.

(** The rows of the windowed totals of the current queries: one for every
    player with a game in the window, in the order of the [players] table. *)
Lemma select_totals_window col d :
  players_unique (players d) ->
  select_totals DirectPage col d
  = map (fun p => (p_player_name p, Some (window_total col d (p_player_id p))))
        (List.filter (fun p => negb (bool_decide (windowed_games d (p_player_id p) = [])))
                     (players d)).
Proof.
  intros Hu. unfold select_totals. rewrite kept_rows.
  rewrite (group_by_blocks (window_rows d) row_player_key).
  - rewrite map_map.
    assert (forall p, bool_decide (window_rows d p = [])
                      = bool_decide (windowed_games d (p_player_id p) = [])) as Hb.
    { intros p. unfold window_rows. by destruct (windowed_games d (p_player_id p)). }
    rewrite (List.filter_ext _ _ (fun p => f_equal negb (Hb p))).
    apply map_ext_in. intros p Hin. apply filter_In in Hin as [_ Hne].
    simpl. f_equal. unfold window_rows. rewrite map_map. simpl.
    rewrite sql_sum_Some. unfold window_total.
    destruct (windowed_games d (p_player_id p)); [done|done].
  - intros p r Hr. unfold window_rows in Hr.
    apply list_elem_of_fmap in Hr as (g & -> & _). done.
  - by apply players_unique_keys.
Qed.

Lemma insert_by_perm le r l : Permutation (insert_by le r l) (r :: l).
Proof.
  induction l as [|h t IH]; simpl; [done|].
  destruct (le r.2 h.2); [done|]. rewrite IH. apply perm_swap.
Qed.

Lemma order_by_desc_perm l : Permutation (order_by_desc l) l.
Proof.
  unfold order_by_desc. induction l as [|r l IH]; simpl; [done|].
  rewrite insert_by_perm. by constructor.
Qed.

Lemma order_by_asc_perm l : Permutation (order_by_asc l) l.
Proof.
  unfold order_by_asc. induction l as [|r l IH]; simpl; [done|].
  rewrite insert_by_perm. by constructor.
Qed.

Lemma goals_rows_scorers d :
  players_unique (players d) ->
  List.filter having_positive (select_totals DirectPage g_goals d) = scorers d.
Proof.
  intros Hu. rewrite select_totals_window by done. unfold scorers.
  rewrite filter_map_comm, filter_filter_andb. f_equal.
  apply List.filter_ext. intros p. unfold having_positive, window_total. simpl.
  destruct (windowed_games d (p_player_id p)); done.
Qed.

(** C5. In a store whose [players] table satisfies its primary key, the
    input of the goals chart is, up to the order of the rows, the name and the
    total of exactly the players whose goals (over their games in the date
    window) sum to more than zero; a player whose total is zero or less has no
    row. *)
Theorem goals_chart_scorers d :
  players_unique (players d) ->
  exists results,
    generate_goals_chart DirectPage d = chart_input results /\
    Permutation results (scorers d).
Proof.
  intros Hu. exists (goals_query DirectPage d). split; [done|].
  unfold goals_query. rewrite order_by_desc_perm. by rewrite goals_rows_scorers.
Qed.

Lemma windowed_games_known d player_id :
  unknown_time_dates_null (games d) ->
  windowed_games (without_unknown_time d) player_id = windowed_games d player_id.
Proof.
  unfold unknown_time_dates_null, windowed_games. intros Hu. simpl.
  rewrite filter_filter_andb. apply List.filter_ext_in. intros g Hin.
  rewrite Forall_forall in Hu. specialize (Hu g (proj2 (list_elem_of_In _ _) Hin)).
  destruct (unknown_time g); [|done].
  rewrite Hu by done. simpl. by rewrite andb_false_r.
Qed.

Lemma select_totals_known col d :
  unknown_time_dates_null (games d) ->
  select_totals DirectPage col (without_unknown_time d) = select_totals DirectPage col d.
Proof.
  intros Hu. unfold select_totals. rewrite !kept_rows. simpl.
  do 2 f_equal. apply flat_map_ext. intros p. unfold window_rows.
  by rewrite windowed_games_known.
Qed.

Section UnknownTimeNotCharted.
Variable v : variant.
Variable utcoffset : Z -> Z.

(** C10. After [save_games_to_db] has returned on a store in which every
    row of unknown time has a NULL date: every stored row with the key of a
    record whose time stamp is 0 or missing has a NULL [game_date], and the
    inputs of the two charts that restrict [game_date] to the date window are
    the same with and without the rows of unknown time. *)
Theorem unknown_time_not_charted clock p games_data d d' counts :
  unknown_time_dates_null (games d) ->
  save_games_to_db v utcoffset clock p games_data d = (d', Ok counts) ->
  (forall game row,
     game ∈ games_data -> truthy (timestamp_of game) = false ->
     row ∈ games d' -> key_matches p (timestamp_of game) row = true ->
     g_game_date row = None) /\
  generate_minutes_chart DirectPage (without_unknown_time d')
  = generate_minutes_chart DirectPage d' /\
  generate_goals_chart DirectPage (without_unknown_time d')
  = generate_goals_chart DirectPage d'.
Proof.
  intros Hu. unfold save_games_to_db.
  destruct (save_games_loop _ _ _ _ _ _) as [[[d1 n1] u1]|e] eqn:H; [|discriminate].
  intros [= <- _].
  apply save_games_loop_unknown_time in H; [|done].
  split; [|split].
  - intros game row _ Ht Hrow Hk.
    unfold unknown_time_dates_null in H. rewrite Forall_forall in H.
    apply (H row Hrow). unfold unknown_time.
    apply andb_true_iff in Hk as [_ Hk]. apply sql_eq_eq in Hk. by rewrite Hk, Ht.
  - unfold generate_minutes_chart, minutes_query. by rewrite select_totals_known.
  - unfold generate_goals_chart, goals_query. by rewrite select_totals_known.
Qed.

End UnknownTimeNotCharted.

(** Without the date window every player has a row. *)
Lemma select_totals_all_players col d :
  players_unique (players d) ->
  map fst (select_totals ClickEvent col d) = map p_player_name (players d).
Proof.
  intros Hu. unfold select_totals.
  change (left_join (players d) (games d)) with (flat_map (join_rows d) (players d)).
  rewrite (group_by_blocks (join_rows d) row_player_key).
  - rewrite !map_map. rewrite List.filter_ext with (g := fun _ => true).
    + rewrite filter_true. reflexivity.
    + intros p. unfold join_rows. by destruct (List.filter _ (games d)).
  - intros p r Hr. unfold join_rows in Hr.
    destruct (List.filter _ (games d)).
    + by apply list_elem_of_singleton in Hr as ->.
    + apply list_elem_of_fmap in Hr as (g' & -> & _). done.
  - by apply players_unique_keys.
Qed.

Lemma chart_input_names results :
  results <> [] ->
  exists totals, chart_input results = Some (map fst results, totals).
Proof. destruct results; [done|]. intros _. by eexists. Qed.

(** The sibling's minutes chart shows every saved player. *)
Lemma minutes_chart_all_players d p :
  players_unique (players d) -> p ∈ players d ->
  exists names totals,
    generate_minutes_chart ClickEvent d = Some (names, totals) /\
    p_player_name p ∈ names /\ length names = length (players d).
Proof.
  intros Hu Hp. unfold generate_minutes_chart, minutes_query.
  pose proof (select_totals_all_players g_minutes_played d Hu) as Hn.
  pose proof (order_by_desc_perm (select_totals ClickEvent g_minutes_played d)) as Hperm.
  destruct (chart_input_names (order_by_desc (select_totals ClickEvent g_minutes_played d)))
    as [totals Hc].
  { intros Hnil. rewrite Hnil in Hperm. apply Permutation_nil in Hperm.
    rewrite Hperm in Hn. simpl in Hn. destruct (players d); [by apply not_elem_of_nil in Hp|done]. }
  eexists _, totals. split; [exact Hc|]. split.
  - rewrite Hperm, Hn. by apply list_elem_of_fmap_2.
  - rewrite length_map, Hperm, <- (length_map fst), Hn. by rewrite length_map.
Qed.

(** The current minutes query has a row only for a player with a game in the
    window. *)
Lemma minutes_query_window_length d :
  players_unique (players d) ->
  length (minutes_query DirectPage d)
  = length (List.filter (fun p => negb (bool_decide (windowed_games d (p_player_id p) = [])))
                        (players d)).
Proof.
  intros Hu. unfold minutes_query.
  rewrite order_by_desc_perm, select_totals_window by done. by rewrite length_map.
Qed.

(** * Properties of the conversions *)

Lemma isdigit_not_space c : char_isdigit c = true -> char_isspace c = false.
Proof. destruct c as [[] [] [] [] [] [] [] []]; vm_compute; congruence. Qed.

Lemma isdigit_not_decimal c :
  char_isdigit c = true -> is_decimal c = false ->
  Ascii.eqb c "_" = false.
Proof. destruct c as [[] [] [] [] [] [] [] []]; vm_compute; congruence. Qed.

Lemma isdigit_not_sign c :
  char_isdigit c = true -> c <> "+"%char /\ c <> "-"%char.
Proof. destruct c as [[] [] [] [] [] [] [] []]; vm_compute; split; congruence. Qed.

Lemma decimal_isdigit c : is_decimal c = true -> char_isdigit c = true.
Proof. unfold char_isdigit. by intros ->. Qed.

Lemma lstrip_id s :
  string_forallb (fun c => negb (char_isspace c)) s = true -> lstrip s = s.
Proof.
  destruct s as [|c r]; simpl; [done|].
  intros [Hc _]%andb_true_iff. apply negb_true_iff in Hc. by rewrite Hc.
Qed.

Lemma rstrip_id s :
  string_forallb (fun c => negb (char_isspace c)) s = true -> rstrip s = s.
Proof.
  induction s as [|c r IH]; simpl; [done|].
  intros [Hc Hr]%andb_true_iff. apply negb_true_iff in Hc. rewrite (IH Hr), Hc.
  by destruct r.
Qed.

Lemma string_forallb_impl (f g : ascii -> bool) s :
  (forall c, f c = true -> g c = true) ->
  string_forallb f s = true -> string_forallb g s = true.
Proof.
  intros Hfg. induction s as [|c r IH]; simpl; [done|].
  intros [Hc Hr]%andb_true_iff. by rewrite (Hfg c Hc), (IH Hr).
Qed.

Lemma strip_isdigit s : string_forallb char_isdigit s = true -> strip s = s.
Proof.
  intros H. assert (string_forallb (fun c => negb (char_isspace c)) s = true) as Hs.
  { eapply string_forallb_impl; [|exact H]. intros c Hc.
    by rewrite (isdigit_not_space c Hc). }
  unfold strip. by rewrite (lstrip_id s Hs), (rstrip_id s Hs).
Qed.

Lemma int_digits_decimal s acc b :
  string_forallb is_decimal s = true -> (s <> "" \/ b = true) ->
  int_digits s acc b = Some (decimal_value_from acc s).
Proof.
  revert acc b. induction s as [|c r IH]; simpl; intros acc b.
  - intros _ [?| ->]; done.
  - intros [Hc Hr]%andb_true_iff _. rewrite Hc. apply IH; [done | by right].
Qed.

Lemma int_digits_superscript s acc b :
  string_forallb char_isdigit s = true -> string_forallb is_decimal s = false ->
  int_digits s acc b = None.
Proof.
  revert acc b. induction s as [|c r IH]; simpl; intros acc b; [done|].
  intros [Hc Hr]%andb_true_iff Hd.
  destruct (is_decimal c) eqn:Hdc; simpl in Hd.
  - by apply IH.
  - by rewrite (isdigit_not_decimal c Hc Hdc).
Qed.

(** [int(text)] behind the guard [text.isdigit()]. *)
Lemma int_of_str_isdigit s :
  isdigit s = true ->
  int_of_str s
  = if string_forallb is_decimal s then Ok (decimal_value s) else Raise ValueError.
Proof.
  unfold isdigit. intros [Hne Hd]%andb_true_iff.
  unfold int_of_str. rewrite (strip_isdigit s Hd).
  destruct s as [|c r]; [done|].
  assert (c <> "+"%char /\ c <> "-"%char) as [Hp Hm].
  { simpl in Hd. apply andb_true_iff in Hd as [Hc _]. by apply isdigit_not_sign. }
  assert (match String c r with
          | String "+" r0 => int_digits r0 0 false
          | String "-" r0 => Z.opp <$> int_digits r0 0 false
          | t => int_digits t 0 false
          end = int_digits (String c r) 0 false) as ->.
  { destruct c as [[] [] [] [] [] [] [] []]; try reflexivity; congruence. }
  destruct (string_forallb is_decimal (String c r)) eqn:Hdec.
  - rewrite int_digits_decimal; [done|done|by left].
  - by rewrite int_digits_superscript.
Qed.

(** What the extractor makes of the text of a round, minutes or goals
    fragment. *)
Lemma int_or_zero_spec text :
  int_or_zero text
  = if isdigit text then
      if string_forallb is_decimal text then Ok (decimal_value text)
      else Raise ValueError
    else Ok 0.
Proof.
  unfold int_or_zero. destruct (isdigit text) eqn:H; [|done].
  by apply int_of_str_isdigit.
Qed.

(** The store converts a text as the extractor does. *)
Lemma to_int_or_zero_text s : to_int_or_zero (PStr s) = int_or_zero s.
Proof. reflexivity. Qed.

Lemma to_int_or_zero_None : to_int_or_zero PNone = Ok 0.
Proof. reflexivity. Qed.

Lemma string_of_uint_decimal d :
  string_forallb is_decimal (NilEmpty.string_of_uint d) = true.
Proof. induction d; simpl; try done; by rewrite IHd. Qed.

Lemma isdigit_str_of_Z n : isdigit (str_of_Z n) = (0 <=? n).
Proof.
  unfold str_of_Z, isdigit, Z.to_int.
  destruct n as [|p|p]; [done| |done].
  simpl. unfold NilZero.string_of_uint.
  pose proof (string_of_uint_decimal (Pos.to_uint p)) as Hd.
  change (0 <=? Z.pos p) with true.
  destruct (Pos.to_uint p) eqn:Hp; simpl in *; [done|..];
    (eapply string_forallb_impl; [apply decimal_isdigit | exact Hd]).
Qed.

(** The store's conversion of a count that is already an integer. *)
Lemma to_int_or_zero_int n : to_int_or_zero (PInt n) = Ok (if 0 <=? n then n else 0).
Proof.
  unfold to_int_or_zero. simpl. rewrite isdigit_str_of_Z. by destruct (0 <=? n).
Qed.

(** * Properties of the extractor *)

(** C6 (the code departs from it). The text of one superscript two passes
    [isdigit], and [int] then raises [ValueError] instead of giving 0 or a
    value: the extractor loses the record it was building and returns what it
    had appended before, and [save_games_to_db] raises and stores nothing. *)
Theorem superscript_digit_raises :
  isdigit superscript_two = true /\
  int_or_zero superscript_two = Raise ValueError /\
  to_int_or_zero (PStr superscript_two) = Raise ValueError /\
  (forall utcoffset, scrape_from_page utcoffset page_minutes_superscript = []) /\
  (forall v utcoffset clock p d,
     save_games_to_db v utcoffset clock p
       [ {[ "einsatzMinuten" := PStr superscript_two ]} ] d
     = (d, Raise ValueError)).
Proof.
  split; [done|]. split; [done|]. split; [done|]. split.
  - intros utcoffset. unfold scrape_from_page.
    by replace (collect_games page_minutes_superscript) with (@nil dict, Some ValueError)
      by (vm_compute; reflexivity).
  - intros v utcoffset clock p d. unfold save_games_to_db. simpl.
    unfold save_game, timestamp_of. 
    replace (get {[ "einsatzMinuten" := PStr superscript_two ]} "anstoss" (PInt 0))
      with (PInt 0) by (vm_compute; reflexivity).
    replace (get {[ "einsatzMinuten" := PStr superscript_two ]} "einsatzMinuten" (PStr "0"))
      with (PStr superscript_two) by (vm_compute; reflexivity).
    reflexivity.
Qed.

Lemma post_process_lookup utcoffset game key :
  key <> "anstoss" -> key <> "ageGroup" ->
  post_process utcoffset game !! key = game !! key.
Proof.
  intros H1 H2. unfold post_process.
  rewrite lookup_insert_ne by done. by rewrite lookup_insert_ne.
Qed.

(** C3 (the code departs from it). A page whose first fragment is a
    competition (column 1) followed by a date (column 0): the record built
    from the column-1 fragment is emitted when the column-0 fragment arrives,
    and it carries no date field. *)
Theorem record_without_date_emitted utcoffset :
  exists g1 g2,
    scrape_from_page utcoffset page_competition_first = [g1; g2] /\
    g1 !! "datum" = None /\
    g1 !! "bewerb" = Some (PStr "Liga") /\
    g2 !! "datum" = Some (PStr "15.11.2025, 11:30 Uhr").
Proof.
  unfold scrape_from_page.
  replace (collect_games page_competition_first)
    with ([ ({[ "bewerb" := PStr "Liga" ]} : dict);
            {[ "datum" := PStr "15.11.2025, 11:30 Uhr" ]} ], @None exn)
    by (vm_compute; reflexivity).
  simpl. eexists _, _. split; [reflexivity|].
  rewrite !post_process_lookup by done. done.
Qed.
Lemma strip_prefix_length p s rest :
  strip_prefix p s = Some rest -> (String.length rest + String.length p = String.length s)%nat.
Proof.
  revert s. induction p as [|a p IH]; intros [|b s]; simpl; try discriminate.
  - intros [= <-]. simpl. lia.
  - intros [= <-]. simpl. lia.
  - destruct (Ascii.eqb a b); [|discriminate]. intros H%IH. simpl. lia.
Qed.

Lemma string_app_nil_r (s : string) : s +:+ "" = s.
Proof.
  induction s as [|c s IH]; [done|].
  change (String c (s +:+ "") = String c s). by rewrite IH.
Qed.

Lemma string_app_assoc (a b c : string) : (a +:+ b) +:+ c = a +:+ (b +:+ c).
Proof.
  induction a as [|x a IH]; [done|].
  change (String x ((a +:+ b) +:+ c) = String x (a +:+ (b +:+ c))). by rewrite IH.
Qed.

Section Split.
Variable sep0 : ascii.
Variable sep' : string.
Let sep := String sep0 sep'.

Lemma str_split_go_fuel fuel1 fuel2 cur s :
  (String.length s < fuel1)%nat -> (String.length s < fuel2)%nat ->
  str_split_go fuel1 sep cur s = str_split_go fuel2 sep cur s.
Proof.
  revert fuel2 cur s. induction fuel1 as [|f1 IH]; intros [|f2] cur s H1 H2; try lia.
  destruct s as [|c r]; [done|].
  cbn [str_split_go]. destruct (strip_prefix sep (String c r)) as [rest|] eqn:Hp.
  - apply strip_prefix_length in Hp. simpl in Hp, H1, H2.
    f_equal. apply IH; lia.
  - simpl in H1, H2. apply IH; lia.
Qed.

(** [split] cuts at the first separator and goes on with the rest. *)
Lemma str_split_go_first s : forall fuel cur,
  (String.length s < fuel)%nat ->
  str_split_go fuel sep cur s
  = match split_first sep s with
    | Some (before, after) => (cur +:+ before) :: str_split sep after
    | None => [cur +:+ s]
    end.
Proof.
  induction s as [|c r IH]; intros [|f] cur Hf; try (simpl in Hf; lia).
  - simpl. by rewrite string_app_nil_r.
  - cbn [str_split_go split_first].
    destruct (strip_prefix sep (String c r)) as [rest|] eqn:Hp.
    + rewrite string_app_nil_r. f_equal. unfold str_split.
      apply strip_prefix_length in Hp. simpl in Hp, Hf.
      apply str_split_go_fuel; lia.
    + simpl in Hf. rewrite IH by lia.
      destruct (split_first sep r) as [[before after]|].
      * by rewrite string_app_assoc.
      * by rewrite string_app_assoc.
Qed.

Lemma str_split_first s :
  str_split sep s
  = match split_first sep s with
    | Some (before, after) => before :: str_split sep after
    | None => [s]
    end.
Proof. unfold str_split at 1. rewrite str_split_go_first by lia. done. Qed.

Lemma contains_split_first s :
  contains sep s = bool_decide (is_Some (split_first sep s)).
Proof.
  induction s as [|c r IH].
  - done.
  - cbn [contains split_first].
    destruct (strip_prefix sep (String c r)); [done|].
    rewrite IH. destruct (split_first sep r) as [[? ?]|]; done.
Qed.

End Split.
(** C8 as stated fails: for a title with two separators the away team is not
    what follows the first separator, and for a link whose title has no
    separator the visible text does not become the home team. *)
Lemma c3_claim_fails :
  ~ c3_as_claimed fragment_three_part_title /\
  ~ c3_as_claimed fragment_title_without_separator.
Proof.
  split; intros H; destruct (H [] ∅) as (g & Hs & Hg).
  - assert (scan_div fragment_three_part_title ([], ∅)
            = Ok ([], <["actionLink" := PStr "/spiel/1"]>
                        (<["gastMannschaft" := PStr "FC B"]>
                           (<["heimMannschaft" := PStr "SV A"]> ∅)))) as Hv
      by (vm_compute; reflexivity).
    rewrite Hv in Hs. injection Hs as <-.
    vm_compute in Hg. destruct Hg as (_ & Ha & _). congruence.
  - assert (scan_div fragment_title_without_separator ([], ∅)
            = Ok ([], <["actionLink" := PStr "/spiel/2"]> ∅)) as Hv
      by (vm_compute; reflexivity).
    rewrite Hv in Hs. injection Hs as <-.
    vm_compute in Hg. destruct Hg as (Hh & _). congruence.
Qed.

(** C8, amended. For every column-3 fragment: when it contains a link, the
    link's [href] (or the empty text) is captured, and when the link's title
    contains the separator, the home team is the trimmed text before the first
    separator and the away team is the trimmed text between the first and the
    second separator (up to the end without a second one); when it contains no
    link, the visible text is the home team and the away team is empty. *)
Theorem c3_fragment_teams d games_data current_game :
  col_class_of d = Some "c3" -> c3_as_amended d games_data current_game.
Proof.
  intros Hc. unfold c3_as_amended, scan_div. rewrite Hc.
  change (String.eqb "c3" "c0") with false. change (String.eqb "c3" "c1") with false.
  change (String.eqb "c3" "c2") with false. change (String.eqb "c3" "c3") with true.
  cbv iota. destruct (div_link d) as [link|].
  - eexists. split; [reflexivity|]. split; [by rewrite lookup_insert_eq|].
    intros before after Hs.
    rewrite (contains_split_first " " "- "), Hs.
    rewrite bool_decide_eq_true_2 by (by eexists).
    rewrite (str_split_first " " "- "), Hs. cbn [nth].
    split.
    + rewrite lookup_insert_ne by done. rewrite lookup_insert_ne by done.
      by rewrite lookup_insert_eq.
    + rewrite lookup_insert_ne by done. rewrite lookup_insert_eq.
      do 3 f_equal. rewrite (str_split_first " " "- "). unfold away_part.
      by destruct (split_first " - " after) as [[? ?]|].
  - eexists. split; [reflexivity|]. split.
    + rewrite lookup_insert_ne by done. by rewrite lookup_insert_eq.
    + by rewrite lookup_insert_eq.
Qed.

Lemma Z_range_cases (P : Z -> Prop) (lo : Z) (n : nat) :
  Forall P (map (fun i => lo + Z.of_nat i) (seq 0 n)) ->
  forall z, lo <= z < lo + Z.of_nat n -> P z.
Proof.
  intros H z Hz. rewrite Forall_forall in H. apply H.
  apply list_elem_of_In, in_map_iff. exists (Z.to_nat (z - lo)). split; [lia|].
  apply in_seq. lia.
Qed.

Ltac by_cases z lo n :=
  pattern z; apply (Z_range_cases _ lo n); [|lia]; cbn [seq map];
  repeat (apply List.Forall_cons; [vm_compute; first [reflexivity | split; reflexivity]|]);
  apply List.Forall_nil.

Lemma digit_char_decimal k :
  0 <= k <= 9 -> is_decimal (digit_char k) = true /\ digit_value (digit_char k) = k.
Proof. intros Hk. by_cases k 0 10%nat. Qed.

Lemma decimal_plain c :
  is_decimal c = true -> char_isspace c = false /\ Ascii.eqb " " c = false.
Proof. destruct c as [[] [] [] [] [] [] [] []]; vm_compute; split; congruence. Qed.

Lemma head_bind {A B} (p : rx A) (k : A -> rx B) s a r x :
  head (p s) = Some (a, r) -> head (k a r) = Some x ->
  head (rx_bind p k s) = Some x.
Proof.
  unfold rx_bind. destruct (p s) as [|[a' r'] tl]; [done|].
  intros [= -> ->] Hk. simpl. destruct (k a r); [done|]. by simpl in *.
Qed.

Lemma re_d_pad2 d rest : 1 <= d <= 31 -> head (re_d (pad2 d +:+ rest)) = Some (d, rest).
Proof. intros Hd. by_cases d 1 31%nat. Qed.

Lemma re_m_pad2 m rest : 1 <= m <= 12 -> head (re_m (pad2 m +:+ rest)) = Some (m, rest).
Proof. intros Hd. by_cases m 1 12%nat. Qed.

Lemma re_H_pad2 H rest : 0 <= H <= 23 -> head (re_H (pad2 H +:+ rest)) = Some (H, rest).
Proof. intros Hd. by_cases H 0 24%nat. Qed.

Lemma re_M_pad2 M rest : 0 <= M <= 59 -> head (re_M (pad2 M +:+ rest)) = Some (M, rest).
Proof. intros Hd. by_cases M 0 60%nat. Qed.

Lemma rx_digit_char lo hi k rest :
  0 <= k <= 9 -> lo <= k <= hi ->
  rx_digit lo hi (String (digit_char k) rest) = [(k, rest)].
Proof.
  intros Hk Hr. unfold rx_digit.
  destruct (digit_char_decimal k Hk) as [-> ->]. simpl.
  by rewrite (proj2 (Z.leb_le lo k)), (proj2 (Z.leb_le k hi)) by lia.
Qed.

Lemma re_Y_pad4 y rest : 0 <= y <= 9999 -> head (re_Y (pad4 y +:+ rest)) = Some (y, rest).
Proof.
  intros Hy. unfold re_Y, pad4, pad2, rx_bind.
  change (String ?a (String ?b (String ?c (String ?d "")) ) +:+ rest)
    with (String a (String b (String c (String d rest)))).
  assert (forall n, 0 <= n mod 10 <= 9) as Hm
    by (intros n; pose proof (Z.mod_pos_bound n 10); lia).
  do 4 (rewrite rx_digit_char by apply Hm; cbn [flat_map app]).
  unfold rx_ret. simpl. do 2 f_equal. Z.to_euclidean_division_equations. lia.
Qed.

Lemma rx_lit_head c rest : head (rx_lit c (String c rest)) = Some (tt, rest).
Proof. unfold rx_lit. by rewrite Ascii.eqb_refl. Qed.

Lemma mod_10_digit n : 0 <= n mod 10 <= 9.
Proof. pose proof (Z.mod_pos_bound n 10). lia. Qed.

Lemma rx_spaces_pad2 n rest :
  head (rx_spaces (String " " (pad2 n +:+ rest))) = Some (tt, pad2 n +:+ rest).
Proof.
  unfold pad2.
  change (String ?a (String ?b "") +:+ rest) with (String a (String b rest)).
  cbn [rx_spaces]. change (char_isspace " ") with true. cbv iota.
  destruct (digit_char_decimal _ (mod_10_digit (n / 10))) as [Hd _].
  destruct (decimal_plain _ Hd) as [-> _]. done.
Qed.

Lemma re_format_date_text d m y H M :
  1 <= d <= 31 -> 1 <= m <= 12 -> 0 <= y <= 9999 -> 0 <= H <= 23 -> 0 <= M <= 59 ->
  head (re_format (date_text d m y H M)) = Some (kick_off d m y H M, "").
Proof.
  intros Hd Hm Hy HH HM. unfold re_format, date_text.
  rewrite <- (string_app_nil_r (pad2 M)).
  change ("." +:+ ?x) with (String "." x).
  change (":" +:+ ?x) with (String ":" x).
  change (", " +:+ ?x) with (String "," (String " " x)).
  eapply head_bind; [by apply re_d_pad2|]. cbv beta.
  eapply head_bind; [apply rx_lit_head|]. cbv beta.
  eapply head_bind; [by apply re_m_pad2|]. cbv beta.
  eapply head_bind; [apply rx_lit_head|]. cbv beta.
  eapply head_bind; [by apply re_Y_pad4|]. cbv beta.
  eapply head_bind; [apply rx_lit_head|]. cbv beta.
  eapply head_bind; [apply rx_spaces_pad2|]. cbv beta.
  eapply head_bind; [by apply re_H_pad2|]. cbv beta.
  eapply head_bind; [apply rx_lit_head|]. cbv beta.
  eapply head_bind; [by apply re_M_pad2|]. cbv beta.
  reflexivity.
Qed.

(** [strptime] reads a text of the form DD.MM.YYYY, HH:MM that names a day of
    the calendar. *)
Lemma strptime_date_text d m y H M :
  1 <= m <= 12 -> 1 <= y <= 9999 -> 1 <= d <= days_in_month y m ->
  0 <= H <= 23 -> 0 <= M <= 59 ->
  strptime (date_text d m y H M) = Ok (kick_off d m y H M).
Proof.
  intros Hm Hy Hd HH HM.
  assert (days_in_month y m <= 31) as Hdim.
  { unfold days_in_month. repeat destruct (_ =? _); simpl; try lia; destruct (is_leap y); lia. }
  unfold strptime.
  pose proof (re_format_date_text d m y H M ltac:(lia) Hm ltac:(lia) HH HM) as Hf.
  destruct (re_format (date_text d m y H M)) as [|[dt rest] tl].
  - discriminate Hf.
  - injection Hf as -> ->. simpl.
    unfold MINYEAR.
    by rewrite (proj2 (Z.leb_le 1 y)), (proj2 (Z.leb_le d (days_in_month y m))) by lia.
Qed.

Lemma decimal_not_Uhr c :
  is_decimal c = true ->
  Ascii.eqb " " c = false /\ Ascii.eqb "U" c = false /\ Ascii.eqb "." c = false /\
  char_isspace c = false.
Proof. destruct c as [[] [] [] [] [] [] [] []]; vm_compute; repeat split; congruence. Qed.

Lemma replace_Uhr_step fuel c r :
  Ascii.eqb " " c = false ->
  str_replace_go (S fuel) " Uhr" "" (String c r)
  = String c (str_replace_go fuel " Uhr" "" r).
Proof. intros H. cbn [str_replace_go strip_prefix]. by rewrite H. Qed.

Lemma replace_Uhr_step_space fuel c r :
  Ascii.eqb "U" c = false ->
  str_replace_go (S fuel) " Uhr" "" (String " " (String c r))
  = String " " (str_replace_go fuel " Uhr" "" (String c r)).
Proof.
  intros H. cbn [str_replace_go strip_prefix].
  change (Ascii.eqb " " " ") with true. cbv iota. by rewrite H.
Qed.

Lemma rstrip_keep c r : rstrip r = r -> r <> "" -> rstrip (String c r) = String c r.
Proof. intros H Hne. cbn [rstrip]. rewrite H. by destruct r. Qed.

Lemma rstrip_last c : char_isspace c = false -> rstrip (String c "") = String c "".
Proof. intros H. cbn [rstrip]. by rewrite H. Qed.

Lemma contains_dot_skip c r :
  Ascii.eqb "." c = false -> contains "." (String c r) = contains "." r.
Proof. intros H. cbn [contains strip_prefix]. by rewrite H. Qed.

Lemma date_chars_pipeline (d1 d2 m1 m2 y1 y2 y3 y4 h1 h2 n1 n2 : ascii) :
  Forall (fun c => is_decimal c = true) [d1; d2; m1; m2; y1; y2; y3; y4; h1; h2; n1; n2] ->
  let date :=
    String d1 (String d2 (String "." (String m1 (String m2 (String "."
      (String y1 (String y2 (String y3 (String y4 (String "," (String " "
        (String h1 (String h2 (String ":" (String n1 (String n2 ""))))))))))))))))
  in
  str_replace " Uhr" "" (date +:+ " Uhr") = date /\
  strip date = date /\
  contains "." (date +:+ " Uhr") = true.
Proof.
  intros Hdec date.
  repeat match goal with
         | H : Forall _ (_ :: _) |- _ =>
             apply Forall_cons in H as [(? & ? & ? & ?)%decimal_not_Uhr H]
         end.
  subst date. split; [|split].
  - unfold str_replace.
    change (String ?a (String ?b (String ?c (String ?d (String ?e (String ?f (String ?g
             (String ?h (String ?i (String ?j (String ?k (String ?l (String ?m
               (String ?n (String ?o (String ?p (String ?q ""))))))))))))))))
            +:+ " Uhr")
      with (String a (String b (String c (String d (String e (String f (String g
             (String h (String i (String j (String k (String l (String m
               (String n (String o (String p (String q " Uhr"))))))))))))))))).
    cbn [String.length].
    do 11 (rewrite replace_Uhr_step by (assumption || reflexivity)).
    rewrite replace_Uhr_step_space by assumption.
    do 5 (rewrite replace_Uhr_step by (assumption || reflexivity)).
    reflexivity.
  - unfold strip. cbn [lstrip].
    match goal with H : char_isspace d1 = false |- _ => rewrite H end.
    repeat (apply rstrip_keep; [|discriminate]). by apply rstrip_last.
  - change (String ?a (String ?b (String "." ?r)) +:+ " Uhr")
      with (String a (String b (String "." (r +:+ " Uhr")))).
    rewrite !contains_dot_skip by assumption. reflexivity.
Qed.

Lemma datum_text_pipeline d m y H M :
  str_replace " Uhr" "" (datum_text d m y H M) = date_text d m y H M /\
  strip (date_text d m y H M) = date_text d m y H M /\
  contains "." (datum_text d m y H M) = true.
Proof.
  apply (date_chars_pipeline
           (digit_char (d / 10 mod 10)) (digit_char (d mod 10))
           (digit_char (m / 10 mod 10)) (digit_char (m mod 10))
           (digit_char (y / 1000 mod 10)) (digit_char (y / 100 mod 10))
           (digit_char (y / 10 mod 10)) (digit_char (y mod 10))
           (digit_char (H / 10 mod 10)) (digit_char (H mod 10))
           (digit_char (M / 10 mod 10)) (digit_char (M mod 10))).
  repeat (apply List.Forall_cons; [apply digit_char_decimal, mod_10_digit|]).
  apply List.Forall_nil.
Qed.

Section DateParsing.
Variable utcoffset : Z -> Z.

Lemma anstoss_of_datum_text d m y H M seconds :
  1 <= m <= 12 -> 1 <= y <= 9999 -> 1 <= d <= days_in_month y m ->
  0 <= H <= 23 -> 0 <= M <= 59 ->
  timestamp utcoffset (kick_off d m y H M) = Ok seconds ->
  anstoss_of utcoffset (datum_text d m y H M) = seconds * 1000.
Proof.
  intros Hm Hy Hd HH HM Hts. unfold anstoss_of.
  destruct (datum_text_pipeline d m y H M) as (-> & -> & ->).
  replace (String.eqb (datum_text d m y H M) "") with false by reflexivity.
  cbn [negb andb]. rewrite strptime_date_text by done. cbn [rbind]. by rewrite Hts.
Qed.

Lemma anstoss_of_unparsed text e :
  strptime (strip (str_replace " Uhr" "" text)) = Raise e ->
  anstoss_of utcoffset text = 0.
Proof.
  intros H. unfold anstoss_of. rewrite H. cbn [rbind].
  by destruct (negb (String.eqb text "") && contains "." text).
Qed.

Lemma scrape_single_date text :
  scrape_from_page utcoffset [div_of "c0" text]
  = [ <["anstoss" := PInt (anstoss_of utcoffset text)]>
        (<["ageGroup" := PStr ""]> {[ "datum" := PStr text ]}) ].
Proof.
  unfold scrape_from_page, collect_games. cbn [scan_divs].
  assert (scan_div (div_of "c0" text) ([], ∅) = Ok ([], {[ "datum" := PStr text ]})) as ->
    by reflexivity.
  assert (nonempty ({[ "datum" := PStr text ]} : dict) = true) as ->.
  { apply bool_decide_eq_true_2. apply map_non_empty_singleton. }
  assert (has_key "datum" ({[ "datum" := PStr text ]} : dict) = true) as ->.
  { apply bool_decide_eq_true_2. rewrite lookup_singleton_eq. by eexists. }
  simpl. unfold post_process, get.
  rewrite lookup_singleton_eq. rewrite lookup_singleton_ne by done. reflexivity.
Qed.

(** The instant that [timestamp] returns shows the given wall clock reading
    in local time, unless the reading falls into a gap of local time. *)
Lemma timestamp_local dt seconds :
  timestamp utcoffset dt = Ok seconds ->
  local utcoffset seconds = Ok (utc_to_seconds dt) \/
  exists u1 u2 t1 t2,
    seconds = Z.max u1 u2 /\ local utcoffset u1 = Ok t1 /\ local utcoffset u2 = Ok t2 /\
    t1 <> utc_to_seconds dt /\ t2 <> utc_to_seconds dt.
Proof.
  unfold timestamp. generalize (utc_to_seconds dt). intros t.
  destruct (local utcoffset t) as [lt|] eqn:H0; cbn [rbind]; [|discriminate].
  destruct (local utcoffset (t - (lt - t))) as [t1|] eqn:H1; cbn [rbind]; [|discriminate].
  assert (forall b,
            (t2 <- local utcoffset (t - b) ;;;
             if t2 =? t then Ok (t - b)
             else if t1 =? t then Ok (t - (lt - t))
             else Ok (Z.max (t - (lt - t)) (t - b))) = Ok seconds ->
            local utcoffset seconds = Ok t \/
            exists u1 u2 t1' t2,
              seconds = Z.max u1 u2 /\ local utcoffset u1 = Ok t1' /\
              local utcoffset u2 = Ok t2 /\ t1' <> t /\ t2 <> t) as Hfin.
  { intros b. destruct (local utcoffset (t - b)) as [t2|] eqn:H2; cbn [rbind]; [|discriminate].
    destruct (Z.eqb_spec t2 t) as [->|Hne2].
    - intros [= <-]. by left.
    - destruct (Z.eqb_spec t1 t) as [->|Hne1].
      + intros [= <-]. by left.
      + intros [= <-]. right. by exists (t - (lt - t)), (t - b), t1, t2. }
  destruct (Z.eqb_spec t1 t) as [->|Hne1].
  - destruct (local utcoffset (t - (lt - t) - max_fold_seconds)) as [lt2|];
      cbn [rbind]; [|discriminate].
    destruct (lt - t =? _).
    + intros [= <-]. by left.
    + apply Hfin.
  - apply Hfin.
Qed.

End DateParsing.

(** * The calendar *)

Lemma check_steps n :
  (N.iter n check_step (1, true)).1 = 1 + Z.of_N n /\
  ((N.iter n check_step (1, true)).2 = true ->
   forall i, 1 <= i < 1 + Z.of_N n -> roundtrip_ok i = true).
Proof.
  induction n as [|n [IH1 IH2]] using N.peano_ind.
  - split; [done|]. intros _ i Hi. lia.
  - rewrite N.iter_succ. unfold check_step at 1. cbn [fst snd]. split; [lia|].
    intros [Hok Hn]%andb_true_iff i Hi. rewrite IH1 in Hn.
    destruct (decide (i = 1 + Z.of_N n)) as [->|Hne]; [done|]. apply IH2; [done|lia].
Qed.

Lemma roundtrip_cycle i : 1 <= i <= 146097 -> roundtrip_ok i = true.
Proof.
  intros Hi. apply (proj2 (check_steps 146097)); [|lia].
  vm_compute. reflexivity.
Qed.

Lemma days_before_year_cycle y q :
  days_before_year (y + 400 * q) = days_before_year y + 146097 * q.
Proof. unfold days_before_year. Z.to_euclidean_division_equations. lia. Qed.

Lemma is_leap_cycle y q : is_leap (y + 400 * q) = is_leap y.
Proof.
  unfold is_leap.
  replace ((y + 400 * q) mod 4) with (y mod 4)
    by (Z.to_euclidean_division_equations; lia).
  replace ((y + 400 * q) mod 100) with (y mod 100)
    by (Z.to_euclidean_division_equations; lia).
  replace ((y + 400 * q) mod 400) with (y mod 400)
    by (Z.to_euclidean_division_equations; lia).
  done.
Qed.

Lemma ymd2ord_cycle y m d q :
  ymd2ord (y + 400 * q) m d = ymd2ord y m d + 146097 * q.
Proof.
  unfold ymd2ord, days_before_month.
  rewrite days_before_year_cycle, is_leap_cycle. lia.
Qed.

Lemma ord2ymd_cycle n q :
  ord2ymd (n + 146097 * q)
  = let '(y, m, d) := ord2ymd n in (y + 400 * q, m, d).
Proof.
  unfold ord2ymd. cbv zeta.
  replace ((n + 146097 * q - 1) / 146097) with ((n - 1) / 146097 + q)
    by (Z.to_euclidean_division_equations; lia).
  replace ((n + 146097 * q - 1) mod 146097) with ((n - 1) mod 146097)
    by (Z.to_euclidean_division_equations; lia).
  repeat match goal with
         | |- context [if ?c then _ else _] => destruct c
         end; f_equal; try f_equal; lia.
Qed.

(** [ymd2ord] undoes [ord2ymd]. *)
Lemma ymd2ord_ord2ymd n :
  1 <= n ->
  ymd2ord (ord2ymd n).1.1 (ord2ymd n).1.2 (ord2ymd n).2 = n.
Proof.
  intros Hn.
  pose proof (ord2ymd_cycle ((n - 1) mod 146097 + 1) ((n - 1) / 146097)) as Hc.
  pose proof (ymd2ord_cycle (ord2ymd ((n - 1) mod 146097 + 1)).1.1
                (ord2ymd ((n - 1) mod 146097 + 1)).1.2
                (ord2ymd ((n - 1) mod 146097 + 1)).2 ((n - 1) / 146097)) as Hy.
  assert (1 <= (n - 1) mod 146097 + 1 <= 146097) as Hr
    by (Z.to_euclidean_division_equations; lia).
  pose proof (roundtrip_cycle _ Hr) as Hrt. unfold roundtrip_ok in Hrt.
  replace ((n - 1) mod 146097 + 1 + 146097 * ((n - 1) / 146097)) with n in Hc
    by (Z.to_euclidean_division_equations; lia).
  rewrite Hc.
  destruct (ord2ymd ((n - 1) mod 146097 + 1)) as [[y m] d]. cbn [fst snd] in *.
  apply Z.eqb_eq in Hrt. rewrite Hy, Hrt.
  Z.to_euclidean_division_equations; lia.
Qed.

(** The second count of the wall clock reading that [of_seconds] makes. *)
Lemma utc_to_seconds_of_seconds l dt :
  of_seconds l = Some dt -> utc_to_seconds dt = l.
Proof.
  unfold of_seconds.
  destruct ((1 <=? l / 86400 + EPOCH_ORDINAL) && (l / 86400 + EPOCH_ORDINAL <=? MAX_ORDINAL))
    eqn:Hr; [|discriminate].
  apply andb_true_iff in Hr as [Hlo%Z.leb_le _].
  pose proof (ymd2ord_ord2ymd _ Hlo) as Hrt.
  destruct (ord2ymd (l / 86400 + EPOCH_ORDINAL)) as [[y m] d]. cbn [fst snd] in Hrt.
  intros [= <-]. unfold utc_to_seconds. cbn [year month day hour minute second].
  rewrite Hrt. unfold EPOCH_ORDINAL. Z.to_euclidean_division_equations. lia.
Qed.

Lemma of_seconds_in_range l : in_range l = true -> exists dt, of_seconds l = Some dt.
Proof.
  unfold in_range, of_seconds. intros ->.
  destruct (ord2ymd _) as [[y m] d]. by eexists.
Qed.

Section FixedOffset.
Variable utcoffset : Z -> Z.
Variable k : Z.
Hypothesis fixed : forall u, utcoffset u = k.

Lemma local_fixed u : in_range (u + k) = true -> local utcoffset u = Ok (u + k).
Proof.
  intros [dt Hdt]%of_seconds_in_range. unfold local, localtime. rewrite fixed, Hdt.
  cbn [rbind]. by rewrite (utc_to_seconds_of_seconds _ _ Hdt).
Qed.

(** In a zone with a fixed offset the time stamp of a wall clock reading is
    its second count less the offset. *)
Lemma timestamp_fixed dt :
  in_range (utc_to_seconds dt + k) = true ->
  in_range (utc_to_seconds dt) = true ->
  in_range (utc_to_seconds dt - max_fold_seconds) = true ->
  timestamp utcoffset dt = Ok (utc_to_seconds dt - k).
Proof.
  intros H1 H2 H3. unfold timestamp. generalize dependent (utc_to_seconds dt). intros t H1 H2 H3.
  rewrite (local_fixed t H1). cbn [rbind].
  replace (t - (t + k - t)) with (t - k) by lia.
  rewrite local_fixed by (by replace (t - k + k) with t by lia). cbn [rbind].
  replace (t - k + k) with t by lia. rewrite Z.eqb_refl.
  rewrite local_fixed by (by replace (t - k - max_fold_seconds + k) with (t - max_fold_seconds) by lia).
  cbn [rbind].
  replace (t - k - max_fold_seconds + k - (t - k - max_fold_seconds)) with k by lia.
  replace (t + k - t) with k by lia. by rewrite Z.eqb_refl.
Qed.


Lemma ymd2ord_bounds y m d :
  2 <= y <= 9998 -> 1 <= m <= 12 -> 1 <= d <= 31 ->
  3 <= ymd2ord y m d <= MAX_ORDINAL - 3.
Proof.
  intros Hy Hm Hd. unfold ymd2ord, days_before_year, days_before_month, MAX_ORDINAL.
  assert (0 <= days_before_month_table m <= 334) as Ht.
  { pattern m. apply (Z_range_cases _ 1 12%nat); [|lia].
    cbn [seq map]. repeat (apply List.Forall_cons; [vm_compute; split; discriminate|]).
    apply List.Forall_nil. }
  cbv zeta. destruct ((2 <? m) && is_leap y); Z.to_euclidean_division_equations; lia.
Qed.

(** C7 in a zone with a fixed offset (at most a day): the time stamp is the
    second count of the wall clock reading less the offset, in milliseconds. *)
Lemma anstoss_of_fixed_offset d m y H M :
  -86400 <= k <= 86400 ->
  1 <= m <= 12 -> 2 <= y <= 9998 -> 1 <= d <= days_in_month y m ->
  0 <= H <= 23 -> 0 <= M <= 59 ->
  anstoss_of utcoffset (datum_text d m y H M)
  = (utc_to_seconds (kick_off d m y H M) - k) * 1000.
Proof.
  intros Hk Hm Hy Hd HH HM.
  assert (days_in_month y m <= 31) as Hdim.
  { unfold days_in_month. repeat destruct (_ =? _); simpl; try lia; destruct (is_leap y); lia. }
  apply anstoss_of_datum_text; try lia.
  pose proof (ymd2ord_bounds y m d Hy Hm ltac:(lia)) as Ho.
  apply timestamp_fixed; unfold in_range, utc_to_seconds, max_fold_seconds, kick_off;
    cbn [year month day hour minute second];
    unfold EPOCH_ORDINAL, MAX_ORDINAL in *;
    apply andb_true_iff; split; apply Z.leb_le;
    Z.to_euclidean_division_equations; lia.
Qed.

End FixedOffset.

Section DateClaim.
Variable utcoffset : Z -> Z.


End DateClaim.

(** * The extractor's records can be stored *)

Lemma get_insert_ne (game : dict) k k' x dflt :
  k <> k' -> get (<[k := x]> game) k' dflt = get game k' dflt.
Proof. intros H. unfold get. by rewrite lookup_insert_ne. Qed.

Lemma get_insert_eq (game : dict) k x dflt : get (<[k := x]> game) k dflt = x.
Proof. unfold get. by rewrite lookup_insert_eq. Qed.

Section Storable.
Variable utcoffset : Z -> Z.
Variable offset : Z.
Hypothesis fixed : forall u, utcoffset u = offset.

Lemma storable_empty : storable utcoffset ∅.
Proof. repeat split; try (eexists; reflexivity). done. Qed.

Lemma storable_insert_other k x (game : dict) :
  k <> "anstoss" -> k <> "einsatzMinuten" -> k <> "tore" ->
  storable utcoffset game -> storable utcoffset (<[k := x]> game).
Proof.
  intros H1 H2 H3. unfold storable, converts, timestamp_of.
  by rewrite !get_insert_ne.
Qed.

Lemma storable_insert_minutes n (game : dict) :
  storable utcoffset game -> storable utcoffset (<["einsatzMinuten" := PInt n]> game).
Proof.
  unfold storable, converts, timestamp_of.
  rewrite get_insert_eq, !get_insert_ne by done.
  intros ((Hd & _ & Hg) & Hts). repeat split; try done.
  rewrite to_int_or_zero_int. by eexists.
Qed.

Lemma storable_insert_goals n (game : dict) :
  storable utcoffset game -> storable utcoffset (<["tore" := PInt n]> game).
Proof.
  unfold storable, converts, timestamp_of.
  rewrite get_insert_eq, !get_insert_ne by done.
  intros ((Hd & Hm & _) & Hts). repeat split; try done.
  rewrite to_int_or_zero_int. by eexists.
Qed.

Lemma of_seconds_Some l dt : of_seconds l = Some dt -> in_range l = true.
Proof.
  unfold of_seconds, in_range.
  by destruct ((1 <=? l / 86400 + EPOCH_ORDINAL) && (l / 86400 + EPOCH_ORDINAL <=? MAX_ORDINAL)).
Qed.

Lemma local_fixed_inv u x :
  local utcoffset u = Ok x -> in_range (u + offset) = true /\ x = u + offset.
Proof.
  unfold local, localtime. rewrite fixed.
  destruct (of_seconds (u + offset)) as [dt|] eqn:Hdt; cbn [rbind]; [|discriminate].
  intros [= <-]. split; [by eapply of_seconds_Some|].
  by apply utc_to_seconds_of_seconds.
Qed.

(** What [timestamp] has looked at when it returns, in a zone of fixed
    offset. *)
Lemma timestamp_fixed_inv dt seconds :
  timestamp utcoffset dt = Ok seconds ->
  seconds = utc_to_seconds dt - offset /\
  in_range (utc_to_seconds dt) = true /\
  in_range (utc_to_seconds dt - max_fold_seconds) = true.
Proof.
  unfold timestamp. generalize (utc_to_seconds dt). intros t.
  destruct (local utcoffset t) as [lt|] eqn:H0; cbn [rbind]; [|discriminate].
  apply local_fixed_inv in H0 as [_ ->].
  replace (t - (t + offset - t)) with (t - offset) by lia.
  destruct (local utcoffset (t - offset)) as [t1|] eqn:H1; cbn [rbind]; [|discriminate].
  apply local_fixed_inv in H1 as [Hr1 ->].
  replace (t - offset + offset) with t in * by lia. rewrite Z.eqb_refl.
  destruct (local utcoffset (t - offset - max_fold_seconds)) as [lt2|] eqn:H2;
    cbn [rbind]; [|discriminate].
  apply local_fixed_inv in H2 as [Hr2 ->].
  replace (t - offset - max_fold_seconds + offset) with (t - max_fold_seconds) in * by lia.
  replace (t + offset - t) with offset by lia.
  replace (t - max_fold_seconds - (t - offset - max_fold_seconds)) with offset by lia.
  rewrite Z.eqb_refl. by intros [= <-].
Qed.

Lemma fromtimestamp_fixed timet :
  in_range (timet + offset) = true -> in_range (timet + offset - max_fold_seconds) = true ->
  exists dt, fromtimestamp utcoffset timet = Ok dt.
Proof.
  intros H1 H2. unfold fromtimestamp.
  pose proof (local_fixed utcoffset offset fixed timet H1) as Hl.
  unfold local in Hl.
  destruct (localtime utcoffset timet) as [dt|] eqn:Hdt; cbn [rbind] in Hl |- *;
    [|discriminate].
  injection Hl as ->.
  rewrite (local_fixed utcoffset offset fixed)
    by (by replace (timet - max_fold_seconds + offset) with (timet + offset - max_fold_seconds) by lia).
  cbn [rbind].
  replace (timet + offset - (timet - max_fold_seconds + offset) - max_fold_seconds) with 0 by lia.
  by eexists.
Qed.

Lemma game_date_of_anstoss datum_str :
  exists game_date,
    game_date_of utcoffset (PInt (anstoss_of utcoffset datum_str)) = Ok game_date.
Proof.
  unfold anstoss_of.
  destruct (negb (String.eqb datum_str "") && contains "." datum_str);
    [|by eexists].
  destruct (strptime _) as [dt|e]; cbn [rbind]; [|by eexists].
  destruct (timestamp utcoffset dt) as [seconds|e] eqn:Hts; [|by eexists].
  apply timestamp_fixed_inv in Hts as (-> & Hr1 & Hr2).
  unfold game_date_of, truthy.
  destruct (negb ((utc_to_seconds dt - offset) * 1000 =? 0)); [|by eexists].
  unfold fromtimestamp_ms. rewrite Z.div_mul by done.
  destruct (fromtimestamp_fixed (utc_to_seconds dt - offset)) as [dt' ->].
  - by replace (utc_to_seconds dt - offset + offset) with (utc_to_seconds dt) by lia.
  - by replace (utc_to_seconds dt - offset + offset - max_fold_seconds)
      with (utc_to_seconds dt - max_fold_seconds) by lia.
  - cbn [rbind]. by eexists.
Qed.

Lemma storable_post_process game :
  storable utcoffset game -> storable utcoffset (post_process utcoffset game).
Proof.
  intros Hs. unfold post_process.
  pose proof (storable_insert_other "ageGroup"
                (PStr (age_group_of (text_of (get game "bewerb" (PStr ""))))) game
                ltac:(done) ltac:(done) ltac:(done) Hs) as Hs'.
  revert Hs'. generalize (<["ageGroup" := PStr (age_group_of (text_of (get game "bewerb" (PStr ""))))]> game).
  intros g ((_ & Hm & Hg) & _). unfold storable, converts, timestamp_of.
  rewrite get_insert_eq, !get_insert_ne by done.
  split; [|done]. split; [apply game_date_of_anstoss | by split].
Qed.

Lemma scan_div_storable d games_data current_game games_data' current_game' :
  Forall (storable utcoffset) games_data -> storable utcoffset current_game ->
  scan_div d (games_data, current_game) = Ok (games_data', current_game') ->
  Forall (storable utcoffset) games_data' /\ storable utcoffset current_game'.
Proof.
  intros Hgd Hcur. unfold scan_div.
  destruct (col_class_of d) as [cls|]; [|by intros [= <- <-]].
  repeat match goal with
         | |- context [String.eqb cls ?s] => destruct (String.eqb cls s)
         end.
  - intros [= <- <-]. split.
    + destruct (nonempty current_game); [|done]. apply Forall_app. split; [done|].
      by constructor.
    + apply storable_insert_other; try done. apply storable_empty.
  - intros [= <- <-]. split; [done|]. by apply storable_insert_other.
  - destruct (int_or_zero _) as [n|e]; cbn [rbind]; [|discriminate].
    intros [= <- <-]. split; [done|]. by apply storable_insert_other.
  - destruct (div_link d) as [link|]; intros [= <- <-]; (split; [done|]).
    + apply storable_insert_other; try done.
      destruct (contains _ _); [|done]. by repeat apply storable_insert_other.
    + by repeat apply storable_insert_other.
  - intros [= <- <-]. split; [done|]. by apply storable_insert_other.
  - destruct (int_or_zero _) as [n|e]; cbn [rbind]; [|discriminate].
    intros [= <- <-]. split; [done|]. by apply storable_insert_minutes.
  - destruct (int_or_zero _) as [n|e]; cbn [rbind]; [|discriminate].
    intros [= <- <-]. split; [done|]. by apply storable_insert_goals.
  - by intros [= <- <-].
Qed.

Lemma scan_divs_storable all_divs games_data current_game :
  Forall (storable utcoffset) games_data -> storable utcoffset current_game ->
  Forall (storable utcoffset) (scan_divs all_divs (games_data, current_game)).1.1 /\
  storable utcoffset (scan_divs all_divs (games_data, current_game)).1.2.
Proof.
  revert games_data current_game.
  induction all_divs as [|d rest IH]; intros games_data current_game Hgd Hcur;
    cbn [scan_divs]; [by split|].
  destruct (scan_div d (games_data, current_game)) as [[gd' cur']|e] eqn:Hs; [|by split].
  destruct (scan_div_storable _ _ _ _ _ Hgd Hcur Hs). by apply IH.
Qed.

Lemma collect_games_storable all_divs :
  Forall (storable utcoffset) (collect_games all_divs).1.
Proof.
  unfold collect_games.
  pose proof (scan_divs_storable all_divs [] ∅ ltac:(constructor) storable_empty) as [Hgd Hcur].
  destruct (scan_divs all_divs ([], ∅)) as [[gd cur] [e|]]; simpl in *; [done|].
  destruct (nonempty cur && has_key "datum" cur); [|done].
  apply Forall_app. split; [done|]. by constructor.
Qed.

(** In a zone of fixed offset every record that [scrape_from_page] returns
    can be stored. *)
Lemma scrape_from_page_storable all_divs :
  Forall (storable utcoffset) (scrape_from_page utcoffset all_divs).
Proof.
  unfold scrape_from_page. pose proof (collect_games_storable all_divs) as H.
  destruct (collect_games all_divs) as [gd [e|]]; simpl in *; [done|].
  apply Forall_fmap. eapply Forall_impl; [exact H|]. intros g. apply storable_post_process.
Qed.

(** In a zone of fixed offset [save_games_to_db] returns on whatever
    [scrape_from_page] has returned. *)
Lemma scrape_then_save_returns v clock p all_divs d :
  exists d' counts,
    save_games_to_db v utcoffset clock p (scrape_from_page utcoffset all_divs) d
    = (d', Ok counts).
Proof. apply save_games_to_db_returns, scrape_from_page_storable. Qed.

End Storable.

(** * Which records carry a date *)

Lemma dated_insert k x (game : dict) : dated game -> dated (<[k := x]> game).
Proof.
  unfold dated. intros H. destruct (decide (k = "datum")) as [->|Hne].
  - rewrite lookup_insert_eq. by eexists.
  - by rewrite lookup_insert_ne.
Qed.

Lemma scan_div_dated d st st' :
  scan_dated st -> scan_div d st = Ok st' -> scan_dated st'.
Proof.
  destruct st as [games_data current_game]. intros [Hgd Hcur]. unfold scan_div.
  simpl in Hgd, Hcur.
  assert (forall k x, scan_dated (games_data, <[k := x]> current_game)) as Hins.
  { intros k x. split; [done|]. intros Hne. apply dated_insert. by apply Hcur. }
  destruct (col_class_of d) as [cls|]; [|by intros [= <-]].
  repeat match goal with
         | |- context [String.eqb cls ?s] => destruct (String.eqb cls s)
         end.
  - intros [= <-]. split; simpl.
    + destruct (nonempty current_game); [|done].
      destruct games_data as [|g gd]; [constructor|]. simpl in *.
      apply Forall_app. split; [done|]. constructor; [by apply Hcur|done].
    + intros _. unfold dated. rewrite lookup_singleton_eq. by eexists.
  - intros [= <-]. apply Hins.
  - destruct (int_or_zero _) as [n|e]; cbn [rbind]; [|discriminate].
    intros [= <-]. apply Hins.
  - destruct (div_link d) as [link|]; intros [= <-].
    + destruct (contains _ _); [|apply Hins].
      split; [done|]. intros Hne. simpl. repeat apply dated_insert. by apply Hcur.
    + split; [done|]. intros Hne. simpl. repeat apply dated_insert. by apply Hcur.
  - intros [= <-]. apply Hins.
  - destruct (int_or_zero _) as [n|e]; cbn [rbind]; [|discriminate].
    intros [= <-]. apply Hins.
  - destruct (int_or_zero _) as [n|e]; cbn [rbind]; [|discriminate].
    intros [= <-]. apply Hins.
  - by intros [= <-].
Qed.

Lemma scan_divs_dated all_divs st : scan_dated st -> scan_dated (scan_divs all_divs st).1.
Proof.
  revert st. induction all_divs as [|d rest IH]; intros st Hst; cbn [scan_divs]; [done|].
  destruct (scan_div d st) as [st'|e] eqn:Hs; [|done].
  apply IH. by eapply scan_div_dated.
Qed.

Lemma collect_games_dated all_divs : Forall dated (tail (collect_games all_divs).1).
Proof.
  unfold collect_games.
  pose proof (scan_divs_dated all_divs ([], ∅)) as H.
  destruct (scan_divs all_divs ([], ∅)) as [[gd cur] [e|]].
  - apply H. split; [constructor|done].
  - destruct H as [Hgd Hcur]; [split; [constructor|done]|]. simpl in *.
    destruct (nonempty cur && has_key "datum" cur) eqn:Hc; [|done].
    apply andb_true_iff in Hc as [_ Hc]. apply bool_decide_eq_true in Hc.
    destruct gd as [|g gd]; [constructor|]. simpl.
    apply Forall_app. split; [done|]. by constructor.
Qed.

(** Every record that [scrape_from_page] returns, except possibly the first,
    carries a date field. *)
Lemma scrape_from_page_dated utcoffset all_divs :
  Forall dated (tail (scrape_from_page utcoffset all_divs)).
Proof.
  unfold scrape_from_page. pose proof (collect_games_dated all_divs) as H.
  destruct (collect_games all_divs) as [gd [e|]]; simpl in *; [done|].
  destruct gd as [|g gd]; [constructor|]. simpl in *.
  apply Forall_fmap. eapply Forall_impl; [exact H|]. intros g'. unfold dated. simpl.
  by rewrite post_process_lookup.
Qed.

(** * The claims at sample data *)

(** C4 (the code departs from it). A saved player without a game in the date
    window is missing from the input of the current minutes chart: with one
    saved player and no game there is no chart at all, and with two saved
    players the one without a game has no entry, where the sibling's query,
    which has no date window, shows that player with 0. *)
Theorem minutes_chart_omits_player_without_games :
  generate_minutes_chart DirectPage one_saved_player = None /\
  generate_minutes_chart DirectPage two_saved_players = Some (["Kayra Akca"], [45]) /\
  generate_minutes_chart ClickEvent two_saved_players
  = Some (["Kayra Akca"; "Musab Aslan"], [45; 0]).
Proof. split; [|split]; vm_compute; reflexivity. Qed.

(** C1 at the sample game: inserted by the first run, updated by the second. *)
Lemma save_games_to_db_twice_witness :
  (save_games_to_db DirectPage cet sample_clock 1416519 sample_games one_saved_player).2
  = Ok (1%nat, 0%nat) /\
  (save_games_to_db DirectPage cet later_clock 1416519 sample_games
     (save_games_to_db DirectPage cet sample_clock 1416519 sample_games one_saved_player).1).2
  = Ok (0%nat, 1%nat) /\
  length (games (save_games_to_db DirectPage cet later_clock 1416519 sample_games
                   (save_games_to_db DirectPage cet sample_clock 1416519 sample_games
                      one_saved_player).1).1)
  = length (games (save_games_to_db DirectPage cet sample_clock 1416519 sample_games
                     one_saved_player).1).
Proof.
  assert ((save_games_to_db DirectPage cet sample_clock 1416519 sample_games
             one_saved_player).2 = Ok (1%nat, 0%nat)) as H by (vm_compute; reflexivity).
  pose proof (save_games_to_db_twice DirectPage cet sample_clock later_clock 1416519
                sample_games one_saved_player) as [H2 Hlen].
  rewrite H in H2. split; [exact H|]. split; [exact H2 | exact Hlen].
Defined.

(** C2 at the sample game and its correction, saved into a fresh table. *)
Lemma save_games_to_db_merge_witness :
  games_unique (games one_saved_player) /\
  timestamp_of (default ∅ (head sample_games)) = timestamp_of sample_game_corrected /\
  save_games_to_db DirectPage cet sample_clock 1416519
    [default ∅ (head sample_games); sample_game_corrected] one_saved_player
  = ((save_games_to_db DirectPage cet sample_clock 1416519
        [default ∅ (head sample_games); sample_game_corrected] one_saved_player).1,
     Ok (1%nat, 1%nat)) /\
  exists row,
    List.filter (key_matches 1416519 (timestamp_of (default ∅ (head sample_games))))
      (games (save_games_to_db DirectPage cet sample_clock 1416519
                [default ∅ (head sample_games); sample_game_corrected] one_saved_player).1)
    = [row] /\
    reflects DirectPage sample_game_corrected row /\
    g_last_updated row = sample_clock 1%nat.
Proof.
  assert (games_unique (games one_saved_player)) as H1 by (vm_compute; constructor).
  assert (timestamp_of (default ∅ (head sample_games)) = timestamp_of sample_game_corrected)
    as H2 by (vm_compute; reflexivity).
  assert (save_games_to_db DirectPage cet sample_clock 1416519
            [default ∅ (head sample_games); sample_game_corrected] one_saved_player
          = ((save_games_to_db DirectPage cet sample_clock 1416519
                [default ∅ (head sample_games); sample_game_corrected] one_saved_player).1,
             Ok (1%nat, 1%nat))) as H3 by (vm_compute; reflexivity).
  split; [exact H1|]. split; [exact H2|]. split; [exact H3|].
  exact (save_games_to_db_merge DirectPage cet sample_clock 1416519 _ _ _ _ _ H1 H2 H3).
Defined.

(** C5 at the store of two players. *)
Lemma goals_chart_scorers_witness :
  players_unique (players two_saved_players) /\
  exists results,
    generate_goals_chart DirectPage two_saved_players = chart_input results /\
    Permutation results (scorers two_saved_players).
Proof.
  assert (players_unique (players two_saved_players)) as H.
  { unfold players_unique. apply (bool_decide_unpack _). vm_compute. exact I. }
  split; [exact H|]. exact (goals_chart_scorers two_saved_players H).
Defined.

(** C8, amended, at the fragment whose title has three parts. *)
Lemma c3_fragment_teams_witness :
  col_class_of fragment_three_part_title = Some "c3" /\
  c3_as_amended fragment_three_part_title [] ∅.
Proof.
  assert (col_class_of fragment_three_part_title = Some "c3") as H by reflexivity.
  split; [exact H|]. exact (c3_fragment_teams fragment_three_part_title [] ∅ H).
Defined.

(** C10 at a record whose date text does not parse. *)
Lemma unknown_time_not_charted_witness :
  unknown_time_dates_null (games two_saved_players) /\
  save_games_to_db DirectPage cet later_clock 1501804
    (scrape_from_page cet unknown_time_page) two_saved_players
  = ((save_games_to_db DirectPage cet later_clock 1501804
        (scrape_from_page cet unknown_time_page) two_saved_players).1,
     Ok (1%nat, 0%nat)) /\
  (forall game row,
     game ∈ scrape_from_page cet unknown_time_page ->
     truthy (timestamp_of game) = false ->
     row ∈ games (save_games_to_db DirectPage cet later_clock 1501804
                    (scrape_from_page cet unknown_time_page) two_saved_players).1 ->
     key_matches 1501804 (timestamp_of game) row = true ->
     g_game_date row = None) /\
  generate_minutes_chart DirectPage
    (without_unknown_time
       (save_games_to_db DirectPage cet later_clock 1501804
          (scrape_from_page cet unknown_time_page) two_saved_players).1)
  = generate_minutes_chart DirectPage
      (save_games_to_db DirectPage cet later_clock 1501804
         (scrape_from_page cet unknown_time_page) two_saved_players).1 /\
  generate_goals_chart DirectPage
    (without_unknown_time
       (save_games_to_db DirectPage cet later_clock 1501804
          (scrape_from_page cet unknown_time_page) two_saved_players).1)
  = generate_goals_chart DirectPage
      (save_games_to_db DirectPage cet later_clock 1501804
         (scrape_from_page cet unknown_time_page) two_saved_players).1.
Proof.
  assert (unknown_time_dates_null (games two_saved_players)) as H1.
  { unfold unknown_time_dates_null. apply (bool_decide_unpack _). vm_compute. exact I. }
  assert (save_games_to_db DirectPage cet later_clock 1501804
            (scrape_from_page cet unknown_time_page) two_saved_players
          = ((save_games_to_db DirectPage cet later_clock 1501804
                (scrape_from_page cet unknown_time_page) two_saved_players).1,
             Ok (1%nat, 0%nat))) as H2 by (vm_compute; reflexivity).
  split; [exact H1|]. split; [exact H2|].
  exact (unknown_time_not_charted DirectPage cet later_clock 1501804 _ _ _ _ H1 H2).
Defined.


(** * The players table *)

Lemma filter_other_id_notin p (ps : list player_row) :
  p ∉ map p_player_id (List.filter (fun r => negb (p_player_id r =? p)) ps).
Proof.
  induction ps as [|r ps IH]; simpl.
  - apply not_elem_of_nil.
  - destruct (Z.eqb_spec (p_player_id r) p); simpl; [exact IH|].
    rewrite not_elem_of_cons. split; [congruence|exact IH].
Qed.

Lemma players_unique_filter f (ps : list player_row) :
  players_unique ps -> players_unique (List.filter f ps).
Proof.
  unfold players_unique. induction ps as [|r ps IH]; simpl; intros H; [exact H|].
  apply NoDup_cons in H as [Hr H]. destruct (f r); simpl; [|auto].
  apply NoDup_cons. split; [|auto].
  intros Hin. apply Hr. apply list_elem_of_fmap in Hin as (r' & -> & Hin).
  apply list_elem_of_fmap. exists r'. split; [reflexivity|].
  apply list_elem_of_In. apply list_elem_of_In in Hin.
  apply filter_In in Hin. tauto.
Qed.

Lemma save_player_to_db_unique now p name team y d :
  players_unique (players d) ->
  players_unique (players (save_player_to_db now p name team y d)).
Proof.
  intros H. unfold players_unique, save_player_to_db. simpl.
  rewrite map_app. simpl. apply NoDup_app. split; [|split].
  - apply (players_unique_filter _ _ H).
  - intros x Hx Hin. apply list_elem_of_singleton in Hin. subst x.
    exact (filter_other_id_notin p (players d) Hx).
  - apply NoDup_singleton.
Qed.

Lemma filter_other_id_length p (ps : list player_row) :
  players_unique ps ->
  length (List.filter (fun r => negb (p_player_id r =? p)) ps)
  = if existsb (fun r => p_player_id r =? p) ps then pred (length ps) else length ps.
Proof.
  unfold players_unique. induction ps as [|r ps IH]; simpl; intros H; [reflexivity|].
  apply NoDup_cons in H as [Hr H]. specialize (IH H).
  destruct (Z.eqb_spec (p_player_id r) p) as [E|E]; simpl.
  - rewrite IH. subst p.
    destruct (existsb (fun r0 => p_player_id r0 =? p_player_id r) ps) eqn:Ex; [|reflexivity].
    exfalso. apply Hr. apply existsb_exists in Ex as (r' & Hin & Hr').
    apply Z.eqb_eq in Hr'. rewrite <- Hr'.
    apply list_elem_of_fmap. exists r'. split; [reflexivity|].
    apply list_elem_of_In. exact Hin.
  - rewrite IH.
    destruct (existsb (fun r0 => p_player_id r0 =? p) ps) eqn:Ex; [|reflexivity].
    destruct ps; [discriminate|reflexivity].
Qed.

Lemma filter_id_other_id p (ps : list player_row) :
  List.filter (fun r => p_player_id r =? p)
    (List.filter (fun r => negb (p_player_id r =? p)) ps) = [].
Proof.
  induction ps as [|r ps IH]; simpl; [reflexivity|].
  destruct (Z.eqb_spec (p_player_id r) p) as [E|E]; simpl; [exact IH|].
  destruct (Z.eqb_spec (p_player_id r) p); [contradiction|exact IH].
Qed.

Lemma filter_idem {A} (f : A -> bool) (l : list A) :
  List.filter f (List.filter f l) = List.filter f l.
Proof.
  induction l as [|a l IH]; simpl; [reflexivity|].
  destruct (f a) eqn:E; simpl; [rewrite E, IH|]; auto.
Qed.

(** X1. [save_player_to_db] is an upsert on the primary key: afterwards the
    key is still unique, exactly one row carries the player id and it holds
    the values of the call, the rows of the other players are as before, the
    table has one row more if the id was new and as many as before if not,
    and the games are untouched. *)
Theorem save_player_to_db_upsert now p name team y d :
  players_unique (players d) ->
  let d' := save_player_to_db now p name team y d in
  players_unique (players d') /\
  List.filter (fun r => p_player_id r =? p) (players d')
  = [ {| p_player_id := p; p_player_name := name; p_team := team;
         p_season_year := y; p_last_updated := now |} ] /\
  List.filter (fun r => negb (p_player_id r =? p)) (players d')
  = List.filter (fun r => negb (p_player_id r =? p)) (players d) /\
  length (players d')
  = (if existsb (fun r => p_player_id r =? p) (players d)
     then length (players d) else S (length (players d))) /\
  games d' = games d /\ games_seq d' = games_seq d.
Proof.
  intros H d'. split; [exact (save_player_to_db_unique now p name team y d H)|].
  subst d'. unfold save_player_to_db. cbn [players games games_seq].
  repeat split.
  - rewrite List.filter_app, filter_id_other_id. cbn [List.filter p_player_id app].
    rewrite Z.eqb_refl. reflexivity.
  - rewrite List.filter_app, filter_idem. cbn [List.filter p_player_id].
    rewrite Z.eqb_refl. cbn [negb]. apply app_nil_r.
  - rewrite length_app, (filter_other_id_length p _ H). cbn [length].
    destruct (existsb (fun r => p_player_id r =? p) (players d)) eqn:Ex; [|lia].
    destruct (players d); [discriminate|]. cbn [length]. lia.
Qed.

(** X2. No history is kept of a player: saving a player twice leaves what
    the second call alone would have left, whatever the first call wrote. *)
Theorem save_player_to_db_last_wins now1 now2 p name1 name2 team1 team2 y1 y2 d :
  save_player_to_db now2 p name2 team2 y2 (save_player_to_db now1 p name1 team1 y1 d)
  = save_player_to_db now2 p name2 team2 y2 d.
Proof.
  unfold save_player_to_db. cbn [players games games_seq]. f_equal.
  rewrite List.filter_app, filter_idem. cbn [List.filter p_player_id].
  rewrite Z.eqb_refl. cbn [negb]. rewrite app_nil_r. reflexivity.
Qed.

(** * More on [save_games_to_db] *)

Section StoreGrowth.

Variable v : variant.
Variable utcoffset : Z -> Z.

Lemma update_identity now p ts game mi gi rows :
  map row_identity (sql_update_game v now p ts game mi gi rows) = map row_identity rows.
Proof.
  unfold sql_update_game. rewrite map_map. apply map_ext. intros g.
  destruct (key_matches p ts g); reflexivity.
Qed.

Lemma save_game_growth now p game d n u d' n' u' :
  save_game v utcoffset now p game (d, n, u) = Ok (d', n', u') ->
  (n' + u' = S (n + u))%nat /\
  exists kept added,
    games d' = kept ++ added /\
    map row_identity kept = map row_identity (games d) /\
    (length added + n = n')%nat /\
    Forall (fun g => g_player_id g = p) added.
Proof.
  intros H. apply save_game_Ok in H as (gd & mi & gi & _ & _ & _ & [[_ E]|(_ & _ & Hi & En & Eu)]).
  - injection E as -> -> ->. split; [lia|].
    eexists _, []. cbn [games]. rewrite app_nil_r. split; [reflexivity|].
    split; [apply update_identity|]. split; [reflexivity|constructor].
  - cbn in Hi, En, Eu. subst n' u'. split; [lia|].
    apply insert_Ok in Hi as (_ & row & Hg & Hk & _).
    exists (games d), [row]. split; [exact Hg|]. split; [reflexivity|].
    split; [reflexivity|]. constructor; [|constructor].
    unfold row_key in Hk. congruence.
Qed.

Lemma map_app_inv_l {A B} (f : A -> B) (l : list A) (l1 l2 : list B) :
  map f l = l1 ++ l2 ->
  exists k1 k2, l = k1 ++ k2 /\ map f k1 = l1 /\ map f k2 = l2.
Proof.
  revert l. induction l1 as [|b l1 IH]; intros l H.
  - exists [], l. auto.
  - destruct l as [|a l]; [discriminate|]. cbn [map app] in H. injection H as Ha H.
    apply IH in H as (k1 & k2 & -> & H1 & H2).
    exists (a :: k1), k2. cbn [map app]. rewrite Ha, H1. auto.
Qed.

Lemma save_games_loop_growth games_data : forall clock p d n u d' n' u',
  save_games_loop v utcoffset clock p games_data (d, n, u) = Ok (d', n', u') ->
  (n' + u' = length games_data + (n + u))%nat /\
  exists kept added,
    games d' = kept ++ added /\
    map row_identity kept = map row_identity (games d) /\
    (length added + n = n')%nat /\
    Forall (fun g => g_player_id g = p) added.
Proof.
  induction games_data as [|game rest IH]; intros clock p d n u d' n' u' H.
  - injection H as <- <- <-. split; [reflexivity|].
    exists (games d), []. rewrite app_nil_r. repeat split. constructor.
  - cbn [save_games_loop] in H.
    destruct (save_game v utcoffset (clock 0%nat) p game (d, n, u)) as [[[d1 n1] u1]|e] eqn:E1;
      [|discriminate].
    cbn [rbind] in H.
    apply save_game_growth in E1 as (Hc1 & k1 & a1 & Hg1 & Hk1 & Hn1 & Hp1).
    apply IH in H as (Hc & k2 & a2 & Hg2 & Hk2 & Hn2 & Hp2).
    split; [cbn [length]; lia|].
    rewrite Hg1, map_app in Hk2.
    apply map_app_inv_l in Hk2 as (k21 & k22 & -> & Hk21 & Hk22).
    exists k21, (k22 ++ a2). split; [rewrite Hg2, <- app_assoc; reflexivity|].
    split; [congruence|]. split.
    + rewrite length_app.
      assert (length k22 = length a1) as Hl.
      { rewrite <- (length_map row_identity k22), Hk22, length_map. reflexivity. }
      lia.
    + apply Forall_app. split; [|exact Hp2].
      clear - Hk22 Hp1. revert a1 Hk22 Hp1.
      induction k22 as [|g k22 IHk]; intros a1 Hk Hp; [constructor|].
      destruct a1 as [|g1 a1]; [discriminate|]. cbn [map] in Hk.
      injection Hk as Hi Hpl Hts Hgd Hk. apply List.Forall_cons_iff in Hp as [Hp1 Hp].
      constructor; [congruence|exact (IHk a1 Hk Hp)].
Qed.

(** X3. The store only grows or updates.  When [save_games_to_db] returns,
    the two counts add up to the number of records; the rows that were there
    are still there, in place, with their row id, player, time stamp and
    date; and what was appended are as many rows as the first count says,
    all of this player. *)
Theorem save_games_to_db_growth clock p games_data d d' new_games updated_games :
  save_games_to_db v utcoffset clock p games_data d
  = (d', Ok (new_games, updated_games)) ->
  (new_games + updated_games = length games_data)%nat /\
  exists kept added,
    games d' = kept ++ added /\
    map row_identity kept = map row_identity (games d) /\
    length added = new_games /\
    Forall (fun g => g_player_id g = p) added.
Proof.
  unfold save_games_to_db. intros H.
  destruct (save_games_loop v utcoffset clock p games_data (d, 0%nat, 0%nat))
    as [[[d1 n1] u1]|e] eqn:E; [|discriminate].
  injection H as -> -> ->.
  apply save_games_loop_growth in E as (Hc & kept & added & Hg & Hk & Hn & Hp).
  split; [lia|]. exists kept, added. repeat split; auto. lia.
Qed.

Lemma max_rowid_ge g rows : g ∈ rows -> g_id g <= max_rowid rows.
Proof.
  induction rows as [|h rows IH]; intros Hin.
  - apply elem_of_nil in Hin. contradiction.
  - cbn [max_rowid foldr]. apply elem_of_cons in Hin as [->|Hin].
    + apply Z.le_max_l.
    + etransitivity; [exact (IH Hin)|]. apply Z.le_max_r.
Qed.

Lemma save_game_rowids now p game d n u d' n' u' :
  rowids_unique (games d) /\ timestamps_not_null (games d) ->
  save_game v utcoffset now p game (d, n, u) = Ok (d', n', u') ->
  rowids_unique (games d') /\ timestamps_not_null (games d').
Proof.
  intros [Hu Hn] H.
  apply save_game_Ok in H as (gd & mi & gi & _ & _ & _ & [[_ E]|(_ & Hts & Hi & _ & _)]).
  - injection E as -> -> ->. cbn [games]. unfold rowids_unique, timestamps_not_null in *.
    pose proof (update_identity now p (timestamp_of game) game mi gi (games d)) as Hid.
    split.
    + replace (map g_id (sql_update_game v now p (timestamp_of game) game mi gi (games d)))
        with (map g_id (games d)); [exact Hu|].
      apply (f_equal (map (fun i : Z * Z * pyval * option string => i.1.1.1))) in Hid.
      rewrite !map_map in Hid. symmetry. exact Hid.
    + apply Forall_forall. intros g Hg.
      unfold sql_update_game in Hg. apply list_elem_of_fmap in Hg as (g0 & -> & Hg0).
      rewrite Forall_forall in Hn. specialize (Hn g0 Hg0).
      destruct (key_matches p (timestamp_of game) g0); [cbn|]; exact Hn.
  - cbn in Hi. unfold sql_insert_game in Hi.
    destruct (timestamp_of game) eqn:Ets; [contradiction| |];
      (destruct (existsb _ (games d)); [discriminate|]; injection Hi as <-; cbn [games];
       unfold rowids_unique, timestamps_not_null in *; split;
       [ rewrite map_app; apply NoDup_app; split; [exact Hu|]; split; [|apply NoDup_singleton];
         intros i Hi Hi'; apply list_elem_of_singleton in Hi'; subst i;
         apply list_elem_of_fmap in Hi as (g & Hg & Hin);
         apply max_rowid_ge in Hin; cbn [values_row g_id] in Hg; lia
       | apply Forall_app; split; [exact Hn|]; constructor; [|constructor];
         cbn [values_row g_game_timestamp]; discriminate ]).
Qed.

Lemma save_games_loop_rowids games_data : forall clock p d n u d' n' u',
  rowids_unique (games d) /\ timestamps_not_null (games d) ->
  save_games_loop v utcoffset clock p games_data (d, n, u) = Ok (d', n', u') ->
  rowids_unique (games d') /\ timestamps_not_null (games d').
Proof.
  induction games_data as [|game rest IH]; intros clock p d n u d' n' u' Hd H.
  - injection H as <- <- <-. exact Hd.
  - cbn [save_games_loop] in H.
    destruct (save_game v utcoffset (clock 0%nat) p game (d, n, u)) as [[[d1 n1] u1]|e] eqn:E1;
      [|discriminate].
    cbn [rbind] in H. apply (IH _ _ _ _ _ _ _ _ (save_game_rowids _ _ _ _ _ _ _ _ _ Hd E1) H).
Qed.

Lemma save_games_to_db_keeps_constraints clock p games_data d :
  games_unique (games d) /\ rowids_unique (games d) /\ timestamps_not_null (games d) ->
  let d' := (save_games_to_db v utcoffset clock p games_data d).1 in
  games_unique (games d') /\ rowids_unique (games d') /\ timestamps_not_null (games d').
Proof.
  intros (Hu & Hr) d'. split; [apply save_games_to_db_unique; exact Hu|].
  subst d'. unfold save_games_to_db.
  destruct (save_games_loop v utcoffset clock p games_data (d, 0%nat, 0%nat))
    as [[[d1 n1] u1]|e] eqn:E; [|exact Hr].
  exact (save_games_loop_rowids _ _ _ _ _ _ _ _ _ Hr E).
Qed.

(** X4. [save_games_to_db] keeps the constraints of the [games] table,
    whatever the records are and whether it returns or raises: afterwards
    UNIQUE(player_id, game_timestamp) holds, the row ids are distinct and no
    time stamp is NULL. *)
Theorem save_games_to_db_constraints clock p games_data d :
  games_unique (games d) -> rowids_unique (games d) -> timestamps_not_null (games d) ->
  let d' := (save_games_to_db v utcoffset clock p games_data d).1 in
  games_unique (games d') /\ rowids_unique (games d') /\ timestamps_not_null (games d').
Proof.
  intros H1 H2 H3. apply save_games_to_db_keeps_constraints. auto.
Qed.


End StoreGrowth.

(** * Records that share a time stamp *)

Section SharedTimestamp.

Variable v : variant.
Variable utcoffset : Z -> Z.

Lemma save_games_loop_app a : forall b clock p st,
  save_games_loop v utcoffset clock p (a ++ b) st
  = (st' <- save_games_loop v utcoffset clock p a st ;;;
     save_games_loop v utcoffset (fun i => clock (length a + i)%nat) p b st').
Proof.
  induction a as [|game a IH]; intros b clock p st; [reflexivity|].
  cbn [app save_games_loop].
  destruct (save_game v utcoffset (clock 0%nat) p game st) as [st1|e]; [|reflexivity].
  cbn [rbind]. rewrite IH. reflexivity.
Qed.

Lemma save_game_same_key now p game d n u d' n' u' :
  save_game v utcoffset now p game (d, n, u) = Ok (d', n', u') ->
  (n' <= S n)%nat /\
  (existsb (key_matches p (timestamp_of game)) (games d) = true -> n' = n) /\
  existsb (key_matches p (timestamp_of game)) (games d') = true.
Proof.
  intros H. pose proof (save_game_keys _ _ _ _ _ _ _ _ _ _ _ H) as [Hk _].
  apply save_game_Ok in H as (gd & mi & gi & _ & _ & _ & [[_ E]|(Hn & _ & _ & En & _)]).
  - injection E as -> -> ->. auto.
  - cbn in En. subst n'. split; [lia|]. split; [congruence|exact Hk].
Qed.

Lemma save_games_loop_same_key ts games_data : forall clock p d n u d' n' u',
  Forall (fun game => timestamp_of game = ts) games_data ->
  save_games_loop v utcoffset clock p games_data (d, n, u) = Ok (d', n', u') ->
  (n' <= S n)%nat /\
  (existsb (key_matches p ts) (games d) = true -> n' = n) /\
  (games_data <> [] -> existsb (key_matches p ts) (games d') = true).
Proof.
  induction games_data as [|game rest IH]; intros clock p d n u d' n' u' Hts H.
  - injection H as <- <- <-. split; [lia|]. split; [reflexivity|congruence].
  - cbn [save_games_loop] in H.
    destruct (save_game v utcoffset (clock 0%nat) p game (d, n, u)) as [[[d1 n1] u1]|e] eqn:E1;
      [|discriminate].
    cbn [rbind] in H. apply List.Forall_cons_iff in Hts as [Ht Hts]. subst ts.
    pose proof (save_games_loop_keys _ _ _ _ _ _ _ _ _ _ _ H) as [_ Hmono].
    apply save_game_same_key in E1 as (Hle & Hsame & Hex).
    apply (IH _ _ _ _ _ _ _ _ Hts) in H as (Hle2 & Hsame2 & _).
    specialize (Hsame2 Hex). subst n'.
    split; [exact Hle|]. split; [exact Hsame|]. intros _. apply Hmono. exact Hex.
Qed.

(** X6. Records of one player that share a time stamp end in one row.  When
    [save_games_to_db] returns on records that all carry the same time stamp
    (as all records of unknown time do, with their 0), at most one row is
    new, the table holds exactly one row of that player and time stamp, and
    the row shows the values of the last record. *)
Theorem shared_timestamp_one_row clock p ts games_data last_game d d' new_games updated_games :
  games_unique (games d) ->
  Forall (fun game => timestamp_of game = ts) (games_data ++ [last_game]) ->
  save_games_to_db v utcoffset clock p (games_data ++ [last_game]) d
  = (d', Ok (new_games, updated_games)) ->
  (new_games <= 1)%nat /\
  exists row,
    List.filter (key_matches p ts) (games d') = [row] /\
    reflects v last_game row /\
    g_last_updated row = clock (length games_data).
Proof.
  intros Hu Hts H. unfold save_games_to_db in H.
  rewrite save_games_loop_app in H.
  destruct (save_games_loop v utcoffset clock p games_data (d, 0%nat, 0%nat))
    as [[[d1 n1] u1]|e] eqn:E1; [|discriminate].
  cbn [rbind save_games_loop] in H.
  destruct (save_game v utcoffset (clock (length games_data + 0)%nat) p last_game (d1, n1, u1))
    as [[[d2 n2] u2]|e] eqn:E2; [|discriminate].
  cbn [rbind] in H. injection H as <- <- <-.
  apply Forall_app in Hts as [Hts Hlast].
  apply List.Forall_cons_iff in Hlast as [Hlast _].
  pose proof (save_games_loop_unique _ _ _ _ _ _ _ _ _ _ _ Hu E1) as Hu1.
  pose proof (save_games_loop_same_key _ _ _ _ _ _ _ _ _ _ Hts E1) as (Hle & _ & Hex).
  split.
  - pose proof (save_game_same_key _ _ _ _ _ _ _ _ _ E2) as (Hle2 & Hsame & _).
    destruct games_data as [|g0 rest].
    + injection E1 as <- <- <-. exact Hle2.
    + rewrite Hlast in Hsame. rewrite (Hsame (Hex ltac:(discriminate))). exact Hle.
  - destruct (save_game_one_row _ _ _ _ _ _ _ _ _ _ _ Hu1 E2) as (row & Hf & Hr & Hl).
    exists row. rewrite Hlast in Hf. split; [exact Hf|]. split; [exact Hr|].
    rewrite Hl. f_equal. lia.
Qed.

End SharedTimestamp.

(** * More on the extractor *)

Lemma scan_div_other d st : is_data_div d = false -> scan_div d st = Ok st.
Proof.
  unfold is_data_div, scan_div. destruct st as [games_data current_game].
  destruct (col_class_of d) as [c|]; [|reflexivity]. intros H.
  apply bool_decide_eq_false in H. unfold data_classes in H.
  repeat match goal with
  | |- context [String.eqb c ?k] =>
      destruct (String.eqb_spec c k);
      [exfalso; apply H; subst c; repeat constructor|]
  end.
  reflexivity.
Qed.

Lemma scan_divs_filter all_divs : forall st,
  scan_divs (List.filter is_data_div all_divs) st = scan_divs all_divs st.
Proof.
  induction all_divs as [|d rest IH]; intros st; [reflexivity|].
  cbn [List.filter]. destruct (is_data_div d) eqn:E.
  - cbn [scan_divs]. destruct (scan_div d st); [apply IH|reflexivity].
  - cbn [scan_divs]. rewrite (scan_div_other d st E). apply IH.
Qed.

Lemma scrape_from_page_filter utcoffset all_divs :
  scrape_from_page utcoffset (List.filter is_data_div all_divs)
  = scrape_from_page utcoffset all_divs.
Proof.
  unfold scrape_from_page, collect_games. rewrite scan_divs_filter. reflexivity.
Qed.

(** X7. The scan reads the seven columns and nothing else: fragments of
    another class (c7 to c9, or no column class at all) change nothing,
    wherever they stand between the others. *)
Theorem other_fragments_ignored utcoffset all_divs :
  scrape_from_page utcoffset all_divs
  = scrape_from_page utcoffset (List.filter is_data_div all_divs).
Proof. symmetry. apply scrape_from_page_filter. Qed.

Lemma dated_nonempty (game : dict) : dated game -> nonempty game = true.
Proof.
  intros [x Hx]. apply bool_decide_eq_true. intros ->.
  rewrite lookup_empty in Hx. discriminate.
Qed.

Lemma scan_div_counted d acc cur acc' cur' :
  Forall dated acc -> dated cur ->
  scan_div d (acc, cur) = Ok (acc', cur') ->
  Forall dated acc' /\ dated cur' /\
  length acc' = (length acc + if is_date_div d then 1 else 0)%nat.
Proof.
  intros Ha Hc H. unfold is_date_div. unfold scan_div in H.
  destruct (col_class_of d) as [c|].
  2:{ injection H as <- <-. rewrite bool_decide_eq_false_2 by discriminate.
      rewrite Nat.add_0_r. auto. }
  destruct (String.eqb_spec c "c0") as [Ec|Hc0].
  { subst c. rewrite (dated_nonempty cur Hc) in H. injection H as <- <-.
    rewrite bool_decide_eq_true_2 by reflexivity. split; [|split].
    - apply Forall_app. split; [exact Ha|]. constructor; [exact Hc|constructor].
    - exists (PStr (default "" (div_text_span d))). apply lookup_singleton_eq.
    - rewrite length_app. reflexivity. }
  rewrite bool_decide_eq_false_2 by congruence. rewrite Nat.add_0_r.
  repeat match type of H with
  | context [String.eqb c ?k] => destruct (String.eqb c k)
  | context [int_or_zero ?t] => destruct (int_or_zero t); cbn [rbind] in H; [|discriminate]
  | context [div_link d] => destruct (div_link d)
  | context [contains ?a ?b] => destruct (contains a b)
  end;
  injection H as <- <-; (split; [exact Ha|split; [|reflexivity]]);
  repeat apply dated_insert; exact Hc.
Qed.

Lemma scan_divs_counted all_divs : forall acc cur,
  Forall dated acc -> dated cur ->
  let r := scan_divs all_divs (acc, cur) in
  Forall dated r.1.1 /\ dated r.1.2 /\
  (length r.1.1 <= length acc + length (List.filter is_date_div all_divs))%nat /\
  (r.2 = None ->
   length r.1.1 = (length acc + length (List.filter is_date_div all_divs))%nat).
Proof.
  induction all_divs as [|d rest IH]; intros acc cur Ha Hc.
  - cbn. rewrite Nat.add_0_r. auto.
  - cbn [scan_divs List.filter].
    destruct (scan_div d (acc, cur)) as [[acc' cur']|e] eqn:E.
    + apply (scan_div_counted _ _ _ _ _ Ha Hc) in E as (Ha' & Hc' & Hl).
      destruct (IH acc' cur' Ha' Hc') as (H1 & H2 & H3 & H4).
      split; [exact H1|]. split; [exact H2|].
      destruct (is_date_div d); cbn [length]; split; try intros Hn; try specialize (H4 Hn); lia.
    + cbn. split; [exact Ha|]. split; [exact Hc|]. split; [lia|discriminate].
Qed.

Lemma dated_post_process utcoffset game : dated game -> dated (post_process utcoffset game).
Proof. intros H. unfold post_process. repeat apply dated_insert. exact H. Qed.

Lemma filter_date_data all_divs :
  List.filter is_date_div (List.filter is_data_div all_divs)
  = List.filter is_date_div all_divs.
Proof.
  induction all_divs as [|d rest IH]; [reflexivity|]. cbn [List.filter].
  destruct (is_data_div d) eqn:Ed; cbn [List.filter]; [rewrite IH; reflexivity|].
  destruct (is_date_div d) eqn:Ec; [|exact IH].
  exfalso. unfold is_date_div in Ec. apply bool_decide_eq_true in Ec.
  unfold is_data_div in Ed. rewrite Ec in Ed. discriminate.
Qed.

Lemma collect_games_filter all_divs :
  collect_games (List.filter is_data_div all_divs) = collect_games all_divs.
Proof. unfold collect_games. rewrite scan_divs_filter. reflexivity. Qed.

(** X8. On a page whose first column fragment is a date fragment, every
    record carries a date, and there are never more records than date
    fragments: exactly as many when the scan runs to its end. *)
Theorem records_dated_and_counted utcoffset all_divs :
  (forall d, head (List.filter is_data_div all_divs) = Some d -> is_date_div d = true) ->
  Forall dated (scrape_from_page utcoffset all_divs) /\
  (length (scrape_from_page utcoffset all_divs)
   <= length (List.filter is_date_div all_divs))%nat /\
  ((collect_games all_divs).2 = None ->
   length (scrape_from_page utcoffset all_divs)
   = length (List.filter is_date_div all_divs)).
Proof.
  intros Hhead.
  rewrite <- (scrape_from_page_filter utcoffset all_divs), <- (filter_date_data all_divs),
    <- (collect_games_filter all_divs).
  destruct (List.filter is_data_div all_divs) as [|d0 rest].
  { replace (scrape_from_page utcoffset []) with (@nil dict) by (vm_compute; reflexivity).
    cbn [List.filter length]. split; [constructor|]. split; [lia|reflexivity]. }
  specialize (Hhead d0 eq_refl).
  unfold scrape_from_page, collect_games. cbn [scan_divs List.filter]. rewrite Hhead.
  assert (scan_div d0 ([], ∅) = Ok ([], {[ "datum" := PStr (default "" (div_text_span d0)) ]}))
    as ->.
  { unfold is_date_div in Hhead. apply bool_decide_eq_true in Hhead.
    unfold scan_div. rewrite Hhead. reflexivity. }
  pose proof (scan_divs_counted rest [] {[ "datum" := PStr (default "" (div_text_span d0)) ]}
                ltac:(constructor)
                ltac:(eexists; apply lookup_singleton_eq)) as (H1 & H2 & H3 & H4).
  destruct (scan_divs rest ([], {[ "datum" := PStr (default "" (div_text_span d0)) ]}))
    as [[acc cur] [e|]]; cbn [fst snd] in *.
  - split; [exact H1|]. split; [cbn [length] in *; lia|discriminate].
  - rewrite (dated_nonempty cur H2).
    assert (has_key "datum" cur = true) as -> by (apply bool_decide_eq_true; exact H2).
    cbn [andb]. rewrite length_map, length_app. cbn [length] in *.
    specialize (H4 eq_refl). split; [|lia].
    apply Forall_map. apply Forall_app. split.
    + eapply Forall_impl; [exact H1|]. intros g. apply dated_post_process.
    + constructor; [apply dated_post_process; exact H2|constructor].
Qed.

(** * Complete runs *)

Lemma int_or_zero_converts text :
  count_converts text = true -> int_or_zero text = Ok (count_value text).
Proof.
  unfold count_converts, count_value. rewrite int_or_zero_spec.
  destruct (isdigit text); [|reflexivity]. cbn [implb]. intros ->. reflexivity.
Qed.

Lemma scan_div_c0 text st :
  scan_div (div_of "c0" text) st = Ok (flush st, {[ "datum" := PStr text ]}).
Proof. destruct st. reflexivity. Qed.

Lemma scan_div_text col key text acc cur :
  (col, key) ∈ [("c1", "bewerb"); ("c4", "ergebnis")] ->
  scan_div (div_of col text) (acc, cur) = Ok (acc, <[key := PStr text]> cur).
Proof.
  intros H. repeat (apply elem_of_cons in H as [H|H]; [injection H as -> ->; reflexivity|]).
  apply elem_of_nil in H. contradiction.
Qed.

Lemma scan_div_c2 text acc cur :
  count_converts text = true ->
  scan_div (div_of "c2" text) (acc, cur)
  = Ok (acc, <["runde" := PInt (count_value text)]> cur).
Proof.
  intros Hc. apply int_or_zero_converts in Hc.
  transitivity (n <- int_or_zero text ;;; Ok (acc, <["runde" := PInt n]> cur));
    [reflexivity|].
  rewrite Hc. reflexivity.
Qed.

Lemma scan_div_c5 text acc cur :
  count_converts text = true ->
  scan_div (div_of "c5" text) (acc, cur)
  = Ok (acc, <["einsatzMinuten" := PInt (count_value text)]> cur).
Proof.
  intros Hc. apply int_or_zero_converts in Hc.
  transitivity (n <- int_or_zero text ;;; Ok (acc, <["einsatzMinuten" := PInt n]> cur));
    [reflexivity|].
  rewrite Hc. reflexivity.
Qed.

Lemma scan_div_c6 text acc cur :
  count_converts text = true ->
  scan_div (div_of "c6" text) (acc, cur)
  = Ok (acc, <["tore" := PInt (count_value text)]> cur).
Proof.
  intros Hc. apply int_or_zero_converts in Hc.
  transitivity (n <- int_or_zero text ;;; Ok (acc, <["tore" := PInt n]> cur));
    [reflexivity|].
  rewrite Hc. reflexivity.
Qed.

Lemma title_teams title (game : dict) :
  (if contains " - " title then
     <["gastMannschaft" := PStr (strip (nth 1 (str_split " - " title) ""))]>
       (<["heimMannschaft" := PStr (strip (nth 0 (str_split " - " title) ""))]> game)
   else game)
  = foldl (fun m kv => <[kv.1 := kv.2]> m) game (teams_of title).
Proof.
  unfold teams_of. rewrite (contains_split_first " " "- "), (str_split_first " " "- ").
  destruct (split_first " - " title) as [[before after]|] eqn:E.
  - rewrite bool_decide_eq_true_2 by (eexists; reflexivity).
    cbn [nth foldl fst snd]. do 3 f_equal.
    unfold away_part. rewrite (str_split_first " " "- ").
    destruct (split_first " - " after) as [[middle rest]|]; reflexivity.
  - rewrite bool_decide_eq_false_2 by (intros [x Hx]; discriminate). reflexivity.
Qed.

Lemma scan_div_c3 title href acc cur :
  scan_div {| div_class := ["c3"]; div_text_span := Some title;
              div_link := Some {| a_title := Some title; a_href := Some href |} |}
           (acc, cur)
  = Ok (acc, <["actionLink" := PStr href]>
               (foldl (fun m kv => <[kv.1 := kv.2]> m) cur (teams_of title))).
Proof. rewrite <- title_teams. reflexivity. Qed.

(** The buffered record after the seven fragments of a run. *)
Lemma run_record r :
  <["tore" := PInt (count_value (run_goals r))]>
    (<["einsatzMinuten" := PInt (count_value (run_minutes r))]>
       (<["ergebnis" := PStr (run_result r)]>
          (<["actionLink" := PStr (run_href r)]>
             (foldl (fun m kv => <[kv.1 := kv.2]> m)
                (<["runde" := PInt (count_value (run_round r))]>
                   (<["bewerb" := PStr (run_competition r)]>
                      {[ "datum" := PStr (run_date r) ]}))
                (teams_of (run_title r))))))
  = (list_to_map (fields_of_run r) : dict).
Proof.
  unfold fields_of_run, teams_of.
  destruct (split_first " - " (run_title r)) as [[before after]|];
    cbn [app foldl fst snd]; apply map_eq; intros k;
    cbn [list_to_map foldr fst snd];
    rewrite ?lookup_insert, ?lookup_singleton, ?lookup_empty;
    repeat (case_decide; [subst k; repeat (case_decide; [discriminate|]); try reflexivity|]);
    reflexivity.
Qed.

Lemma run_record_lookup r :
  (list_to_map (fields_of_run r) : dict) !! "datum" = Some (PStr (run_date r)) /\
  (list_to_map (fields_of_run r) : dict) !! "bewerb" = Some (PStr (run_competition r)).
Proof.
  unfold fields_of_run. cbn [app list_to_map foldr fst snd].
  split; repeat (rewrite lookup_insert; case_decide; [try discriminate|]); congruence.
Qed.

Lemma post_process_run utcoffset r :
  post_process utcoffset (list_to_map (fields_of_run r)) = record_of_run utcoffset r.
Proof.
  unfold post_process, record_of_run, get.
  destruct (run_record_lookup r) as [-> ->]. cbn [default text_of].
  unfold fields_of_run, teams_of.
  destruct (split_first " - " (run_title r)) as [[before after]|];
    cbn [app]; apply map_eq; intros k;
    cbn [list_to_map foldr fst snd];
    rewrite ?lookup_insert, ?lookup_empty;
    repeat (case_decide; [subst k; repeat (case_decide; [discriminate|]); try reflexivity|]);
    reflexivity.
Qed.

Lemma scan_run r rest acc cur :
  run_converts r = true ->
  scan_divs (fragments_of r ++ rest) (acc, cur)
  = scan_divs rest (flush (acc, cur), list_to_map (fields_of_run r)).
Proof.
  unfold run_converts. intros H.
  apply andb_prop in H as [H Hg]. apply andb_prop in H as [Hr Hm].
  unfold fragments_of. cbn [app scan_divs].
  rewrite scan_div_c0.
  rewrite (scan_div_text "c1" "bewerb") by (repeat constructor).
  rewrite (scan_div_c2 _ _ _ Hr), scan_div_c3.
  rewrite (scan_div_text "c4" "ergebnis") by (repeat constructor).
  rewrite (scan_div_c5 _ _ _ Hm), (scan_div_c6 _ _ _ Hg), run_record.
  reflexivity.
Qed.

Lemma run_record_dated r : dated (list_to_map (fields_of_run r)).
Proof. eexists. apply (run_record_lookup r). Qed.

Lemma last_cons {A} (l : list A) : forall a d, List.last (a :: l) d = List.last l a.
Proof.
  induction l as [|b l IH]; intros a d; [reflexivity|].
  change (List.last (a :: b :: l) d) with (List.last (b :: l) d).
  rewrite !IH. reflexivity.
Qed.

Lemma scan_runs runs : forall r acc cur,
  Forall (fun r => run_converts r = true) (r :: runs) ->
  scan_divs (flat_map fragments_of (r :: runs)) (acc, cur)
  = (flush (acc, cur) ++ map (fun r => list_to_map (fields_of_run r)) (removelast (r :: runs)),
     list_to_map (fields_of_run (List.last runs r)), None).
Proof.
  induction runs as [|r' runs IH]; intros r acc cur H;
    apply List.Forall_cons_iff in H as [Hr H];
    cbn [flat_map]; rewrite (scan_run _ _ _ _ Hr).
  - cbn [scan_divs removelast map List.last]. rewrite app_nil_r. reflexivity.
  - change (flat_map fragments_of runs) with (flat_map fragments_of runs).
    change (fragments_of r' ++ flat_map fragments_of runs)
      with (flat_map fragments_of (r' :: runs)).
    rewrite (IH r' _ _ H).
    unfold flush at 1. cbn [fst snd]. rewrite (dated_nonempty _ (run_record_dated r)).
    change (removelast (r :: r' :: runs)) with (r :: removelast (r' :: runs)).
    rewrite last_cons. cbn [map]. rewrite <- app_assoc. reflexivity.
Qed.


(** * A scan that is cut short *)

Lemma unprocessed_insert k x (game : dict) :
  k <> "anstoss" -> k <> "ageGroup" -> unprocessed game -> unprocessed (<[k := x]> game).
Proof.
  intros H1 H2 [Ha Hg]. split; rewrite lookup_insert_ne by congruence; assumption.
Qed.

Lemma scan_div_unprocessed d acc cur acc' cur' :
  Forall unprocessed acc -> unprocessed cur ->
  scan_div d (acc, cur) = Ok (acc', cur') ->
  Forall unprocessed acc' /\ unprocessed cur'.
Proof.
  intros Ha Hc H. unfold scan_div in H.
  destruct (col_class_of d) as [c|]; [|injection H as <- <-; auto].
  repeat match type of H with
  | context [String.eqb c ?k] => destruct (String.eqb c k)
  | context [int_or_zero ?t] => destruct (int_or_zero t); cbn [rbind] in H; [|discriminate]
  | context [div_link d] => destruct (div_link d)
  | context [contains ?a ?b] => destruct (contains a b)
  | context [nonempty cur] => destruct (nonempty cur)
  end;
  injection H as <- <-;
  (split;
   [ first [ exact Ha
           | apply Forall_app; split; [exact Ha|];
             apply List.Forall_cons; [exact Hc|apply List.Forall_nil] ]
   | first [ exact Hc
           | split; reflexivity
           | repeat (apply unprocessed_insert; [discriminate|discriminate|]); exact Hc ] ]).
Qed.

Lemma scan_divs_unprocessed all_divs : forall acc cur,
  Forall unprocessed acc -> unprocessed cur ->
  Forall unprocessed (scan_divs all_divs (acc, cur)).1.1.
Proof.
  induction all_divs as [|d rest IH]; intros acc cur Ha Hc; [exact Ha|].
  cbn [scan_divs]. destruct (scan_div d (acc, cur)) as [[acc' cur']|e] eqn:E; [|exact Ha].
  apply (scan_div_unprocessed _ _ _ _ _ Ha Hc) in E as [Ha' Hc']. exact (IH _ _ Ha' Hc').
Qed.


(** * The calendar, the other way round *)

Lemma forallb_range (f : Z -> bool) (n : nat) :
  forallb f (map (fun i => 1 + Z.of_nat i) (seq 0 n)) = true ->
  forall z, 1 <= z < 1 + Z.of_nat n -> f z = true.
Proof.
  intros H z Hz. rewrite forallb_forall in H. apply H.
  apply in_map_iff. exists (Z.to_nat (z - 1)). split; [lia|].
  apply in_seq. lia.
Qed.

Lemma ord2ymd_month_day n :
  ord2ymd n
  = let n := n - 1 in
    let n400 := n / 146097 in
    let n := n mod 146097 in
    let n100 := n / 36524 in
    let n := n mod 36524 in
    let n4 := n / 1461 in
    let n := n mod 1461 in
    let n1 := n / 365 in
    let n := n mod 365 in
    let y := n400 * 400 + 1 + n100 * 100 + n4 * 4 + n1 in
    if (n1 =? 4) || (n100 =? 4) then (y - 1, 12, 31)
    else
      let leapyear := (n1 =? 3) && (negb (n4 =? 24) || (n100 =? 3)) in
      (y, (month_day leapyear n).1, (month_day leapyear n).2).
Proof.
  unfold ord2ymd, month_day. cbv zeta.
  destruct (_ || _); [reflexivity|]. destruct (_ <? _); reflexivity.
Qed.

Lemma month_day_spec (leapyear : bool) m d :
  1 <= m <= 12 -> 1 <= d <= days_in_month (year_like leapyear) m ->
  days_before_month (year_like leapyear) m + d - 1 <= 364 ->
  month_day leapyear (days_before_month (year_like leapyear) m + d - 1) = (m, d).
Proof.
  intros Hm Hd Hk.
  assert (d <= 31) as Hd31.
  { revert Hd. unfold days_in_month.
    repeat destruct (_ =? _); simpl; try lia; destruct (is_leap _); lia. }
  assert (months_ok leapyear = true) as H by (destruct leapyear; vm_compute; reflexivity).
  unfold months_ok in H.
  pose proof (forallb_range _ _ H m ltac:(lia)) as H1. cbv beta in H1.
  pose proof (forallb_range _ _ H1 d ltac:(lia)) as H2.
  unfold month_day_ok in H2. cbv zeta in H2.
  replace (d <=? days_in_month (year_like leapyear) m) with true in H2
    by (symmetry; apply Z.leb_le; lia).
  replace (days_before_month (year_like leapyear) m + d - 1 <=? 364) with true in H2
    by (symmetry; apply Z.leb_le; lia).
  cbn [andb implb] in H2. apply bool_decide_eq_true in H2. exact H2.
Qed.

Lemma ord2ymd_parts b c e k (leapyear : bool) :
  0 <= b <= 3 -> 0 <= c <= 24 -> 0 <= e <= 3 ->
  0 <= k <= 364 + (if leapyear then 1 else 0) ->
  leapyear = (e =? 3) && (negb (c =? 24) || (b =? 3)) ->
  ord2ymd (36524 * b + 1461 * c + 365 * e + k + 1)
  = if k =? 365 then (100 * b + 4 * c + e + 1, 12, 31)
    else (100 * b + 4 * c + e + 1, (month_day leapyear k).1, (month_day leapyear k).2).
Proof.
  intros Hb Hc He Hk HL. rewrite ord2ymd_month_day. cbv zeta.
  replace (36524 * b + 1461 * c + 365 * e + k + 1 - 1)
    with (36524 * b + 1461 * c + 365 * e + k) by lia.
  destruct (Z.eqb_spec k 365) as [Ek|Ek].
  - (* the last day of a leap year *)
    destruct leapyear; [|lia]. symmetry in HL.
    apply andb_prop in HL as [He3 Hcb]. apply Z.eqb_eq in He3. subst e k.
    rewrite (Z.div_small _ 146097), (Z.mod_small _ 146097) by lia.
    destruct (Z.eqb_spec c 24) as [Ec|Ec].
    + cbn [negb orb] in Hcb. apply Z.eqb_eq in Hcb. subst b c.
      vm_compute. reflexivity.
    + assert ((36524 * b + 1461 * c + 365 * 3 + 365) / 36524 = b) as ->
        by (Z.to_euclidean_division_equations; lia).
      assert ((36524 * b + 1461 * c + 365 * 3 + 365) mod 36524 = 1461 * c + 1460) as ->
        by (Z.to_euclidean_division_equations; lia).
      assert ((1461 * c + 1460) / 1461 = c) as ->
        by (Z.to_euclidean_division_equations; lia).
      assert ((1461 * c + 1460) mod 1461 = 1460) as ->
        by (Z.to_euclidean_division_equations; lia).
      change (1460 / 365) with 4. cbn [Z.eqb orb]. f_equal. f_equal. lia.
  - assert (k <= 364) as Hk' by (destruct leapyear; lia).
    rewrite (Z.div_small _ 146097), (Z.mod_small _ 146097) by lia.
    assert ((36524 * b + 1461 * c + 365 * e + k) / 36524 = b) as ->
      by (Z.to_euclidean_division_equations; lia).
    assert ((36524 * b + 1461 * c + 365 * e + k) mod 36524 = 1461 * c + 365 * e + k) as ->
      by (Z.to_euclidean_division_equations; lia).
    assert ((1461 * c + 365 * e + k) / 1461 = c) as ->
      by (Z.to_euclidean_division_equations; lia).
    assert ((1461 * c + 365 * e + k) mod 1461 = 365 * e + k) as ->
      by (Z.to_euclidean_division_equations; lia).
    assert ((365 * e + k) / 365 = e) as -> by (Z.to_euclidean_division_equations; lia).
    assert ((365 * e + k) mod 365 = k) as -> by (Z.to_euclidean_division_equations; lia).
    replace (e =? 4) with false by (symmetry; apply Z.eqb_neq; lia).
    replace (b =? 4) with false by (symmetry; apply Z.eqb_neq; lia).
    cbn [orb]. rewrite <- HL. f_equal. f_equal. lia.
Qed.

Lemma is_leap_parts y :
  1 <= y <= 400 ->
  let b := (y - 1) / 100 in
  let c := (y - 1) mod 100 / 4 in
  let e := (y - 1) mod 4 in
  0 <= b <= 3 /\ 0 <= c <= 24 /\ 0 <= e <= 3 /\
  y = 100 * b + 4 * c + e + 1 /\
  days_before_year y = 36524 * b + 1461 * c + 365 * e /\
  is_leap y = (e =? 3) && (negb (c =? 24) || (b =? 3)).
Proof.
  intros Hy b c e.
  assert (0 <= b <= 3 /\ 0 <= c <= 24 /\ 0 <= e <= 3 /\ y = 100 * b + 4 * c + e + 1)
    as (Hb & Hc & He & E)
    by (subst b c e; Z.to_euclidean_division_equations; lia).
  split; [exact Hb|]. split; [exact Hc|]. split; [exact He|]. split; [exact E|].
  clearbody b c e. subst y. split.
  - unfold days_before_year. cbv zeta. Z.to_euclidean_division_equations. lia.
  - unfold is_leap.
    destruct (Z.eqb_spec e 3), (Z.eqb_spec c 24), (Z.eqb_spec b 3); cbn [negb orb andb];
      repeat match goal with
      | |- context [?x mod ?n =? 0] => destruct (Z.eqb_spec (x mod n) 0)
      end; cbn [negb orb andb]; try reflexivity;
      exfalso; Z.to_euclidean_division_equations; lia.
Qed.

Lemma calendar_like y m :
  days_before_month y m = days_before_month (year_like (is_leap y)) m /\
  days_in_month y m = days_in_month (year_like (is_leap y)) m.
Proof.
  unfold days_before_month, days_in_month, year_like.
  destruct (is_leap y); split; reflexivity.
Qed.

Lemma day_of_year_bounds (leapyear : bool) m d :
  1 <= m <= 12 -> 1 <= d <= days_in_month (year_like leapyear) m ->
  let k := days_before_month (year_like leapyear) m + d - 1 in
  0 <= k <= 364 + (if leapyear then 1 else 0) /\ (k = 365 -> m = 12 /\ d = 31).
Proof.
  intros Hm. pattern m. apply (Z_range_cases _ 1 12%nat); [|lia].
  cbn [seq map].
  repeat (apply List.Forall_cons;
          [destruct leapyear; vm_compute days_in_month; vm_compute days_before_month;
           intros Hd; cbv zeta; lia|]).
  apply List.Forall_nil.
Qed.

Lemma date_roundtrip_cycle y m d :
  1 <= y <= 400 -> 1 <= m <= 12 -> 1 <= d <= days_in_month y m ->
  ord2ymd (ymd2ord y m d) = (y, m, d).
Proof.
  intros Hy Hm Hd.
  destruct (is_leap_parts y Hy) as (Hb & Hc & He & E & HN & HL).
  destruct (calendar_like y m) as [Hbm Hdm]. rewrite Hdm in Hd.
  destruct (day_of_year_bounds (is_leap y) m d Hm Hd) as [Hk Hlast].
  unfold ymd2ord. rewrite HN, Hbm.
  replace (36524 * ((y - 1) / 100) + 1461 * ((y - 1) mod 100 / 4) + 365 * ((y - 1) mod 4)
           + days_before_month (year_like (is_leap y)) m + d)
    with (36524 * ((y - 1) / 100) + 1461 * ((y - 1) mod 100 / 4) + 365 * ((y - 1) mod 4)
          + (days_before_month (year_like (is_leap y)) m + d - 1) + 1) by lia.
  rewrite (ord2ymd_parts _ _ _ _ (is_leap y) Hb Hc He Hk HL), <- E.
  destruct (Z.eqb_spec (days_before_month (year_like (is_leap y)) m + d - 1) 365) as [Ek|Ek].
  - destruct (Hlast Ek) as [-> ->]. reflexivity.
  - rewrite month_day_spec; [reflexivity|exact Hm|exact Hd|].
    destruct (is_leap y); lia.
Qed.

Lemma days_in_month_cycle y m q : days_in_month (y + 400 * q) m = days_in_month y m.
Proof. unfold days_in_month. rewrite is_leap_cycle. reflexivity. Qed.

Lemma ord2ymd_ymd2ord y m d :
  1 <= y -> 1 <= m <= 12 -> 1 <= d <= days_in_month y m ->
  ord2ymd (ymd2ord y m d) = (y, m, d).
Proof.
  intros Hy Hm Hd.
  set (q := (y - 1) / 400). set (y0 := (y - 1) mod 400 + 1).
  assert (y = y0 + 400 * q) as E.
  { subst q y0. pose proof (Z.div_mod (y - 1) 400 ltac:(lia)). lia. }
  assert (1 <= y0 <= 400) as Hy0.
  { subst y0. pose proof (Z.mod_pos_bound (y - 1) 400 ltac:(lia)). lia. }
  clearbody q y0. subst y.
  rewrite days_in_month_cycle in Hd.
  rewrite ymd2ord_cycle, ord2ymd_cycle, (date_roundtrip_cycle y0 m d Hy0 Hm Hd).
  reflexivity.
Qed.

Lemma of_seconds_kick_off d m y H M :
  valid_kick_off d m y H M ->
  of_seconds (utc_to_seconds (kick_off d m y H M)) = Some (kick_off d m y H M).
Proof.
  intros (Hm & Hy & Hd & HH & HM).
  assert (days_in_month y m <= 31) as Hdim.
  { unfold days_in_month. repeat destruct (_ =? _); simpl; try lia; destruct (is_leap y); lia. }
  pose proof (ymd2ord_bounds y m d Hy Hm ltac:(lia)) as Ho.
  unfold of_seconds, utc_to_seconds, kick_off. cbn [year month day hour minute second].
  set (o := ymd2ord y m d) in *.
  assert ((((o - EPOCH_ORDINAL) * 24 + H) * 60 + M) * 60 + 0
          = (o - EPOCH_ORDINAL) * 86400 + (H * 3600 + M * 60)) as -> by lia.
  rewrite Z.div_add_l by lia.
  rewrite (Z.add_comm ((o - EPOCH_ORDINAL) * 86400)), Z.mod_add by lia.
  rewrite (Z.div_small (H * 3600 + M * 60)) by lia.
  rewrite (Z.mod_small (H * 3600 + M * 60)) by lia.
  replace (o - EPOCH_ORDINAL + 0 + EPOCH_ORDINAL) with o by lia.
  replace ((1 <=? o) && (o <=? MAX_ORDINAL)) with true
    by (symmetry; apply andb_true_iff; split; apply Z.leb_le; lia).
  subst o. rewrite (ord2ymd_ymd2ord y m d) by lia.
  f_equal. f_equal; Z.to_euclidean_division_equations; lia.
Qed.

Section StoredDate.

Variable utcoffset : Z -> Z.
Variable k : Z.
Hypothesis fixed : forall u, utcoffset u = k.
Hypothesis day_at_most : -86400 <= k <= 86400.

Lemma kick_off_in_range d m y H M delta :
  valid_kick_off d m y H M -> -172800 <= delta <= 172800 ->
  in_range (utc_to_seconds (kick_off d m y H M) + delta) = true.
Proof.
  intros (Hm & Hy & Hd & HH & HM) Hdelta.
  assert (days_in_month y m <= 31) as Hdim.
  { unfold days_in_month. repeat destruct (_ =? _); simpl; try lia; destruct (is_leap y); lia. }
  pose proof (ymd2ord_bounds y m d Hy Hm ltac:(lia)) as Ho.
  unfold in_range, utc_to_seconds, kick_off. cbn [year month day hour minute second].
  unfold EPOCH_ORDINAL, MAX_ORDINAL in *.
  apply andb_true_iff; split; apply Z.leb_le; Z.to_euclidean_division_equations; lia.
Qed.

Lemma fromtimestamp_kick_off d m y H M :
  valid_kick_off d m y H M ->
  fromtimestamp utcoffset (utc_to_seconds (kick_off d m y H M) - k)
  = Ok (kick_off d m y H M).
Proof.
  intros Hv. unfold fromtimestamp, localtime. rewrite fixed.
  replace (utc_to_seconds (kick_off d m y H M) - k + k)
    with (utc_to_seconds (kick_off d m y H M)) by lia.
  rewrite (of_seconds_kick_off _ _ _ _ _ Hv). cbn [rbind].
  rewrite (local_fixed utcoffset k fixed).
  2:{ replace (utc_to_seconds (kick_off d m y H M) - k - max_fold_seconds + k)
        with (utc_to_seconds (kick_off d m y H M) + - 86400) by (unfold max_fold_seconds; lia).
      apply kick_off_in_range; [exact Hv|lia]. }
  cbn [rbind].
  replace (utc_to_seconds (kick_off d m y H M)
           - (utc_to_seconds (kick_off d m y H M) - k - max_fold_seconds + k)
           - max_fold_seconds) with 0 by lia.
  reflexivity.
Qed.

Lemma strftime_de_kick_off d m y H M :
  strftime_de (kick_off d m y H M) = datum_text d m y H M.
Proof.
  unfold strftime_de, datum_text, date_text, kick_off. cbn [year month day hour minute].
  rewrite !string_app_assoc. reflexivity.
Qed.


End StoredDate.

(** X12. A date text that names a day the calendar does not have, such as
    the 31st of a month of 30 days or the 29th of February outside a leap
    year, or that names the year 0000, gives the time stamp 0, in every time
    zone: the record is kept as one of unknown time. *)
Theorem nonexistent_day_unknown_time utcoffset d m y H M :
  1 <= d <= 31 -> 1 <= m <= 12 -> 0 <= y <= 9999 -> 0 <= H <= 23 -> 0 <= M <= 59 ->
  y = 0 \/ days_in_month y m < d ->
  anstoss_of utcoffset (datum_text d m y H M) = 0.
Proof.
  intros Hd Hm Hy HH HM Hbad.
  apply (anstoss_of_unparsed utcoffset _ ValueError).
  destruct (datum_text_pipeline d m y H M) as (-> & -> & _).
  unfold strptime.
  pose proof (re_format_date_text d m y H M Hd Hm Hy HH HM) as Hr.
  destruct (re_format (date_text d m y H M)) as [|[dt rest] l]; [reflexivity|].
  injection Hr as -> ->. cbn [negb String.eqb kick_off year month day].
  replace ((MINYEAR <=? y) && (d <=? days_in_month y m)) with false; [reflexivity|].
  symmetry. apply andb_false_iff. unfold MINYEAR.
  destruct Hbad; [left|right]; apply Z.leb_gt; lia.
Qed.

(** * The conversions, case by case *)


(** * The age group *)

Lemma take_decimals_app ds rest :
  string_forallb is_decimal ds = true -> take_decimals rest = "" ->
  take_decimals (ds +:+ rest) = ds.
Proof.
  intros Hd Hr. induction ds as [|c ds IH]; [exact Hr|].
  cbn [string_forallb] in Hd. apply andb_prop in Hd as [Hc Hd].
  change (String c ds +:+ rest) with (String c (ds +:+ rest)).
  cbn [take_decimals]. rewrite Hc, (IH Hd). reflexivity.
Qed.

Lemma take_decimals_prefix pre c tail :
  is_decimal c = false ->
  String.eqb (take_decimals (pre +:+ String c tail)) ""
  = String.eqb (take_decimals pre) "".
Proof.
  intros Hc. destruct pre as [|x pre].
  - change ("" +:+ String c tail) with (String c tail). cbn [take_decimals].
    rewrite Hc. reflexivity.
  - change (String x pre +:+ String c tail) with (String x (pre +:+ String c tail)).
    cbn [take_decimals]. destruct (is_decimal x); reflexivity.
Qed.

(** X14. The age group is the first U or u of the competition name that a
    decimal digit follows, written as U, with the whole run of digits after
    it: what stands before it holds no such place, and what stands after the
    digits does not matter. *)
Theorem age_group_first_match pre c ds rest :
  age_group_of pre = "" ->
  c = "U"%char \/ c = "u"%char ->
  ds <> "" -> string_forallb is_decimal ds = true ->
  take_decimals rest = "" ->
  age_group_of (pre +:+ String c (ds +:+ rest)) = String "U" ds.
Proof.
  intros Hpre Hc Hne Hd Hr.
  assert (is_decimal c = false) as Hcd by (destruct Hc; subst c; reflexivity).
  induction pre as [|x pre IH].
  - change ("" +:+ String c (ds +:+ rest)) with (String c (ds +:+ rest)).
    cbn [age_group_of]. rewrite (take_decimals_app _ _ Hd Hr).
    replace (Ascii.eqb c "U" || Ascii.eqb c "u") with true
      by (destruct Hc; subst c; reflexivity).
    destruct ds; [contradiction|reflexivity].
  - change (String x pre +:+ String c (ds +:+ rest))
      with (String x (pre +:+ String c (ds +:+ rest))).
    cbn [age_group_of] in Hpre |- *.
    rewrite (take_decimals_prefix pre c (ds +:+ rest) Hcd).
    destruct ((Ascii.eqb x "U" || Ascii.eqb x "u")
              && negb (String.eqb (take_decimals pre) "")); [discriminate|].
    exact (IH Hpre).
Qed.

Lemma take_decimals_decimal s : string_forallb is_decimal (take_decimals s) = true.
Proof.
  induction s as [|c s IH]; [reflexivity|]. cbn [take_decimals].
  destruct (is_decimal c) eqn:E; [|reflexivity].
  cbn [string_forallb]. rewrite E. exact IH.
Qed.

(** X15. The age group is empty or a U followed by one or more decimal
    digits, whatever the competition name; it is empty for a name without
    the letter. *)
Theorem age_group_shape bewerb :
  (age_group_of bewerb = "" \/
   exists ds, age_group_of bewerb = String "U" ds /\ ds <> "" /\
              string_forallb is_decimal ds = true) /\
  (string_forallb (fun c => negb (Ascii.eqb c "U" || Ascii.eqb c "u")) bewerb = true ->
   age_group_of bewerb = "").
Proof.
  split.
  - induction bewerb as [|c r IH]; [left; reflexivity|].
    cbn [age_group_of].
    destruct ((Ascii.eqb c "U" || Ascii.eqb c "u")
              && negb (String.eqb (take_decimals r) "")) eqn:E; [|exact IH].
    right. exists (take_decimals r). split; [reflexivity|].
    split; [|apply take_decimals_decimal].
    apply andb_prop in E as [_ E]. intros Heq. rewrite Heq in E. discriminate.
  - induction bewerb as [|c r IH]; [reflexivity|].
    cbn [string_forallb age_group_of]. intros H. apply andb_prop in H as [Hc Hr].
    apply negb_true_iff in Hc. rewrite Hc. exact (IH Hr).
Qed.

(** * More on the report queries *)

Section InsertionSort.

Variable le : option Z -> option Z -> bool.
Hypothesis le_total : forall a b, le a b = false -> le b a = true.
Hypothesis le_trans : forall a b c, le a b = true -> le b c = true -> le a c = true.

Lemma insert_by_hd r x l :
  le x.2 r.2 = true ->
  HdRel (fun a b : string * option Z => le a.2 b.2 = true) x l ->
  HdRel (fun a b : string * option Z => le a.2 b.2 = true) x (insert_by le r l).
Proof.
  intros Hr Hl. destruct l as [|h t]; cbn [insert_by]; [constructor; exact Hr|].
  destruct (le r.2 h.2); constructor; [exact Hr|].
  inversion Hl. assumption.
Qed.

Lemma insert_by_sorted r l :
  Sorted (fun a b : string * option Z => le a.2 b.2 = true) l ->
  Sorted (fun a b : string * option Z => le a.2 b.2 = true) (insert_by le r l).
Proof.
  induction l as [|h t IH]; intros Hs; cbn [insert_by].
  - repeat constructor.
  - destruct (le r.2 h.2) eqn:E.
    + constructor; [exact Hs|]. constructor. exact E.
    + inversion Hs as [|? ? Ht Hh]; subst. constructor; [exact (IH Ht)|].
      apply insert_by_hd; [exact (le_total _ _ E)|exact Hh].
Qed.

Lemma foldr_insert_by_sorted l :
  StronglySorted (fun a b : string * option Z => le a.2 b.2 = true)
                 (foldr (insert_by le) [] l).
Proof.
  apply Sorted_StronglySorted.
  - intros a b c. apply le_trans.
  - induction l as [|r l IH]; cbn [foldr]; [constructor|].
    apply insert_by_sorted. exact IH.
Qed.

End InsertionSort.

Lemma sql_le_total a b : sql_le a b = false -> sql_le b a = true.
Proof. destruct a, b; cbn; try congruence. intros H. apply Z.leb_gt in H. apply Z.leb_le. lia. Qed.

Lemma sql_le_trans a b c : sql_le a b = true -> sql_le b c = true -> sql_le a c = true.
Proof.
  destruct a, b, c; cbn; try congruence.
  intros H1 H2. apply Z.leb_le in H1, H2. apply Z.leb_le. lia.
Qed.

Lemma order_by_desc_sorted l : descending (order_by_desc l).
Proof.
  apply (foldr_insert_by_sorted (fun a b => sql_le b a)).
  - intros a b. apply sql_le_total.
  - intros a b c H1 H2. exact (sql_le_trans _ _ _ H2 H1).
Qed.

Lemma order_by_asc_sorted l : ascending (order_by_asc l).
Proof.
  apply (foldr_insert_by_sorted sql_le); [apply sql_le_total|apply sql_le_trans].
Qed.

(** X16. The minutes chart of the current program shows exactly the players
    with a game in the date window, each with the minutes of those games
    added up, in descending order of the total.  A player without such a
    game has no bar. *)
Theorem minutes_chart_window d :
  players_unique (players d) ->
  exists results,
    generate_minutes_chart DirectPage d = chart_input results /\
    Permutation results (window_rows_of g_minutes_played d) /\
    descending results.
Proof.
  intros Hu. exists (minutes_query DirectPage d). split; [reflexivity|].
  unfold minutes_query. split; [|apply order_by_desc_sorted].
  rewrite order_by_desc_perm, select_totals_window by exact Hu. reflexivity.
Qed.

Lemma select_totals_overall col d :
  players_unique (players d) ->
  select_totals ClickEvent col d = overall_rows_of col d.
Proof.
  intros Hu. unfold select_totals, overall_rows_of.
  change (left_join (players d) (games d)) with (flat_map (join_rows d) (players d)).
  rewrite (group_by_blocks (join_rows d) row_player_key).
  - rewrite map_map. rewrite List.filter_ext with (g := fun _ => true).
    + rewrite filter_true. apply map_ext. intros p. cbn [fst snd player_key].
      f_equal. unfold join_rows, overall_total, games_of.
      destruct (List.filter (fun g => g_player_id g =? p_player_id p) (games d)) as [|g gs];
        [reflexivity|].
      rewrite map_map.
      transitivity (sql_sum (map (fun a => Some (col a)) (g :: gs)));
        [reflexivity|apply (sql_sum_Some col (g :: gs))].
    + intros p. unfold join_rows. by destruct (List.filter _ (games d)).
  - intros p r Hr. unfold join_rows in Hr.
    destruct (List.filter _ (games d)).
    + by apply list_elem_of_singleton in Hr as ->.
    + apply list_elem_of_fmap in Hr as (g' & -> & _). done.
  - by apply players_unique_keys.
Qed.

(** X17. The charts of the older sibling have no date window: both show
    every saved player, with the total over all games of the player and 0
    for a player without a game; the minutes in descending order, the goals
    in ascending order. *)
Theorem sibling_charts_show_every_player d :
  players_unique (players d) ->
  (exists results,
     generate_minutes_chart ClickEvent d = chart_input results /\
     Permutation results (overall_rows_of g_minutes_played d) /\
     descending results) /\
  (exists results,
     generate_goals_chart ClickEvent d = chart_input results /\
     Permutation results (overall_rows_of g_goals d) /\
     ascending results) /\
  (forall col p, games_of d p = [] -> total_or_zero (overall_total col d p) = 0).
Proof.
  intros Hu. split; [|split].
  - exists (minutes_query ClickEvent d). split; [reflexivity|].
    unfold minutes_query. split; [|apply order_by_desc_sorted].
    rewrite order_by_desc_perm, select_totals_overall by exact Hu. reflexivity.
  - exists (goals_query ClickEvent d). split; [reflexivity|].
    unfold goals_query. split; [|apply order_by_asc_sorted].
    rewrite order_by_asc_perm, select_totals_overall by exact Hu. reflexivity.
  - intros col p Hp. unfold overall_total. rewrite Hp. reflexivity.
Qed.

(** X18. The goals chart of the current program draws only totals above
    zero, in descending order; the goals chart of the older sibling is in
    ascending order. *)
Theorem goals_chart_order d :
  descending (goals_query DirectPage d) /\
  Forall (fun row => exists total, row.2 = Some total /\ 0 < total) (goals_query DirectPage d) /\
  ascending (goals_query ClickEvent d).
Proof.
  unfold goals_query. split; [apply order_by_desc_sorted|].
  split; [|apply order_by_asc_sorted].
  apply Forall_forall. intros row Hrow.
  rewrite (order_by_desc_perm _) in Hrow. apply list_elem_of_In in Hrow.
  apply filter_In in Hrow as [_ Hpos]. unfold having_positive in Hpos.
  destruct row.2 as [total|]; [|discriminate].
  exists total. split; [reflexivity|]. apply Z.ltb_lt. exact Hpos.
Qed.

(** * The date window *)

Lemma string_compare_app a1 : forall a2 b1 b2,
  String.length a1 = String.length a2 ->
  String.compare (a1 +:+ b1) (a2 +:+ b2)
  = match String.compare a1 a2 with
    | Eq => String.compare b1 b2
    | c => c
    end.
Proof.
  induction a1 as [|c1 a1 IH]; intros [|c2 a2] b1 b2 Hl; try discriminate; [reflexivity|].
  change (String c1 a1 +:+ b1) with (String c1 (a1 +:+ b1)).
  change (String c2 a2 +:+ b2) with (String c2 (a2 +:+ b2)).
  cbn [String.compare]. destruct (Ascii.compare c1 c2); [|reflexivity|reflexivity].
  apply IH. cbn in Hl. congruence.
Qed.

Lemma digit_char_order a b :
  0 <= a <= 9 -> 0 <= b <= 9 ->
  Ascii.compare (digit_char a) (digit_char b) = (a ?= b).
Proof.
  intros Ha Hb. unfold Ascii.compare, digit_char.
  rewrite !N_ascii_embedding by lia.
  rewrite Z2N.inj_compare by lia. apply Z.add_compare_mono_l.
Qed.

Lemma pad2_compare a b :
  0 <= a <= 99 -> 0 <= b <= 99 -> String.compare (pad2 a) (pad2 b) = (a ?= b).
Proof.
  intros Ha Hb. unfold pad2. cbn [String.compare].
  rewrite !digit_char_order by (Z.to_euclidean_division_equations; lia).
  destruct (Z.compare_spec (a / 10 mod 10) (b / 10 mod 10)) as [E|E|E],
           (Z.compare_spec (a mod 10) (b mod 10)) as [F|F|F];
    symmetry; first [apply Z.compare_eq_iff | apply Z.compare_lt_iff | apply Z.compare_gt_iff];
    Z.to_euclidean_division_equations; lia.
Qed.

Lemma pad4_compare a b :
  0 <= a <= 9999 -> 0 <= b <= 9999 -> String.compare (pad4 a) (pad4 b) = (a ?= b).
Proof.
  intros Ha Hb. unfold pad4, pad2. cbn [String.compare].
  rewrite !digit_char_order by (Z.to_euclidean_division_equations; lia).
  destruct (Z.compare_spec (a / 1000 mod 10) (b / 1000 mod 10)) as [E3|E3|E3];
    [destruct (Z.compare_spec (a / 100 mod 10) (b / 100 mod 10)) as [E2|E2|E2];
      [destruct (Z.compare_spec (a / 10 mod 10) (b / 10 mod 10)) as [E1|E1|E1];
        [destruct (Z.compare_spec (a mod 10) (b mod 10)) as [E0|E0|E0]| |]| |]| |];
    symmetry; first [apply Z.compare_eq_iff | apply Z.compare_lt_iff | apply Z.compare_gt_iff];
    Z.to_euclidean_division_equations; lia.
Qed.

(** X23. The date window of the charts, in calendar days.  A stored date is
    inside the window exactly from 29 August 2025 to 7 June 2026: the first
    day written in the query is inside, at any time of day, and the last day
    written in it, 8 June 2026, is outside, because the stored text with its
    time of day comes after the bare date in the order of texts. *)
Theorem date_window_days dt :
  0 <= year dt <= 9999 -> 0 <= month dt <= 99 -> 0 <= day dt <= 99 ->
  sql_between (Some (strftime_iso dt)) window_lo window_hi
  = date_le (2025, 8, 29) (year dt, month dt, day dt)
    && date_le (year dt, month dt, day dt) (2026, 6, 7).
Proof.
  intros Hy Hm Hd. destruct dt as [y m d H M S]. cbn [year month day] in *.
  unfold sql_between, strftime_iso, window_lo, window_hi, String.leb.
  cbn [year month day hour minute second].
  set (rest := " " +:+ pad2 H +:+ ":" +:+ pad2 M +:+ ":" +:+ pad2 S).
  pose proof (pad4_compare 2025 y ltac:(lia) Hy) as Hy1.
  pose proof (pad4_compare y 2026 Hy ltac:(lia)) as Hy2.
  pose proof (pad2_compare 8 m ltac:(lia) Hm) as Hm1.
  pose proof (pad2_compare m 6 Hm ltac:(lia)) as Hm2.
  pose proof (pad2_compare 29 d ltac:(lia) Hd) as Hd1.
  pose proof (pad2_compare d 8 Hd ltac:(lia)) as Hd2.
  change (pad4 2025) with "2025" in Hy1. change (pad4 2026) with "2026" in Hy2.
  change (pad2 8) with "08" in Hm1, Hd2. change (pad2 6) with "06" in Hm2.
  change (pad2 29) with "29" in Hd1.
  assert (String.compare "2025-08-29" (pad4 y +:+ "-" +:+ pad2 m +:+ "-" +:+ pad2 d +:+ rest)
          = match date_compare (2025, 8, 29) (y, m, d) with Eq => Lt | c => c end) as ->.
  { change "2025-08-29" with ("2025" +:+ "-" +:+ "08" +:+ "-" +:+ "29" +:+ "").
    rewrite (string_compare_app "2025" (pad4 y)) by reflexivity.
    rewrite (string_compare_app "-" "-") by reflexivity.
    rewrite (string_compare_app "08" (pad2 m)) by reflexivity.
    rewrite (string_compare_app "-" "-") by reflexivity.
    rewrite (string_compare_app "29" (pad2 d)) by reflexivity.
    rewrite Hy1, Hm1, Hd1. unfold date_compare. cbn [fst snd].
    change (String.compare "-" "-") with Eq. cbv iota.
    destruct (2025 ?= y); [|reflexivity|reflexivity].
    destruct (8 ?= m); [|reflexivity|reflexivity].
    destruct (29 ?= d); reflexivity. }
  assert (String.compare (pad4 y +:+ "-" +:+ pad2 m +:+ "-" +:+ pad2 d +:+ rest) "2026-06-08"
          = match date_compare (y, m, d) (2026, 6, 8) with Eq => Gt | c => c end) as ->.
  { change "2026-06-08" with ("2026" +:+ "-" +:+ "06" +:+ "-" +:+ "08" +:+ "").
    rewrite (string_compare_app (pad4 y) "2026") by reflexivity.
    rewrite (string_compare_app "-" "-") by reflexivity.
    rewrite (string_compare_app (pad2 m) "06") by reflexivity.
    rewrite (string_compare_app "-" "-") by reflexivity.
    rewrite (string_compare_app (pad2 d) "08") by reflexivity.
    rewrite Hy2, Hm2, Hd2. unfold date_compare. cbn [fst snd].
    change (String.compare "-" "-") with Eq. cbv iota.
    destruct (y ?= 2026); [|reflexivity|reflexivity].
    destruct (m ?= 6); [|reflexivity|reflexivity].
    destruct (d ?= 8); reflexivity. }
  unfold date_le. f_equal.
  - destruct (date_compare (2025, 8, 29) (y, m, d)); reflexivity.
  - unfold date_compare. cbn [fst snd].
    destruct (y ?= 2026); [|reflexivity|reflexivity].
    destruct (m ?= 6); [|reflexivity|reflexivity].
    destruct (Z.compare_spec d 8), (Z.compare_spec d 7); try reflexivity; lia.
Qed.

(** * Counts are never negative *)

Lemma decimal_value_from_nonneg s : forall acc,
  0 <= acc -> string_forallb is_decimal s = true -> 0 <= decimal_value_from acc s.
Proof.
  induction s as [|c s IH]; intros acc Hacc H; [exact Hacc|].
  cbn [string_forallb] in H. apply andb_prop in H as [Hc Hs].
  cbn [decimal_value_from]. apply IH; [|exact Hs].
  unfold is_decimal in Hc. apply andb_prop in Hc as [Hlo _]. apply N.leb_le in Hlo.
  unfold digit_value. lia.
Qed.

Lemma to_int_or_zero_not_negative x n : to_int_or_zero x = Ok n -> 0 <= n.
Proof.
  destruct x as [|k|s].
  - rewrite to_int_or_zero_None. intros [= <-]. lia.
  - rewrite to_int_or_zero_int. intros [= <-]. destruct (Z.leb_spec 0 k); lia.
  - rewrite to_int_or_zero_text, int_or_zero_spec.
    destruct (isdigit s); [|intros [= <-]; lia].
    destruct (string_forallb is_decimal s) eqn:E; [|discriminate].
    intros [= <-]. apply decimal_value_from_nonneg; [lia|exact E].
Qed.

Section CountsNotNegative.

Variable v : variant.
Variable utcoffset : Z -> Z.

Lemma save_game_not_negative now p game d n u d' n' u' :
  counts_not_negative (games d) ->
  save_game v utcoffset now p game (d, n, u) = Ok (d', n', u') ->
  counts_not_negative (games d').
Proof.
  intros Hd H. unfold counts_not_negative in *.
  apply save_game_Ok in H as (gd & mi & gi & _ & Hmi & Hgi & [[_ E]|(_ & _ & Hi & _ & _)]);
    apply to_int_or_zero_not_negative in Hmi, Hgi.
  - injection E as -> -> ->. cbn [games]. unfold sql_update_game.
    apply Forall_forall. intros g Hg. apply list_elem_of_fmap in Hg as (g0 & -> & Hg0).
    rewrite Forall_forall in Hd. specialize (Hd g0 Hg0).
    destruct (key_matches p (timestamp_of game) g0); [cbn; auto|exact Hd].
  - cbn in Hi. apply insert_Ok in Hi as (_ & row & -> & _ & _ & Hm & Hg).
    apply Forall_app. split; [exact Hd|]. constructor; [|constructor].
    rewrite Hm, Hg. auto.
Qed.

Lemma save_games_loop_not_negative games_data : forall clock p d n u d' n' u',
  counts_not_negative (games d) ->
  save_games_loop v utcoffset clock p games_data (d, n, u) = Ok (d', n', u') ->
  counts_not_negative (games d').
Proof.
  induction games_data as [|game rest IH]; intros clock p d n u d' n' u' Hd H.
  - injection H as <- <- <-. exact Hd.
  - cbn [save_games_loop] in H.
    destruct (save_game v utcoffset (clock 0%nat) p game (d, n, u)) as [[[d1 n1] u1]|e] eqn:E1;
      [|discriminate].
    cbn [rbind] in H.
    exact (IH _ _ _ _ _ _ _ _ (save_game_not_negative _ _ _ _ _ _ _ _ _ Hd E1) H).
Qed.

(** X21. No stored count is negative: [save_games_to_db] writes the minutes
    and the goals after a conversion that gives 0 or the value of a text of
    digits, so a store without a negative count stays one. *)
Theorem save_games_to_db_counts_not_negative clock p games_data d :
  counts_not_negative (games d) ->
  counts_not_negative (games (save_games_to_db v utcoffset clock p games_data d).1).
Proof.
  intros Hd. unfold save_games_to_db.
  destruct (save_games_loop v utcoffset clock p games_data (d, 0%nat, 0%nat))
    as [[[d1 n1] u1]|e] eqn:E; [|exact Hd].
  exact (save_games_loop_not_negative _ _ _ _ _ _ _ _ _ Hd E).
Qed.

End CountsNotNegative.

Lemma left_join_games ps gs r g :
  r ∈ left_join ps gs -> r.2 = Some g -> g ∈ gs.
Proof.
  unfold left_join. intros Hr Hg. apply list_elem_of_In in Hr.
  apply in_flat_map in Hr as (p & _ & Hr).
  destruct (List.filter (fun g0 => g_player_id g0 =? p_player_id p) gs) as [|g0 ms] eqn:E.
  - destruct Hr as [<-|[]]. discriminate.
  - apply in_map_iff in Hr as (g1 & <- & Hin). cbn in Hg. injection Hg as ->.
    rewrite <- E in Hin. apply filter_In in Hin as [Hin _].
    apply list_elem_of_In. exact Hin.
Qed.

Lemma sql_sum_not_negative vals :
  Forall (fun x => forall t, x = Some t -> 0 <= t) vals ->
  forall t, sql_sum vals = Some t -> 0 <= t.
Proof.
  intros H t. unfold sql_sum.
  assert (0 <= foldr Z.add 0 (omap id vals)) as Hs.
  { induction H as [|x l Hx Hl IH]; [cbn; lia|].
    destruct x as [z|]; cbn; [|exact IH]. specialize (Hx z eq_refl). cbn in IH. lia. }
  destruct (omap id vals); [discriminate|]. intros [= <-]. exact Hs.
Qed.

Lemma select_totals_not_negative v col d :
  Forall (fun g => 0 <= col g) (games d) ->
  Forall (fun r => forall t, r.2 = Some t -> 0 <= t) (select_totals v col d).
Proof.
  intros Hd. unfold select_totals.
  set (kept := match v with
               | DirectPage => List.filter in_window (left_join (players d) (games d))
               | ClickEvent => left_join (players d) (games d)
               end).
  assert (forall r, r ∈ kept -> r ∈ left_join (players d) (games d)) as Hk.
  { subst kept. destruct v; [|auto]. intros r Hr. apply list_elem_of_In in Hr.
    apply filter_In in Hr as [Hr _]. apply list_elem_of_In. exact Hr. }
  apply Forall_forall. intros row Hrow.
  apply list_elem_of_fmap in Hrow as ([k rows] & -> & Hin).
  unfold group_by in Hin. apply list_elem_of_fmap in Hin as (k' & [= -> ->] & _).
  cbn [snd]. apply sql_sum_not_negative.
  apply Forall_forall. intros x Hx. apply list_elem_of_fmap in Hx as (r & -> & Hr).
  apply list_elem_of_In in Hr. apply filter_In in Hr as [Hr _].
  apply list_elem_of_In in Hr. apply Hk in Hr.
  intros t Ht. destruct r as [pl [g|]]; [|discriminate]. cbn in Ht. injection Ht as <-.
  rewrite Forall_forall in Hd. apply Hd. exact (left_join_games _ _ _ g Hr eq_refl).
Qed.

Lemma StronglySorted_map {A B} (R : A -> A -> Prop) (R' : B -> B -> Prop) (f : A -> B) l :
  (forall a b, a ∈ l -> b ∈ l -> R a b -> R' (f a) (f b)) ->
  StronglySorted R l -> StronglySorted R' (map f l).
Proof.
  intros Hf Hs. induction Hs as [|a l Hs IH Ha]; [constructor|].
  cbn [map]. constructor.
  - apply IH. intros x y Hx Hy. apply Hf; apply elem_of_cons; auto.
  - apply List.Forall_forall. intros y Hy. apply in_map_iff in Hy as (b & <- & Hb).
    rewrite List.Forall_forall in Ha.
    apply Hf; [apply elem_of_cons; auto| |exact (Ha b Hb)].
    apply elem_of_cons. right. apply list_elem_of_In. exact Hb.
Qed.

(** X22. The bars of the minutes chart.  For a store without a negative
    count, in either program, the chart gets as many totals as names, no
    total is negative, and the totals come in descending order. *)
Theorem minutes_chart_bars v d names totals :
  counts_not_negative (games d) ->
  generate_minutes_chart v d = Some (names, totals) ->
  length names = length totals /\
  Forall (fun t => 0 <= t) totals /\
  StronglySorted (fun a b => b <= a) totals.
Proof.
  intros Hd H. unfold generate_minutes_chart, chart_input in H.
  assert (Forall (fun r : string * option Z => forall t, r.2 = Some t -> 0 <= t)
                 (minutes_query v d)) as Hq.
  { unfold minutes_query.
    pose proof (select_totals_not_negative v g_minutes_played d
                  ltac:(eapply Forall_impl; [exact Hd|]; intros g [Hg _]; exact Hg)) as Hs.
    rewrite Forall_forall in Hs |- *. intros r Hr. apply Hs.
    rewrite <- (order_by_desc_perm (select_totals v g_minutes_played d)). exact Hr. }
  pose proof (order_by_desc_sorted (select_totals v g_minutes_played d)) as Hs.
  fold (minutes_query v d) in Hs.
  destruct (minutes_query v d) as [|r rs] eqn:E; [discriminate|].
  assert (names = map fst (r :: rs)
          /\ totals = map (fun row : string * option Z => total_or_zero row.2) (r :: rs))
    as [-> ->] by (injection H; auto).
  rewrite !length_map. split; [reflexivity|].
  assert (forall r0 : string * option Z,
            (forall t, r0.2 = Some t -> 0 <= t) -> 0 <= total_or_zero r0.2) as Hz.
  { intros [nm [t|]] Ht; cbn; [|lia]. specialize (Ht t eq_refl). cbn in Ht.
    destruct (t =? 0); cbn; lia. }
  split.
  - apply Forall_map. eapply Forall_impl; [exact Hq|]. exact Hz.
  - apply (StronglySorted_map (fun a b : string * option Z => sql_le b.2 a.2 = true));
      [|exact Hs].
    intros a b Ha Hb Hab. rewrite Forall_forall in Hq.
    pose proof (Hq a Ha) as Hna. pose proof (Hq b Hb) as Hnb.
    destruct a as [na [ta|]], b as [nb [tb|]]; cbn in *.
    + apply Z.leb_le in Hab. destruct (ta =? 0) eqn:Ea, (tb =? 0) eqn:Eb; cbn;
        try apply Z.eqb_eq in Ea; try apply Z.eqb_eq in Eb; lia.
    + specialize (Hna ta eq_refl). destruct (ta =? 0); cbn; lia.
    + discriminate.
    + lia.
Qed.

(** * One player, then the roster *)

Lemma save_player_to_db_ids now p name team y d i :
  i ∈ map p_player_id (players d) ->
  i ∈ map p_player_id (players (save_player_to_db now p name team y d)).
Proof.
  intros Hi. unfold save_player_to_db. cbn [players]. rewrite map_app. cbn [map p_player_id].
  destruct (Z.eq_dec i p) as [->|Hne].
  - apply elem_of_app. right. apply list_elem_of_singleton. reflexivity.
  - apply elem_of_app. left.
    apply list_elem_of_fmap in Hi as (r & -> & Hr). apply list_elem_of_fmap.
    exists r. split; [reflexivity|]. apply list_elem_of_In. apply filter_In.
    split; [apply list_elem_of_In; exact Hr|].
    apply negb_true_iff. apply Z.eqb_neq. exact Hne.
Qed.

Lemma save_player_to_db_id now p name team y d :
  p ∈ map p_player_id (players (save_player_to_db now p name team y d)).
Proof.
  unfold save_player_to_db. cbn [players]. rewrite map_app. cbn [map p_player_id].
  apply elem_of_app. right. apply list_elem_of_singleton. reflexivity.
Qed.

Lemma save_player_to_db_schema now p name team y d :
  schema_holds d -> schema_holds (save_player_to_db now p name team y d).
Proof.
  intros (Hp & Hg & Hr & Hn & Hf). split; [apply save_player_to_db_unique; exact Hp|].
  split; [exact Hg|]. split; [exact Hr|]. split; [exact Hn|].
  unfold games_reference_players in *. cbn [games save_player_to_db].
  eapply Forall_impl; [exact Hf|]. intros g. apply save_player_to_db_ids.
Qed.

Lemma save_games_to_db_players v utcoffset clock p games_data d :
  players (save_games_to_db v utcoffset clock p games_data d).1 = players d.
Proof.
  unfold save_games_to_db.
  destruct (save_games_loop v utcoffset clock p games_data (d, 0%nat, 0%nat))
    as [[[d1 n1] u1]|e] eqn:E; [|reflexivity].
  apply save_games_loop_frame in E as [E _]. exact E.
Qed.

Lemma save_games_to_db_schema v utcoffset clock p games_data d :
  p ∈ map p_player_id (players d) ->
  schema_holds d -> schema_holds (save_games_to_db v utcoffset clock p games_data d).1.
Proof.
  intros Hin (Hp & Hg & Hr & Hn & Hf).
  pose proof (save_games_to_db_keeps_constraints v utcoffset clock p games_data d
                (conj Hg (conj Hr Hn))) as (Hg' & Hr' & Hn').
  pose proof (save_games_to_db_players v utcoffset clock p games_data d) as Hpl.
  split; [rewrite Hpl; exact Hp|]. split; [exact Hg'|]. split; [exact Hr'|].
  split; [exact Hn'|].
  unfold games_reference_players. rewrite Hpl.
  unfold save_games_to_db.
  destruct (save_games_loop v utcoffset clock p games_data (d, 0%nat, 0%nat))
    as [[[d' n] u]|e] eqn:E; [|exact Hf].
  apply save_games_loop_growth in E as (_ & kept & added & Hk & Hid & _ & Ha).
  cbn [fst]. rewrite Hk. apply Forall_app. split.
  - assert (map g_player_id kept = map g_player_id (games d)) as Hids.
    { apply (f_equal (map (fun i : Z * Z * pyval * option string => i.1.1.2))) in Hid.
      rewrite !map_map in Hid. exact Hid. }
    apply Forall_forall. intros g Hgk.
    assert (g_player_id g ∈ map g_player_id (games d)) as Hgi.
    { rewrite <- Hids. apply list_elem_of_fmap. exists g. auto. }
    apply list_elem_of_fmap in Hgi as (g0 & -> & Hg0).
    unfold games_reference_players in Hf. rewrite Forall_forall in Hf. exact (Hf g0 Hg0).
  - eapply Forall_impl; [exact Ha|]. intros g ->. exact Hin.
Qed.

Lemma save_player_stats_to_db_schema v utcoffset now clock p name team y data d :
  schema_holds d ->
  schema_holds (save_player_stats_to_db v utcoffset now clock p name team y data d).1.
Proof.
  intros H. unfold save_player_stats_to_db.
  destruct data as [m|]; [|exact H].
  destruct (m !! "spieleAlle") as [games|]; [|exact H].
  apply save_games_to_db_schema; [apply save_player_to_db_id|].
  apply save_player_to_db_schema. exact H.
Qed.

Lemma process_player_schema utcoffset player x d :
  schema_holds d -> schema_holds (process_player utcoffset player x d).1.
Proof.
  intros H. unfold process_player.
  destruct (print_player_stats utcoffset (page_of x)) as [data|e]; [|exact H].
  destruct (has_data data); [|exact H].
  pose proof (save_player_stats_to_db_schema DirectPage utcoffset (now_of x) (clock_of x)
                (r_id player) (r_name player) (r_team player) (r_year player) data d H) as H'.
  destruct (save_player_stats_to_db _ _ _ _ _ _ _ _ _ _) as [d' [c|e]]; exact H'.
Qed.

Lemma process_players_schema utcoffset turns : forall d,
  schema_holds d -> schema_holds (process_players utcoffset turns d).1.
Proof.
  induction turns as [|[player x] rest IH]; intros d H; [exact H|].
  cbn [process_players].
  pose proof (process_player_schema utcoffset player x d H) as H'.
  destruct (process_player utcoffset player x d) as [d' [u|e]]; [|exact H'].
  apply IH. exact H'.
Qed.

(** X19. The program keeps the schema.  Whatever pages the browser hands
    over, and whether the run ends or an exception stops it, the loop of
    [__main__] leaves a store in which the primary key of [players] and the
    UNIQUE constraint and the row ids of [games] hold, no time stamp is NULL,
    and every game belongs to a saved player: the foreign key, which the
    engine does not check, holds because [save_player_stats_to_db] writes
    the player before the games.  The same holds of one call of
    [save_player_stats_to_db], in both programs and for any data. *)
Theorem program_keeps_schema utcoffset d :
  schema_holds d ->
  (forall turns, schema_holds (process_players utcoffset turns d).1) /\
  (forall v now clock p name team y data,
     schema_holds (save_player_stats_to_db v utcoffset now clock p name team y data d).1).
Proof.
  intros H. split.
  - intros turns. apply process_players_schema. exact H.
  - intros. apply save_player_stats_to_db_schema. exact H.
Qed.

Section OnePlayer.

Variable utcoffset : Z -> Z.
Variable offset : Z.
Hypothesis fixed : forall u, utcoffset u = offset.

Lemma datum_of_storable game :
  storable utcoffset game -> exists text, datum_of utcoffset game = Ok text.
Proof.
  intros [[[gd Hgd] _] _]. unfold datum_of. unfold game_date_of, timestamp_of in Hgd.
  cbv zeta. destruct (truthy (get game "anstoss" (PInt 0))); [|eexists; reflexivity].
  destruct (get game "anstoss" (PInt 0)) as [|ms|s]; try discriminate.
  destruct (fromtimestamp_ms utcoffset ms); [eexists; reflexivity|discriminate].
Qed.

Lemma print_games_storable games :
  Forall (storable utcoffset) games -> print_games utcoffset games = Ok tt.
Proof.
  induction games as [|game rest IH]; intros H; [reflexivity|].
  apply List.Forall_cons_iff in H as [Hg Hr]. cbn [print_games].
  destruct (datum_of_storable game Hg) as [text ->]. cbn [rbind]. exact (IH Hr).
Qed.

Lemma print_player_stats_returns page :
  print_player_stats utcoffset page = Ok (scrape_player_stats utcoffset page).
Proof.
  unfold print_player_stats, scrape_player_stats, scrape_page.
  destruct page as [all_divs|]; [|reflexivity]. cbn [fmap option_fmap option_map].
  pose proof (scrape_from_page_storable utcoffset offset fixed all_divs) as Hs.
  destruct (scrape_from_page utcoffset all_divs) as [|game rest]; [reflexivity|].
  rewrite lookup_singleton_eq. rewrite (print_games_storable _ Hs). reflexivity.
Qed.

End OnePlayer.


(** * The program run a second time *)

Lemma players_ids_replace now p name team y (ps : list player_row) :
  players_unique ps -> p ∈ map p_player_id ps ->
  Permutation
    (map p_player_id
       (List.filter (fun r => negb (p_player_id r =? p)) ps
        ++ [ {| p_player_id := p; p_player_name := name; p_team := team;
                p_season_year := y; p_last_updated := now |} ]))
    (map p_player_id ps).
Proof.
  unfold players_unique. rewrite map_app. cbn [map p_player_id].
  induction ps as [|r ps IH]; intros Hu Hin.
  - apply elem_of_nil in Hin. contradiction.
  - cbn [map] in Hu, Hin. apply NoDup_cons in Hu as [Hr Hu].
    cbn [List.filter]. destruct (Z.eqb_spec (p_player_id r) p) as [E|E]; cbn [negb].
    + subst p. cbn [map].
      assert (List.filter (fun r0 => negb (p_player_id r0 =? p_player_id r)) ps = ps) as ->.
      { clear - Hr. induction ps as [|q ps IH]; [reflexivity|].
        cbn [map] in Hr. apply not_elem_of_cons in Hr as [Hq Hr].
        cbn [List.filter]. destruct (Z.eqb_spec (p_player_id q) (p_player_id r)); [congruence|].
        cbn [negb]. rewrite (IH Hr). reflexivity. }
      symmetry. apply Permutation_cons_append.
    + apply elem_of_cons in Hin as [Hin|Hin]; [congruence|].
      cbn [map app]. constructor. exact (IH Hu Hin).
Qed.

Section SecondRun.

Variable utcoffset : Z -> Z.
Variable offset : Z.
Hypothesis fixed : forall u, utcoffset u = offset.

Lemma visit_records_storable x : Forall (storable utcoffset) (visit_records utcoffset x).
Proof.
  unfold visit_records, scrape_page. destruct (page_of x) as [all_divs|]; [|constructor].
  apply (scrape_from_page_storable utcoffset offset fixed).
Qed.

Lemma process_player_steps player x d :
  process_player utcoffset player x d
  = match visit_records utcoffset x with
    | [] => (d, Ok tt)
    | records =>
        ((save_games_to_db DirectPage utcoffset (clock_of x) (r_id player) records
            (save_player_to_db (now_of x) (r_id player) (r_name player) (r_team player)
               (r_year player) d)).1, Ok tt)
    end.
Proof.
  pose proof (visit_records_storable x) as Hs.
  unfold process_player. rewrite (print_player_stats_returns utcoffset offset fixed).
  unfold scrape_player_stats, visit_records in *.
  destruct (scrape_page utcoffset (page_of x)) as [[|game rest]|];
    cbn [default from_option id has_data] in *; [reflexivity| |reflexivity].
  rewrite bool_decide_eq_true_2
    by (intros Hm; apply (f_equal (fun m : stats => m !! "spieleAlle")) in Hm;
        rewrite lookup_singleton_eq, lookup_empty in Hm; discriminate).
  unfold save_player_stats_to_db. rewrite lookup_singleton_eq.
  destruct (save_games_to_db_returns DirectPage utcoffset (clock_of x) (r_id player)
              (game :: rest)
              (save_player_to_db (now_of x) (r_id player) (r_name player) (r_team player)
                 (r_year player) d) Hs) as (d' & counts & ->).
  reflexivity.
Qed.

(** One turn keeps what is stored and stores its own records. *)
Lemma process_player_stores player x d :
  let d' := (process_player utcoffset player x d).1 in
  turn_stored utcoffset d' (player, x) /\
  (forall p ts, existsb (key_matches p ts) (games d) = true ->
                existsb (key_matches p ts) (games d') = true) /\
  (forall i, i ∈ map p_player_id (players d) -> i ∈ map p_player_id (players d')) /\
  (players_unique (players d) -> players_unique (players d')).
Proof.
  cbv zeta. rewrite process_player_steps. unfold turn_stored. cbn [fst snd].
  pose proof (visit_records_storable x) as Hs.
  destruct (visit_records utcoffset x) as [|game rest] eqn:Er.
  { cbn [fst]. split; [split; [constructor|congruence]|]. auto. }
  set (d1 := save_player_to_db (now_of x) (r_id player) (r_name player) (r_team player)
               (r_year player) d).
  pose proof (save_games_to_db_players DirectPage utcoffset (clock_of x) (r_id player)
                (game :: rest) d1) as Hpl.
  destruct (save_games_to_db_returns DirectPage utcoffset (clock_of x) (r_id player)
              (game :: rest) d1 Hs) as (d' & counts & Hr).
  rewrite Hr in Hpl |- *. cbn [fst] in *.
  unfold save_games_to_db in Hr.
  destruct (save_games_loop DirectPage utcoffset (clock_of x) (r_id player) (game :: rest)
              (d1, 0%nat, 0%nat)) as [[[d2 n2] u2]|e] eqn:E; [|discriminate].
  injection Hr as <- _.
  apply save_games_loop_keys in E as [Hk Hmono].
  rewrite Hpl. split; [split; [exact Hk|]|split; [|split]].
  - intros _. apply save_player_to_db_id.
  - intros p ts Hex. apply Hmono. exact Hex.
  - intros i Hi. apply save_player_to_db_ids. exact Hi.
  - apply save_player_to_db_unique.
Qed.

Lemma turn_stored_mono d d' t :
  (forall p ts, existsb (key_matches p ts) (games d) = true ->
                existsb (key_matches p ts) (games d') = true) ->
  (forall i, i ∈ map p_player_id (players d) -> i ∈ map p_player_id (players d')) ->
  turn_stored utcoffset d t -> turn_stored utcoffset d' t.
Proof.
  intros Hk Hi [H1 H2]. split.
  - eapply Forall_impl; [exact H1|]. intros game. apply Hk.
  - intros Hne. apply Hi. exact (H2 Hne).
Qed.

Lemma process_players_stores turns : forall d,
  let d' := (process_players utcoffset turns d).1 in
  Forall (turn_stored utcoffset d') turns /\
  (forall p ts, existsb (key_matches p ts) (games d) = true ->
                existsb (key_matches p ts) (games d') = true) /\
  (forall i, i ∈ map p_player_id (players d) -> i ∈ map p_player_id (players d')) /\
  (players_unique (players d) -> players_unique (players d')).
Proof.
  induction turns as [|[player x] rest IH]; intros d; cbv zeta.
  - cbn. split; [constructor|]. auto.
  - cbn [process_players].
    destruct (process_player_stores player x d) as (Hs & Hk & Hi & Hu).
    rewrite process_player_steps in *.
    set (d1 := (match visit_records utcoffset x with
                | [] => (d, Ok tt)
                | g :: l =>
                    ((save_games_to_db DirectPage utcoffset (clock_of x) (r_id player) (g :: l)
                        (save_player_to_db (now_of x) (r_id player) (r_name player)
                           (r_team player) (r_year player) d)).1, Ok tt)
                end).1) in *.
    assert (match visit_records utcoffset x with
            | [] => (d, Ok tt)
            | g :: l =>
                ((save_games_to_db DirectPage utcoffset (clock_of x) (r_id player) (g :: l)
                    (save_player_to_db (now_of x) (r_id player) (r_name player)
                       (r_team player) (r_year player) d)).1, Ok tt)
            end = (d1, Ok tt)) as ->
      by (subst d1; destruct (visit_records utcoffset x); reflexivity).
    destruct (IH d1) as (Hs' & Hk' & Hi' & Hu').
    split; [|split; [|split]].
    + constructor; [|exact Hs']. exact (turn_stored_mono _ _ _ Hk' Hi' Hs).
    + intros p ts Hex. apply Hk', Hk, Hex.
    + intros i Hin. apply Hi', Hi, Hin.
    + intros H. apply Hu', Hu, H.
Qed.

(** A turn whose records are stored changes no identity of a row and adds
    no player. *)
Lemma process_player_again player x d :
  players_unique (players d) -> turn_stored utcoffset d (player, x) ->
  let d' := (process_player utcoffset player x d).1 in
  map row_identity (games d') = map row_identity (games d) /\
  Permutation (map p_player_id (players d')) (map p_player_id (players d)) /\
  players_unique (players d').
Proof.
  intros Hu [Hk Hp]. cbv zeta. cbn [fst snd] in Hk, Hp.
  destruct (process_player_stores player x d) as (_ & _ & _ & Hu').
  specialize (Hu' Hu). rewrite process_player_steps in *.
  pose proof (visit_records_storable x) as Hs.
  destruct (visit_records utcoffset x) as [|game rest]; [cbn [fst]; auto|].
  specialize (Hp ltac:(discriminate)).
  set (d1 := save_player_to_db (now_of x) (r_id player) (r_name player) (r_team player)
               (r_year player) d) in *.
  cbn [fst] in *.
  pose proof (save_games_to_db_players DirectPage utcoffset (clock_of x) (r_id player)
                (game :: rest) d1) as Hpl.
  split; [|split; [|exact Hu']].
  - unfold save_games_to_db.
    destruct (save_games_loop_again DirectPage utcoffset (clock_of x) (r_id player)
                (game :: rest) d1 0%nat 0%nat) as (d2 & E & _ & _).
    { eapply Forall_impl; [exact Hs|]. intros g [Hc _]. exact Hc. }
    { exact Hk. }
    rewrite E. cbn [fst].
    apply save_games_loop_growth in E as (_ & kept & added & Hg & Hid & Hn & _).
    destruct added; [|cbn in Hn; lia]. rewrite app_nil_r in Hg. rewrite Hg. exact Hid.
  - rewrite Hpl. subst d1. unfold save_player_to_db. cbn [players].
    apply players_ids_replace; assumption.
Qed.

Lemma turn_stored_same d d' t :
  map row_identity (games d') = map row_identity (games d) ->
  Permutation (map p_player_id (players d')) (map p_player_id (players d)) ->
  turn_stored utcoffset d t -> turn_stored utcoffset d' t.
Proof.
  intros Hid Hperm. apply turn_stored_mono.
  - intros p ts Hex. rewrite <- Hex. apply existsb_row_key.
    apply (f_equal (map (fun i : Z * Z * pyval * option string => (i.1.1.2, i.1.2)))) in Hid.
    rewrite !map_map in Hid. exact Hid.
  - intros i Hi. rewrite Hperm. exact Hi.
Qed.

Lemma process_players_again turns : forall d,
  players_unique (players d) -> Forall (turn_stored utcoffset d) turns ->
  let d' := (process_players utcoffset turns d).1 in
  map row_identity (games d') = map row_identity (games d) /\
  Permutation (map p_player_id (players d')) (map p_player_id (players d)).
Proof.
  induction turns as [|[player x] rest IH]; intros d Hu Hs; cbv zeta.
  - cbn. auto.
  - apply List.Forall_cons_iff in Hs as [Hs Hrest]. cbn [process_players].
    destruct (process_player_again player x d Hu Hs) as (Hid & Hperm & Hu1).
    rewrite process_player_steps in *.
    set (d1 := (match visit_records utcoffset x with
                | [] => (d, Ok tt)
                | g :: l =>
                    ((save_games_to_db DirectPage utcoffset (clock_of x) (r_id player) (g :: l)
                        (save_player_to_db (now_of x) (r_id player) (r_name player)
                           (r_team player) (r_year player) d)).1, Ok tt)
                end).1) in *.
    assert (match visit_records utcoffset x with
            | [] => (d, Ok tt)
            | g :: l =>
                ((save_games_to_db DirectPage utcoffset (clock_of x) (r_id player) (g :: l)
                    (save_player_to_db (now_of x) (r_id player) (r_name player)
                       (r_team player) (r_year player) d)).1, Ok tt)
            end = (d1, Ok tt)) as ->
      by (subst d1; destruct (visit_records utcoffset x); reflexivity).
    destruct (IH d1 Hu1) as (Hid' & Hperm').
    { eapply Forall_impl; [exact Hrest|]. intros t. exact (turn_stored_same _ _ _ Hid Hperm). }
    split; [congruence|]. rewrite Hperm'. exact Hperm.
Qed.

End SecondRun.

(** X24. The program run a second time adds nothing.  In a zone with a
    fixed offset, when the loop of [__main__] has run over some players and
    pages, a second run that finds the same pages leaves every row of
    [games] in place with its row id, player, time stamp and date, adds no
    row, and leaves the same players: only the other columns and the update
    stamps are written again. *)
Theorem second_run_adds_nothing utcoffset offset turns1 turns2 d0 :
  (forall u, utcoffset u = offset) ->
  players_unique (players d0) ->
  Forall2 same_turn turns1 turns2 ->
  let d1 := (process_players utcoffset turns1 d0).1 in
  let d2 := (process_players utcoffset turns2 d1).1 in
  map row_identity (games d2) = map row_identity (games d1) /\
  Permutation (map p_player_id (players d2)) (map p_player_id (players d1)).
Proof.
  intros fixed Hu Hsame. cbv zeta.
  destruct (process_players_stores utcoffset offset fixed turns1 d0) as (Hs & _ & _ & Hu1).
  apply (process_players_again utcoffset offset fixed); [exact (Hu1 Hu)|].
  revert Hs. generalize (process_players utcoffset turns1 d0).1. intros d Hs.
  clear - Hs Hsame. induction Hsame as [|t1 t2 l1 l2 [Hp Hpage] Hl IH]; [constructor|].
  apply List.Forall_cons_iff in Hs as [Ht Hs]. constructor; [|exact (IH Hs)].
  unfold turn_stored, visit_records in *. rewrite <- Hp, <- Hpage. exact Ht.
Qed.

(** * The further properties at sample data *)

Lemma save_player_to_db_upsert_witness :
  players_unique (players two_saved_players) /\
  let d' := save_player_to_db "2025-11-23 08:00:00" 1501804 "Musab Aslan" "U14" 2027
              two_saved_players in
  players_unique (players d') /\
  List.filter (fun r => p_player_id r =? 1501804) (players d')
  = [ {| p_player_id := 1501804; p_player_name := "Musab Aslan"; p_team := "U14";
         p_season_year := 2027; p_last_updated := "2025-11-23 08:00:00" |} ] /\
  List.filter (fun r => negb (p_player_id r =? 1501804)) (players d')
  = List.filter (fun r => negb (p_player_id r =? 1501804)) (players two_saved_players) /\
  length (players d')
  = (if existsb (fun r => p_player_id r =? 1501804) (players two_saved_players)
     then length (players two_saved_players) else S (length (players two_saved_players))) /\
  games d' = games two_saved_players /\ games_seq d' = games_seq two_saved_players.
Proof.
  assert (players_unique (players two_saved_players)) as H.
  { unfold players_unique. apply (bool_decide_unpack _). vm_compute. exact I. }
  split; [exact H|].
  exact (save_player_to_db_upsert "2025-11-23 08:00:00" 1501804 "Musab Aslan" "U14" 2027
           two_saved_players H).
Defined.

Lemma save_games_to_db_growth_witness :
  save_games_to_db DirectPage cet sample_clock 1501804 sample_games two_saved_players
  = ((save_games_to_db DirectPage cet sample_clock 1501804 sample_games two_saved_players).1,
     Ok (1%nat, 0%nat)) /\
  (1 + 0 = length sample_games)%nat /\
  exists kept added,
    games (save_games_to_db DirectPage cet sample_clock 1501804 sample_games
             two_saved_players).1 = kept ++ added /\
    map row_identity kept = map row_identity (games two_saved_players) /\
    length added = 1%nat /\
    Forall (fun g => g_player_id g = 1501804) added.
Proof.
  assert (save_games_to_db DirectPage cet sample_clock 1501804 sample_games two_saved_players
          = ((save_games_to_db DirectPage cet sample_clock 1501804 sample_games
                two_saved_players).1, Ok (1%nat, 0%nat))) as H
    by (vm_compute; reflexivity).
  split; [exact H|].
  exact (save_games_to_db_growth DirectPage cet sample_clock 1501804 sample_games
           two_saved_players _ 1%nat 0%nat H).
Defined.

Lemma save_games_to_db_constraints_witness :
  games_unique (games two_saved_players) /\
  rowids_unique (games two_saved_players) /\
  timestamps_not_null (games two_saved_players) /\
  let d' := (save_games_to_db DirectPage cet later_clock 1501804 sample_games
               two_saved_players).1 in
  games_unique (games d') /\ rowids_unique (games d') /\ timestamps_not_null (games d').
Proof.
  assert (games_unique (games two_saved_players)) as H1
    by (unfold games_unique; apply (bool_decide_unpack _); vm_compute; exact I).
  assert (rowids_unique (games two_saved_players)) as H2
    by (unfold rowids_unique; apply (bool_decide_unpack _); vm_compute; exact I).
  assert (timestamps_not_null (games two_saved_players)) as H3
    by (unfold timestamps_not_null; apply (bool_decide_unpack _); vm_compute; exact I).
  split; [exact H1|]. split; [exact H2|]. split; [exact H3|].
  exact (save_games_to_db_constraints DirectPage cet later_clock 1501804 sample_games
           two_saved_players H1 H2 H3).
Defined.

Lemma shared_timestamp_one_row_witness :
  games_unique (games one_saved_player) /\
  Forall (fun game => timestamp_of game = PInt 0)
         (scrape_from_page cet unknown_time_page ++ [undated_record]) /\
  save_games_to_db DirectPage cet sample_clock 1416519
    (scrape_from_page cet unknown_time_page ++ [undated_record]) one_saved_player
  = ((save_games_to_db DirectPage cet sample_clock 1416519
        (scrape_from_page cet unknown_time_page ++ [undated_record]) one_saved_player).1,
     Ok (1%nat, 1%nat)) /\
  (1 <= 1)%nat /\
  exists row,
    List.filter (key_matches 1416519 (PInt 0))
      (games (save_games_to_db DirectPage cet sample_clock 1416519
                (scrape_from_page cet unknown_time_page ++ [undated_record])
                one_saved_player).1)
    = [row] /\
    reflects DirectPage undated_record row /\
    g_last_updated row = sample_clock (length (scrape_from_page cet unknown_time_page)).
Proof.
  assert (games_unique (games one_saved_player)) as H1
    by (unfold games_unique; apply (bool_decide_unpack _); vm_compute; exact I).
  assert (Forall (fun game => timestamp_of game = PInt 0)
            (scrape_from_page cet unknown_time_page ++ [undated_record])) as H2
    by (apply (bool_decide_unpack _); vm_compute; exact I).
  assert (save_games_to_db DirectPage cet sample_clock 1416519
            (scrape_from_page cet unknown_time_page ++ [undated_record]) one_saved_player
          = ((save_games_to_db DirectPage cet sample_clock 1416519
                (scrape_from_page cet unknown_time_page ++ [undated_record])
                one_saved_player).1, Ok (1%nat, 1%nat))) as H3
    by (vm_compute; reflexivity).
  split; [exact H1|]. split; [exact H2|]. split; [exact H3|].
  exact (shared_timestamp_one_row DirectPage cet sample_clock 1416519 (PInt 0)
           (scrape_from_page cet unknown_time_page) undated_record one_saved_player
           _ 1%nat 1%nat H1 H2 H3).
Defined.

Lemma records_dated_and_counted_witness :
  (forall d, head (List.filter is_data_div sample_page) = Some d -> is_date_div d = true) /\
  Forall dated (scrape_from_page cet sample_page) /\
  (length (scrape_from_page cet sample_page)
   <= length (List.filter is_date_div sample_page))%nat /\
  ((collect_games sample_page).2 = None ->
   length (scrape_from_page cet sample_page) = length (List.filter is_date_div sample_page)).
Proof.
  assert (forall d, head (List.filter is_data_div sample_page) = Some d ->
                    is_date_div d = true) as H.
  { intros d Hd. vm_compute in Hd. injection Hd as <-. vm_compute. reflexivity. }
  split; [exact H|].
  exact (records_dated_and_counted cet sample_page H).
Defined.




Lemma nonexistent_day_unknown_time_witness :
  1 <= 31 <= 31 /\ 1 <= 4 <= 12 /\ 0 <= 2026 <= 9999 /\ 0 <= 10 <= 23 /\ 0 <= 0 <= 59 /\
  (2026 = 0 \/ days_in_month 2026 4 < 31) /\
  anstoss_of cet (datum_text 31 4 2026 10 0) = 0.
Proof.
  assert (2026 = 0 \/ days_in_month 2026 4 < 31) as H by (right; vm_compute; reflexivity).
  split; [lia|]. split; [lia|]. split; [lia|]. split; [lia|]. split; [lia|].
  split; [exact H|].
  exact (nonexistent_day_unknown_time cet 31 4 2026 10 0
           ltac:(lia) ltac:(lia) ltac:(lia) ltac:(lia) ltac:(lia) H).
Defined.

Lemma age_group_first_match_witness :
  age_group_of oefb_prefix = "" /\
  ("U"%char = "U"%char \/ "U"%char = "u"%char) /\
  "13" <> "" /\ string_forallb is_decimal "13" = true /\
  take_decimals " Meisterschaft" = "" /\
  age_group_of (oefb_prefix +:+ String "U" ("13" +:+ " Meisterschaft")) = "U13".
Proof.
  assert ("13" <> "") as H by discriminate.
  split; [reflexivity|]. split; [left; reflexivity|]. split; [exact H|].
  split; [reflexivity|]. split; [reflexivity|].
  exact (age_group_first_match oefb_prefix "U" "13" " Meisterschaft"
           eq_refl (or_introl eq_refl) H eq_refl eq_refl).
Defined.

Lemma minutes_chart_window_witness :
  players_unique (players two_saved_players) /\
  exists results,
    generate_minutes_chart DirectPage two_saved_players = chart_input results /\
    Permutation results (window_rows_of g_minutes_played two_saved_players) /\
    descending results.
Proof.
  assert (players_unique (players two_saved_players)) as H.
  { unfold players_unique. apply (bool_decide_unpack _). vm_compute. exact I. }
  split; [exact H|].
  exact (minutes_chart_window two_saved_players H).
Defined.

Lemma sibling_charts_show_every_player_witness :
  players_unique (players two_saved_players) /\
  (exists results,
     generate_minutes_chart ClickEvent two_saved_players = chart_input results /\
     Permutation results (overall_rows_of g_minutes_played two_saved_players) /\
     descending results) /\
  (exists results,
     generate_goals_chart ClickEvent two_saved_players = chart_input results /\
     Permutation results (overall_rows_of g_goals two_saved_players) /\
     ascending results) /\
  (forall col p, games_of two_saved_players p = [] ->
                 total_or_zero (overall_total col two_saved_players p) = 0).
Proof.
  assert (players_unique (players two_saved_players)) as H.
  { unfold players_unique. apply (bool_decide_unpack _). vm_compute. exact I. }
  split; [exact H|].
  exact (sibling_charts_show_every_player two_saved_players H).
Defined.

Lemma program_keeps_schema_witness :
  schema_holds init_database /\
  (forall turns, schema_holds (process_players cet turns init_database).1) /\
  (forall v now clock p name team y data,
     schema_holds (save_player_stats_to_db v cet now clock p name team y data
                     init_database).1).
Proof.
  assert (schema_holds init_database) as H.
  { unfold schema_holds, players_unique, games_unique, rowids_unique, timestamps_not_null,
      games_reference_players. cbn. repeat split; constructor. }
  split; [exact H|].
  exact (program_keeps_schema cet init_database H).
Defined.


Lemma save_games_to_db_counts_not_negative_witness :
  counts_not_negative (games two_saved_players) /\
  counts_not_negative
    (games (save_games_to_db DirectPage cet later_clock 1501804
              (scrape_from_page cet unknown_time_page) two_saved_players).1).
Proof.
  assert (counts_not_negative (games two_saved_players)) as H.
  { unfold counts_not_negative. vm_compute. repeat constructor; discriminate. }
  split; [exact H|].
  exact (save_games_to_db_counts_not_negative DirectPage cet later_clock 1501804
           (scrape_from_page cet unknown_time_page) two_saved_players H).
Defined.

Lemma minutes_chart_bars_witness :
  counts_not_negative (games two_saved_players) /\
  generate_minutes_chart ClickEvent two_saved_players
  = Some (["Kayra Akca"; "Musab Aslan"], [45; 0]) /\
  length ["Kayra Akca"; "Musab Aslan"] = length [45; 0] /\
  Forall (fun t => 0 <= t) [45; 0] /\
  StronglySorted (fun a b => b <= a) [45; 0].
Proof.
  assert (counts_not_negative (games two_saved_players)) as H.
  { unfold counts_not_negative. vm_compute. repeat constructor; discriminate. }
  assert (generate_minutes_chart ClickEvent two_saved_players
          = Some (["Kayra Akca"; "Musab Aslan"], [45; 0])) as Hc
    by (vm_compute; reflexivity).
  split; [exact H|]. split; [exact Hc|].
  exact (minutes_chart_bars ClickEvent two_saved_players _ _ H Hc).
Defined.

Lemma date_window_days_witness :
  0 <= year (kick_off 8 6 2026 10 0) <= 9999 /\
  0 <= month (kick_off 8 6 2026 10 0) <= 99 /\
  0 <= day (kick_off 8 6 2026 10 0) <= 99 /\
  sql_between (Some (strftime_iso (kick_off 8 6 2026 10 0))) window_lo window_hi = false.
Proof.
  assert (0 <= year (kick_off 8 6 2026 10 0) <= 9999) as H1 by (cbn; lia).
  assert (0 <= month (kick_off 8 6 2026 10 0) <= 99) as H2 by (cbn; lia).
  assert (0 <= day (kick_off 8 6 2026 10 0) <= 99) as H3 by (cbn; lia).
  split; [exact H1|]. split; [exact H2|]. split; [exact H3|].
  exact (eq_trans (date_window_days (kick_off 8 6 2026 10 0) H1 H2 H3) eq_refl).
Defined.

Lemma second_run_adds_nothing_witness :
  (forall u, cet u = 3600) /\
  players_unique (players init_database) /\
  Forall2 same_turn [(first_player, sample_visit)] [(first_player, later_visit)] /\
  let d1 := (process_players cet [(first_player, sample_visit)] init_database).1 in
  let d2 := (process_players cet [(first_player, later_visit)] d1).1 in
  map row_identity (games d2) = map row_identity (games d1) /\
  Permutation (map p_player_id (players d2)) (map p_player_id (players d1)).
Proof.
  assert (forall u, cet u = 3600) as H1 by reflexivity.
  assert (players_unique (players init_database)) as H2 by constructor.
  assert (Forall2 same_turn [(first_player, sample_visit)] [(first_player, later_visit)])
    as H3 by (repeat constructor).
  split; [exact H1|]. split; [exact H2|]. split; [exact H3|].
  exact (second_run_adds_nothing cet 3600 [(first_player, sample_visit)]
           [(first_player, later_visit)] init_database H1 H2 H3).
Defined.
